(** * myVote backend: election lifecycle and identity model

    A shallow embedding of the two election back ends of the repository,

    - [FileBackend]: [backend/server.js], the file-backed Express server
      (users.json / elections.json, UUID election ids, verified tokens);
    - [ShortIdRouter]: [backend/elections.db.js], the router that stores
      elections through the [./elections.db] module under ten-character ids,

    and of the page that talks to them,

    - [Frontend]: [frontend/script.js] ([escapeHtml], the authorization
      header of [apiFetch], the election list of [loadElections]),

    followed by the properties of registration, login, election creation and
    the public read routes.

    Request bodies are duck-typed JSON, so the embedding works on a small
    JSON value type with JavaScript's coercions ([truthy], [ToString],
    [ToNumber]) written out.  What the JavaScript runtime and the npm
    libraries contribute (date parsing, number formatting, bcrypt, JWT, the
    random UUIDs and the clock) is collected in the record [Runtime]. *)

From Stdlib Require Import List String Ascii ZArith NArith QArith Bool Lia.
Import ListNotations.

Set Warnings "-register-all".
Local Open Scope string_scope.
Local Open Scope list_scope.
Local Open Scope Z_scope.

(* ================================================================== *)
(** * JavaScript values and coercions                                  *)
(* ================================================================== *)

Module Js.

(** A JavaScript string is a sequence of UTF-16 code units. *)
Definition jsstr := list N.

(** The code units of an ASCII literal of the source text. *)
Definition lit (s : string) : jsstr := map N_of_ascii (list_ascii_of_string s).

Fixpoint str_eqb (a b : jsstr) : bool :=
  match a, b with
  | [], [] => true
  | x :: a', y :: b' => N.eqb x y && str_eqb a' b'
  | _, _ => false
  end.

(** WhiteSpace and LineTerminator code points of ECMAScript: the characters
    removed by [String.prototype.trim] and matched by [\s]. *)
Definition is_space (c : N) : bool :=
  (existsb (N.eqb c)
     [9; 10; 11; 12; 13; 32; 160; 5760; 8232; 8233; 8239; 8287; 12288; 65279]
   || ((8192 <=? c) && (c <=? 8202)))%N.

(** [\d] *)
Definition is_digit (c : N) : bool := ((48 <=? c) && (c <=? 57))%N.

Fixpoint drop_space (s : jsstr) : jsstr :=
  match s with
  | c :: r => if is_space c then drop_space r else s
  | [] => []
  end.

(** [s.trim()] *)
Definition trim (s : jsstr) : jsstr := rev (drop_space (rev (drop_space s))).

Fixpoint prefix_of (p s : jsstr) : bool :=
  match p, s with
  | [], _ => true
  | x :: p', y :: s' => N.eqb x y && prefix_of p' s'
  | _ :: _, [] => false
  end.

(** [s.startsWith(p)] *)
Definition startsWith (s p : jsstr) : bool := prefix_of p s.

(** [s.slice(n)] for a non-negative [n] *)
Definition slice_from (n : nat) (s : jsstr) : jsstr := skipn n s.

(** JSON values, with [undefined] for the result of reading a missing
    property.  Numbers are the finite ones, held as rationals (every finite
    double is one); a JSON literal that overflows the double range, which
    [JSON.parse] reads as an infinity, is outside the model, and no
    statement below speaks of a request that holds one. *)
Inductive JsVal : Type :=
| JUndefined
| JNull
| JBool (b : bool)
| JNum (q : Q)
| JStr (s : jsstr)
| JArr (l : list JsVal)
| JObj (fields : list (jsstr * JsVal)).

(** The result of a numeric computation: a finite number or [NaN]. *)
Inductive number : Type :=
| NaN
| Fin (q : Q).

(** ToBoolean *)
Definition truthy (v : JsVal) : bool :=
  match v with
  | JUndefined | JNull => false
  | JBool b => b
  | JNum q => negb (Qeq_bool q 0)
  | JStr s => match s with [] => false | _ => true end
  | JArr _ | JObj _ => true
  end.

(** [a || b] *)
Definition js_or (a b : JsVal) : JsVal := if truthy a then a else b.

(** A destructuring default [x = d]: used only when the property is
    [undefined]. *)
Definition or_default (v d : JsVal) : JsVal :=
  match v with JUndefined => d | _ => v end.

Fixpoint lookup (k : jsstr) (fields : list (jsstr * JsVal)) : JsVal :=
  match fields with
  | [] => JUndefined
  | (k', v) :: r => if str_eqb k' k then v else lookup k r
  end.

(** [v.k] on a value that is not [null] or [undefined].  The keys read by
    the program are own properties of plain objects only; on arrays and
    primitives they are [undefined].  A parsed object holds each key once. *)
Definition get (v : JsVal) (k : string) : JsVal :=
  match v with
  | JObj fields => lookup (lit k) fields
  | _ => JUndefined
  end.

(** [a === b] between values held in different places: primitives compare by
    value, two objects or arrays are never the same reference. *)
Definition strict_eq (a b : JsVal) : bool :=
  match a, b with
  | JUndefined, JUndefined => true
  | JNull, JNull => true
  | JBool x, JBool y => Bool.eqb x y
  | JNum x, JNum y => Qeq_bool x y
  | JStr x, JStr y => str_eqb x y
  | _, _ => false
  end.

Definition is_string (v : JsVal) : bool :=
  match v with JStr _ => true | _ => false end.

(** The characters of a value known to be a string. *)
Definition str_of (v : JsVal) : jsstr :=
  match v with JStr s => s | _ => [] end.

Definition is_number (v : JsVal) : bool :=
  match v with JNum _ => true | _ => false end.

(** [Array.isArray(v)] *)
Definition isArray (v : JsVal) : bool :=
  match v with JArr _ => true | _ => false end.

Definition elements (v : JsVal) : list JsVal :=
  match v with JArr l => l | _ => [] end.

(** [Number.isNaN], [Number.isInteger] and the comparisons, false on NaN. *)
Definition isNaN (n : number) : bool :=
  match n with NaN => true | Fin _ => false end.

Definition isInteger (n : number) : bool :=
  match n with
  | NaN => false
  | Fin q => (Qnum q mod Zpos (Qden q) =? 0)
  end.

Definition num_ge (a b : number) : bool :=
  match a, b with
  | Fin x, Fin y => Qle_bool y x
  | _, _ => false
  end.

Definition num_le (a b : number) : bool :=
  match a, b with
  | Fin x, Fin y => Qle_bool x y
  | _, _ => false
  end.

(** How [JSON.stringify] writes a number: [NaN] becomes [null]. *)
Definition num_json (n : number) : JsVal :=
  match n with NaN => JNull | Fin q => JNum q end.

(** ** Outcomes: a value or a thrown exception *)

Inductive outcome (A : Type) : Type :=
| Ret (a : A)
| Throw (e : string).
Arguments Ret {A} a.
Arguments Throw {A} e.

(** Calling [v.trim()]: a method of strings only; on anything else the call
    is a TypeError. *)
Definition call_trim (v : JsVal) : outcome jsstr :=
  match v with
  | JStr s => Ret (trim s)
  | _ => Throw "TypeError"
  end.

(** Reading [v.k] where [v] may be anything: a TypeError on [null] and
    [undefined]. *)
Definition prop (v : JsVal) (k : string) : outcome JsVal :=
  match v with
  | JUndefined | JNull => Throw "TypeError"
  | _ => Ret (get v k)
  end.

(** ** The state-and-exception monad of a request handler

    A handler runs against the persistent state [S]; an exception keeps the
    state reached when it was thrown. *)
Definition M (S A : Type) : Type := S -> outcome A * S.

Definition ret {S A} (a : A) : M S A := fun s => (Ret a, s).

Definition bind {S A B} (m : M S A) (f : A -> M S B) : M S B :=
  fun s =>
    match m s with
    | (Ret a, s') => f a s'
    | (Throw e, s') => (Throw e, s')
    end.

Definition lift {S A} (o : outcome A) : M S A := fun s => (o, s).

Definition gets {S A} (f : S -> A) : M S A := fun s => (Ret (f s), s).

Definition modify {S} (f : S -> S) : M S unit := fun s => (Ret tt, f s).

(** [try { m } catch (err) { h }] *)
Definition try_catch {S A} (m : M S A) (h : M S A) : M S A :=
  fun s =>
    match m s with
    | (Ret a, s') => (Ret a, s')
    | (Throw _, s') => h s'
    end.

(** [l.map(f)] with a callback that may throw. *)
Fixpoint mapM {S A B} (f : A -> M S B) (l : list A) : M S (list B) :=
  match l with
  | [] => ret []
  | x :: r => bind (f x) (fun y => bind (mapM f r) (fun ys => ret (y :: ys)))
  end.

(** [l.find(p)] with a callback that may throw. *)
Fixpoint findM {A} (p : A -> outcome bool) (l : list A) : outcome (option A) :=
  match l with
  | [] => Ret None
  | x :: r =>
      match p x with
      | Ret true => Ret (Some x)
      | Ret false => findM p r
      | Throw e => Throw e
      end
  end.

Declare Scope js_scope.
Delimit Scope js_scope with js.
Notation "x <- m ;; k" := (bind m (fun x => k))
  (at level 100, m at next level, right associativity) : js_scope.
Notation "m ;;; k" := (bind m (fun _ => k))
  (at level 100, right associativity) : js_scope.

(** ** HTTP *)

Record Request : Type := {
  authorization : option jsstr;   (* req.headers.authorization *)
  req_body : JsVal;               (* req.body *)
  param_id : jsstr                (* req.params.id *)
}.

Record Response : Type := {
  status : Z;
  body : JsVal
}.

Definition obj (fields : list (string * JsVal)) : JsVal :=
  JObj (map (fun kv => (lit (fst kv), snd kv)) fields).

Definition JLit (s : string) : JsVal := JStr (lit s).

Definition JInt (z : Z) : JsVal := JNum (inject_Z z).

(** [res.status(code).json({ error: msg })] *)
Definition error_response (code : Z) (msg : string) : Response :=
  {| status := code; body := obj [("error", JLit msg)] |}.

(** The property names of an object. *)
Definition keys (v : JsVal) : list jsstr :=
  match v with JObj fields => map fst fields | _ => [] end.

(** ** What the runtime and the libraries provide *)

Record Runtime : Type := {
  (** [Date.parse]: the time value in ms, [None] for an invalid date *)
  Date_parse : jsstr -> option Z;
  (** [Date.prototype.toISOString] of a valid time value *)
  Date_toISOString : Z -> jsstr;
  (** Number::toString and StringToNumber *)
  Number_toString : Q -> jsstr;
  StringToNumber : jsstr -> number;
  (** the n-th value drawn from the environment read as a UUID, as the
      clock, as a bcrypt salt *)
  uuidv4_at : nat -> jsstr;
  Date_now_at : nat -> Z;
  genSaltSync_at : nat -> jsstr;
  (** bcryptjs *)
  hashSync : jsstr -> jsstr -> jsstr;
  compareSync : JsVal -> jsstr -> outcome bool;
  (** jsonwebtoken, under the server's secret; signing and verifying read
      the clock *)
  jwt_sign : JsVal -> Z -> jsstr;
  jwt_verify : jsstr -> Z -> option JsVal;
  jwt_decode : jsstr -> JsVal
}.

(** The values on which [String(v)], [Number(v)], [new Date(v)] and
    [re.test(v)] return.  An object is converted through its [toString]
    and [valueOf]; a parsed object that has a property of its own called
    [toString] hides the inherited method behind a value that cannot be
    called, and the conversion throws a TypeError.  An array is joined, so
    it converts when its elements do.  Everything else converts. *)
Fixpoint converts (v : JsVal) : bool :=
  match v with
  | JObj fields =>
      negb (existsb (fun kv => str_eqb (fst kv) (lit "toString")) fields)
  | JArr l => forallb converts l
  | _ => true
  end.

Section Coercions.
Context (rt : Runtime).

(** ToString; [String(v)] and the argument of [RegExp.prototype.test].
    This is the string of a value that [converts]; on the others the
    conversion throws, and the function is not meant for them. *)
Fixpoint ToString (v : JsVal) : jsstr :=
  match v with
  | JUndefined => lit "undefined"
  | JNull => lit "null"
  | JBool true => lit "true"
  | JBool false => lit "false"
  | JNum q => Number_toString rt q
  | JStr s => s
  | JArr l =>
      (fix join (l : list JsVal) : jsstr :=
         match l with
         | [] => []
         | x :: r =>
             let sx := match x with
                       | JUndefined | JNull => []
                       | _ => ToString x
                       end in
             match r with
             | [] => sx
             | _ :: _ => sx ++ lit "," ++ join r
             end
         end) l
  | JObj _ => lit "[object Object]"
  end.

(** ToNumber; [Number(v)], on a value that [converts].  A string that
    reads as a number beyond the double range is an infinity in JavaScript;
    here it is whatever [StringToNumber] makes of it. *)
Definition ToNumber (v : JsVal) : number :=
  match v with
  | JUndefined => NaN
  | JNull => Fin 0
  | JBool true => Fin 1
  | JBool false => Fin 0
  | JNum q => Fin q
  | JStr s => StringToNumber rt s
  | JArr _ | JObj _ => StringToNumber rt (ToString v)
  end.

(** TimeClip: [NaN] beyond 8.64e15 ms, else the integral part. *)
Definition TimeClip (n : number) : option Z :=
  match n with
  | NaN => None
  | Fin q =>
      let t := Z.quot (Qnum q) (Zpos (Qden q)) in
      if Qle_bool (inject_Z (-8640000000000000)) q
         && Qle_bool q (inject_Z 8640000000000000)
      then Some t else None
  end.

(** The time value of [new Date(v)], on a value that [converts]: a string
    (or an object, through its primitive, a string) is parsed; anything else
    is a number of ms. *)
Definition new_Date (v : JsVal) : option Z :=
  match v with
  | JStr s => Date_parse rt s
  | JArr _ | JObj _ => Date_parse rt (ToString v)
  | _ => TimeClip (ToNumber v)
  end.

(** [d.toISOString()]: a RangeError on an invalid date. *)
Definition toISOString (d : option Z) : outcome jsstr :=
  match d with
  | Some t => Ret (Date_toISOString rt t)
  | None => Throw "RangeError"
  end.

(** The value of a date in a comparison ([valueOf]). *)
Definition date_value (d : option Z) : number :=
  match d with
  | Some t => Fin (inject_Z t)
  | None => NaN
  end.
End Coercions.

End Js.

(* ================================================================== *)
(** * backend/server.js: the file-backed server                        *)
(* ================================================================== *)

Module FileBackend.
Import Js.
Local Open Scope js_scope.

(** A record of users.json. *)
Module User.
Record t : Type := {
  id : jsstr;
  name : jsstr;
  email : option jsstr;        (* a string or null *)
  phone : option jsstr;        (* a string or null *)
  password_hash : jsstr;
  created_at : Z;
  age : JsVal;
  aadhar : JsVal;
  gender : JsVal;
  isAdmin : bool
}.
End User.

(** A candidate inside a record of elections.json. *)
Module Candidate.
Record t : Type := {
  id : jsstr;
  name : jsstr;
  description : JsVal;
  party : JsVal;
  manifesto : JsVal;
  votes : Z
}.
End Candidate.

(** A record of elections.json. *)
Module Election.
Record t : Type := {
  id : jsstr;
  companyName : jsstr;
  totalSeats : number;
  description : jsstr;
  start_ts : number;
  end_ts : number;
  created_by : jsstr;
  created_at : Z;
  candidates : list Candidate.t
}.
End Election.

(** The files the server owns, and how many values it has drawn from its
    environment (UUIDs, clock readings, salts). *)
Record World : Type := {
  users : list User.t;             (* users.json *)
  elections : list Election.t;     (* elections.json *)
  audit_log : list jsstr;          (* audit.log, one entry per line *)
  tick : nat
}.

Definition set_users (f : list User.t -> list User.t) (w : World) : World :=
  {| users := f (users w); elections := elections w;
     audit_log := audit_log w; tick := tick w |}.

Definition set_elections (f : list Election.t -> list Election.t) (w : World)
  : World :=
  {| users := users w; elections := f (elections w);
     audit_log := audit_log w; tick := tick w |}.

Definition set_audit_log (f : list jsstr -> list jsstr) (w : World) : World :=
  {| users := users w; elections := elections w;
     audit_log := f (audit_log w); tick := tick w |}.

Definition advance (w : World) : World :=
  {| users := users w; elections := elections w;
     audit_log := audit_log w; tick := S (tick w) |}.

(** ** Validation helpers *)

Definition is_local (c : N) : bool := negb (is_space c) && negb (N.eqb c 64).

(** The longest prefix of characters satisfying [p], and the rest. *)
Fixpoint span (p : N -> bool) (s : jsstr) : jsstr * jsstr :=
  match s with
  | c :: r => if p c then let (a, b) := span p r in (c :: a, b) else ([], s)
  | [] => ([], [])
  end.

(** Some character that is a dot and is not the last one. *)
Fixpoint dot_then_more (s : jsstr) : bool :=
  match s with
  | c :: r => match r with
              | [] => false
              | _ :: _ => N.eqb c 46 || dot_then_more r
              end
  | [] => false
  end.

(** [/^[^\s@]+@[^\s@]+\.[^\s@]+$/]: a non-empty run of characters other than
    white space and [@], an [@], and a run of such characters with a dot
    strictly inside it. *)
Definition email_re (s : jsstr) : bool :=
  match span is_local s with
  | (_ :: _, at_sign :: r) =>
      N.eqb at_sign 64 && forallb is_local r
      && match r with [] => false | _ :: r' => dot_then_more r' end
  | _ => false
  end.

(** [/^[+\d][\d\s\-]{6,20}$/] *)
Definition phone_re (s : jsstr) : bool :=
  match s with
  | c :: r =>
      (N.eqb c 43 || is_digit c)
      && forallb (fun x => is_digit x || is_space x || N.eqb x 45) r
      && (6 <=? List.length r)%nat && (List.length r <=? 20)%nat
  | [] => false
  end.

(** The handlers convert values of the request with [String], [Number]
    and [re.test].  They are modelled for requests whose converted values
    convert (see [converts]), where the conversion is [ToString] or
    [ToNumber]; on any other value JavaScript throws a TypeError, which the
    try and catch of the handler turns into a 500 and which the handlers
    below leave out. *)
Section Handlers.
Context (rt : Runtime).

Definition isValidEmail (e : JsVal) : bool :=
  truthy e && email_re (ToString rt e).

Definition isValidPhone (p : JsVal) : bool :=
  truthy p && phone_re (ToString rt p).

(** ** Environment *)

Definition uuidv4 : M World jsstr :=
  fun w => (Ret (uuidv4_at rt (tick w)), advance w).

Definition Date_now : M World Z :=
  fun w => (Ret (Date_now_at rt (tick w)), advance w).

Definition genSaltSync : M World jsstr :=
  fun w => (Ret (genSaltSync_at rt (tick w)), advance w).

(** [audit(line)]: one time-stamped line appended to the log. *)
Definition audit (line : jsstr) : M World unit :=
  t <- Date_now ;;
  modify (set_audit_log (fun l =>
    l ++ [Date_toISOString rt t ++ lit " | " ++ line ++ [10%N]])).

(** ** Auth helpers *)

Definition opt_json (o : option jsstr) : JsVal :=
  match o with Some s => JStr s | None => JNull end.

Definition signTokenForUser (user : User.t) : M World jsstr :=
  let payload :=
    obj [("id", JStr (User.id user));
         ("name", js_or (JStr (User.name user)) (JStr []));
         ("email", js_or (opt_json (User.email user)) (JStr []));
         ("phone", js_or (opt_json (User.phone user)) (JStr []))] in
  now <- Date_now ;;
  ret (jwt_sign rt payload now).

Definition getUserFromAuthHeader (req : Request) : M World (option User.t) :=
  match authorization req with
  | None => ret None
  | Some auth =>
      if negb (truthy (JStr auth)) || negb (startsWith auth (lit "Bearer "))
      then ret None
      else
        let token := slice_from 7 auth in
        try_catch
          (now <- Date_now ;;
           match jwt_verify rt token now with
           | None => lift (Throw "JsonWebTokenError")
           | Some data =>
               data_id <- lift (prop data "id") ;;
               db_users <- gets users ;;
               ret (find (fun u => strict_eq (JStr (User.id u)) data_id)
                         db_users)
           end)
          (ret None)
  end.

Definition requireAdmin (req : Request) : M World (Response + User.t) :=
  user <- getUserFromAuthHeader req ;;
  match user with
  | None => ret (inl (error_response 401 "Missing or invalid token"))
  | Some u =>
      if negb (User.isAdmin u)
      then ret (inl (error_response 403 "Admin access required"))
      else ret (inr u)
  end.

Definition requireAuth (req : Request) : M World (Response + User.t) :=
  user <- getUserFromAuthHeader req ;;
  match user with
  | None => ret (inl (error_response 401 "Missing or invalid token"))
  | Some u => ret (inr u)
  end.
(** ** Routes: users and authentication *)

(** [!v || v.trim() === ''] *)
Definition blank (v : JsVal) : outcome bool :=
  if negb (truthy v) then Ret true
  else match call_trim v with
       | Ret t => Ret (str_eqb t [])
       | Throw e => Throw e
       end.

(** [v ? v.trim() : null] *)
Definition trimmed_or_null (v : JsVal) : outcome (option jsstr) :=
  if truthy v
  then match call_trim v with
       | Ret t => Ret (Some t)
       | Throw e => Throw e
       end
  else Ret None.

(** [v && users.find(u => u.field === v.trim())] *)
Definition find_taken (field : User.t -> option jsstr) (v : JsVal)
    (l : list User.t) : outcome (option User.t) :=
  if truthy v
  then findM (fun u => match call_trim v with
                       | Ret t => Ret (strict_eq (opt_json (field u)) (JStr t))
                       | Throw e => Throw e
                       end) l
  else Ret None.

(** POST /api/register *)
Definition register (req : Request) : M World Response :=
  try_catch
    (let b := js_or (req_body req) (JObj []) in
     let name := get b "name" in
     let email := get b "email" in
     let phone := get b "phone" in
     let password := get b "password" in
     let age := get b "age" in
     let aadhar := get b "aadhar" in
     let gender := get b "gender" in
     if negb (truthy name) || negb (is_string name)
        || (List.length (trim (str_of name)) <? 2)%nat
     then ret (error_response 400
                 "Name is required and must be at least 2 characters.")
     else if negb (truthy password) || negb (is_string password)
             || (List.length (str_of password) <? 6)%nat
     then ret (error_response 400
                 "Password is required and must be at least 6 characters.")
     else
       no_email <- lift (blank email) ;;
       no_phone <- (if no_email then lift (blank phone) else ret false) ;;
       if no_email && no_phone
       then ret (error_response 400 "Either email or phone is required.")
       else if truthy email && negb (isValidEmail email)
       then ret (error_response 400 "Invalid email format.")
       else if truthy phone && negb (isValidPhone phone)
       then ret (error_response 400 "Invalid phone format.")
       else
         db_users <- gets users ;;
         email_taken <- lift (find_taken User.email email db_users) ;;
         match email_taken with
         | Some _ => ret (error_response 409 "Email already registered.")
         | None =>
         phone_taken <- lift (find_taken User.phone phone db_users) ;;
         match phone_taken with
         | Some _ => ret (error_response 409 "Phone already registered.")
         | None =>
             salt <- genSaltSync ;;
             let hash := hashSync rt (str_of password) salt in
             id <- uuidv4 ;;
             user_email <- lift (trimmed_or_null email) ;;
             user_phone <- lift (trimmed_or_null phone) ;;
             now <- Date_now ;;
             let user :=
               {| User.id := id;
                  User.name := trim (str_of name);
                  User.email := user_email;
                  User.phone := user_phone;
                  User.password_hash := hash;
                  User.created_at := now;
                  User.age := if truthy age
                              then num_json (ToNumber rt age)
                              else JUndefined;
                  User.aadhar := if truthy aadhar
                                 then JStr (ToString rt aadhar)
                                 else JUndefined;
                  User.gender := js_or gender JUndefined;
                  User.isAdmin := false |} in
             modify (set_users (fun l => l ++ [user])) ;;;
             audit (lit "register | user:" ++ User.id user) ;;;
             ret {| status := 201;
                    body := obj [("message",
                                  JLit "User registered successfully");
                                 ("userId", JStr (User.id user))] |}
         end
         end)
    (ret (error_response 500 "Internal server error")).

(** POST /api/login *)
Definition login (req : Request) : M World Response :=
  try_catch
    (let b := js_or (req_body req) (JObj []) in
     let identifier := get b "identifier" in
     let password := get b "password" in
     if negb (truthy identifier) || negb (truthy password)
     then ret (error_response 400 "identifier and password are required")
     else
       db_users <- gets users ;;
       match find (fun u =>
                     strict_eq (opt_json (User.email u)) identifier
                     || strict_eq (opt_json (User.phone u)) identifier)
                  db_users with
       | None => ret (error_response 401 "Invalid credentials")
       | Some user =>
           ok <- lift (compareSync rt password (User.password_hash user)) ;;
           if negb ok
           then ret (error_response 401 "Invalid credentials")
           else
             token <- signTokenForUser user ;;
             audit (lit "login | user:" ++ User.id user) ;;;
             ret {| status := 200;
                    body := obj [("message", JLit "Authenticated");
                                 ("token", JStr token)] |}
       end)
    (ret (error_response 500 "Internal server error")).

(** GET /api/me *)
Definition me (req : Request) : M World Response :=
  user <- getUserFromAuthHeader req ;;
  match user with
  | None => ret (error_response 401 "Missing or invalid token")
  | Some u =>
      ret {| status := 200;
             body := obj [("user",
                     obj [("id", JStr (User.id u));
                          ("name", JStr (User.name u));
                          ("email", opt_json (User.email u));
                          ("phone", opt_json (User.phone u));
                          ("isAdmin", JBool (User.isAdmin u))])] |}
  end.

(** ** Routes: elections *)

Definition candidate_json (c : Candidate.t) : JsVal :=
  obj [("id", JStr (Candidate.id c));
       ("name", JStr (Candidate.name c));
       ("description", Candidate.description c);
       ("party", Candidate.party c);
       ("manifesto", Candidate.manifesto c);
       ("votes", JInt (Candidate.votes c))].

Definition election_json (e : Election.t) : JsVal :=
  obj [("id", JStr (Election.id e));
       ("companyName", JStr (Election.companyName e));
       ("totalSeats", num_json (Election.totalSeats e));
       ("description", JStr (Election.description e));
       ("start_ts", num_json (Election.start_ts e));
       ("end_ts", num_json (Election.end_ts e));
       ("created_by", JStr (Election.created_by e));
       ("created_at", JInt (Election.created_at e));
       ("candidates", JArr (map candidate_json (Election.candidates e)))].

(** [parseToNumber]: a number is taken as it is, anything else is read as
    a date string, through [String(v)]: the result on a value that
    [converts]. *)
Definition parseToNumber (v : JsVal) : number :=
  match v with
  | JNum q => Fin q
  | _ => date_value (Date_parse rt (ToString rt v))
  end.

(** The callback of [candidates.map]. *)
Definition new_candidate (c : JsVal) : M World Candidate.t :=
  id <- uuidv4 ;;
  c_name <- lift (prop c "name") ;;
  ret {| Candidate.id := id;
         Candidate.name := trim (ToString rt (js_or c_name (JStr [])));
         Candidate.description := js_or (get c "description") (JStr []);
         Candidate.party := js_or (get c "party") (JStr []);
         Candidate.manifesto := js_or (get c "manifesto") (JStr []);
         Candidate.votes := 0 |}.

(** POST /api/elections *)
Definition create_election (req : Request) : M World Response :=
  try_catch
    (authUser <- requireAuth req ;;
     match authUser with
     | inl rejected => ret rejected
     | inr authUser =>
         let b := js_or (req_body req) (JObj []) in
         let companyName := get b "companyName" in
         let totalSeats := get b "totalSeats" in
         let start_ts := get b "start_ts" in
         let end_ts := get b "end_ts" in
         let description := or_default (get b "description") (JStr []) in
         let candidates := or_default (get b "candidates") (JArr []) in
         if negb (truthy companyName) || negb (truthy totalSeats)
            || negb (truthy start_ts) || negb (truthy end_ts)
            || negb (isArray candidates)
            || (List.length (elements candidates) =? 0)%nat
         then ret (error_response 400
                "companyName, totalSeats, start_ts, end_ts and at least one candidate are required")
         else
           let s := parseToNumber start_ts in
           let e := parseToNumber end_ts in
           let seats := ToNumber rt totalSeats in
           if isNaN s || isNaN e || num_ge s e
           then ret (error_response 400 "Invalid start/end timestamps")
           else if negb (isInteger seats) || num_le seats (Fin 0)
           then ret (error_response 400
                       "totalSeats must be a positive integer")
           else
             id <- uuidv4 ;;
             now <- Date_now ;;
             cs <- mapM new_candidate (elements candidates) ;;
             let election :=
               {| Election.id := id;
                  Election.companyName := trim (ToString rt companyName);
                  Election.totalSeats := seats;
                  Election.description :=
                    ToString rt (js_or description (JStr []));
                  Election.start_ts := s;
                  Election.end_ts := e;
                  Election.created_by := User.id authUser;
                  Election.created_at := now;
                  Election.candidates := cs |} in
             modify (set_elections (fun l => l ++ [election])) ;;;
             audit (lit "create-election | user:" ++ User.id authUser
                    ++ lit " | election:" ++ Election.id election) ;;;
             ret {| status := 201;
                    body := obj [("success", JBool true);
                                 ("election", election_json election)] |}
     end)
    (ret (error_response 500 "Server error")).

(** GET /api/elections (public summary) *)
Definition summary_json (e : Election.t) : JsVal :=
  obj [("id", JStr (Election.id e));
       ("companyName", JStr (Election.companyName e));
       ("totalSeats", num_json (Election.totalSeats e));
       ("start_ts", num_json (Election.start_ts e));
       ("end_ts", num_json (Election.end_ts e));
       ("description", JStr (Election.description e))].

Definition list_elections (req : Request) : M World Response :=
  db_elections <- gets elections ;;
  ret {| status := 200;
         body := obj [("elections", JArr (map summary_json db_elections))] |}.

Definition find_election (id : jsstr) (l : list Election.t)
  : option Election.t :=
  find (fun x => strict_eq (JStr (Election.id x)) (JStr id)) l.

(** GET /api/elections/:id *)
Definition get_election (req : Request) : M World Response :=
  db_elections <- gets elections ;;
  match find_election (param_id req) db_elections with
  | None => ret (error_response 404 "Election not found")
  | Some e => ret {| status := 200;
                     body := obj [("election", election_json e)] |}
  end.

Definition roster_json (c : Candidate.t) : JsVal :=
  obj [("id", JStr (Candidate.id c));
       ("name", JStr (Candidate.name c));
       ("description", Candidate.description c);
       ("party", js_or (Candidate.party c) (JStr []));
       ("manifesto", js_or (Candidate.manifesto c) (JStr []))].

(** GET /api/elections/:id/candidates *)
Definition get_candidates (req : Request) : M World Response :=
  db_elections <- gets elections ;;
  match find_election (param_id req) db_elections with
  | None => ret (error_response 404 "Election not found")
  | Some e =>
      ret {| status := 200;
             body := obj [("electionId", JStr (Election.id e));
                          ("candidates",
                           JArr (map roster_json (Election.candidates e)))] |}
  end.
End Handlers.

End FileBackend.

(* ================================================================== *)
(** * backend/elections.db.js: the short-id router                     *)
(* ================================================================== *)

Module ShortIdRouter.
Import Js.
Local Open Scope js_scope.

(** A row of the elections table, as the router builds it ([electionObj]). *)
Module ElectionRow.
Record t : Type := {
  id : jsstr;
  title : JsVal;
  description : JsVal;
  start_at : jsstr;
  end_at : jsstr;
  eligibility : JsVal;
  publish : Z;
  created_by : JsVal;
  created_at : jsstr
}.
End ElectionRow.

(** A row of the candidates table: the object handed to
    [db.insertCandidate], under its row id. *)
Module CandidateRow.
Record t : Type := {
  rowid : Z;
  election_id : jsstr;
  name : jsstr;
  party : JsVal;
  manifesto : JsVal
}.
End CandidateRow.

(** The database behind [require('./elections.db')] and the number of values
    drawn from the environment. *)
Record Store : Type := {
  election_rows : list ElectionRow.t;
  candidate_rows : list CandidateRow.t;
  tick : nat
}.

Definition advance (st : Store) : Store :=
  {| election_rows := election_rows st;
     candidate_rows := candidate_rows st;
     tick := S (tick st) |}.

(** ** The storage module *)

(** Modelled from the spec: [db.electionExists] of the storage module
    [./elections.db], which is not among the sources.  The registry enforces
    id uniqueness; the check answers whether an election with this id is
    stored. *)
Definition electionExists (id : jsstr) (st : Store) : bool :=
  existsb (fun r => str_eqb (ElectionRow.id r) id) (election_rows st).

(** Modelled from the spec: [db.insertElection] of the storage module
    [./elections.db]; [insert(table, row)] adds the row to the table. *)
Definition insertElection (row : ElectionRow.t) : M Store unit :=
  modify (fun st =>
    {| election_rows := election_rows st ++ [row];
       candidate_rows := candidate_rows st;
       tick := tick st |}).

(** Modelled from the spec: [db.insertCandidate] of the storage module
    [./elections.db]; [insert(table, row) -> generatedId], the id being a
    registry-assigned sequence number, returned as [lastInsertRowid]. *)
Definition insertCandidate (election_id name : jsstr) (party manifesto : JsVal)
  : M Store Z :=
  fun st =>
    let rowid := Z.of_nat (S (List.length (candidate_rows st))) in
    (Ret rowid,
     {| election_rows := election_rows st;
        candidate_rows := candidate_rows st ++
          [{| CandidateRow.rowid := rowid;
              CandidateRow.election_id := election_id;
              CandidateRow.name := name;
              CandidateRow.party := party;
              CandidateRow.manifesto := manifesto |}];
        tick := tick st |}).

(** Modelled from the spec: [db.getCandidatesByElectionId] of the storage
    module [./elections.db]: the candidates owned by the election, in
    insertion order. *)
Definition getCandidatesByElectionId (id : jsstr) (st : Store)
  : list CandidateRow.t :=
  filter (fun c => str_eqb (CandidateRow.election_id c) id) (candidate_rows st).

(** Modelled from the spec: [db.getElectionById] of the storage module
    [./elections.db]; [queryById(table, id) -> row | none], the full record
    including its candidates. *)
Definition getElectionById (id : jsstr) (st : Store)
  : option (ElectionRow.t * list CandidateRow.t) :=
  match find (fun r => str_eqb (ElectionRow.id r) id) (election_rows st) with
  | Some r => Some (r, getCandidatesByElectionId id st)
  | None => None
  end.

Definition candidate_row_json (c : CandidateRow.t) : JsVal :=
  obj [("id", JInt (CandidateRow.rowid c));
       ("election_id", JStr (CandidateRow.election_id c));
       ("name", JStr (CandidateRow.name c));
       ("party", CandidateRow.party c);
       ("manifesto", CandidateRow.manifesto c)].

Definition election_row_json (r : ElectionRow.t) (cs : list CandidateRow.t)
  : JsVal :=
  obj [("id", JStr (ElectionRow.id r));
       ("title", ElectionRow.title r);
       ("description", ElectionRow.description r);
       ("start_at", JStr (ElectionRow.start_at r));
       ("end_at", JStr (ElectionRow.end_at r));
       ("eligibility", ElectionRow.eligibility r);
       ("publish", JInt (ElectionRow.publish r));
       ("created_by", ElectionRow.created_by r);
       ("created_at", JStr (ElectionRow.created_at r));
       ("candidates", JArr (map candidate_row_json cs))].

(** ** The router

    The router converts the two dates of a request with [new Date]; it is
    modelled for requests whose dates convert (see [converts]), as the
    handlers of the file-backed server are. *)

Section Handlers.
Context (rt : Runtime).

Definition strip_dashes (s : jsstr) : jsstr :=
  filter (fun c => negb (N.eqb c 45)) s.

(** [uuidv4().replace(/-/g, '').slice(0, 10)] *)
Definition generateShortId : M Store jsstr :=
  fun st =>
    (Ret (firstn 10 (strip_dashes (uuidv4_at rt (tick st)))), advance st).

Definition Date_now : M Store Z :=
  fun st => (Ret (Date_now_at rt (tick st)), advance st).

(** The token is decoded, not verified; the payload is taken to be an
    object, or [null] when the token does not decode. *)
Definition getUserFromAuthHeader (req : Request) : JsVal :=
  match authorization req with
  | None => JNull
  | Some auth =>
      if negb (truthy (JStr auth)) || negb (startsWith auth (lit "Bearer "))
      then JNull
      else js_or (jwt_decode rt (slice_from 7 auth)) JNull
  end.

(** [while (db.electionExists(electionId) && tries < 6)], with
    [remaining = 6 - tries]. *)
Fixpoint retry_id (remaining : nat) (electionId : jsstr) : M Store jsstr :=
  match remaining with
  | O => ret electionId
  | S k =>
      taken <- gets (electionExists electionId) ;;
      if taken
      then (fresh <- generateShortId ;; retry_id k fresh)
      else ret electionId
  end.

Definition saved_json (id : Z) (name : jsstr) (party manifesto : JsVal)
  : JsVal :=
  obj [("id", JInt id); ("name", JStr name);
       ("party", party); ("manifesto", manifesto)].

(** The body of [for (const c of candidates)]. *)
Fixpoint save_candidates (electionId : jsstr) (cs : list JsVal)
  : M Store (list JsVal) :=
  match cs with
  | [] => ret []
  | c :: rest =>
      c_name <- lift (prop c "name") ;;
      name <- lift (call_trim (js_or c_name (JStr []))) ;;
      if negb (truthy (JStr name))
      then save_candidates electionId rest
      else
        let party := js_or (get c "party") (JStr []) in
        let manifesto := js_or (get c "manifesto") (JStr []) in
        rowid <- insertCandidate electionId name party manifesto ;;
        saved <- save_candidates electionId rest ;;
        ret (saved_json rowid name party manifesto :: saved)
  end.

(** POST /api/elections *)
Definition create_election (req : Request) : M Store Response :=
  try_catch
    (let b := js_or (req_body req) (JObj []) in
     let title := get b "title" in
     let description := or_default (get b "description") (JStr []) in
     let start := get b "start" in
     let end_ := get b "end" in
     let eligibility := or_default (get b "eligibility") (JLit "all") in
     let candidates := or_default (get b "candidates") (JArr []) in
     let publish := or_default (get b "publish") (JBool false) in
     if negb (truthy title) || negb (truthy start) || negb (truthy end_)
     then ret (error_response 400 "title, start and end are required")
     else if num_ge (date_value (new_Date rt start))
                    (date_value (new_Date rt end_))
     then ret (error_response 400 "end must be after start")
     else
       let user := getUserFromAuthHeader req in
       let created_by :=
         if truthy user
         then js_or (get user "email")
                (js_or (get user "sub")
                   (js_or (get user "id") (get user "name")))
         else JNull in
       first <- generateShortId ;;
       electionId <- retry_id 6 first ;;
       taken <- gets (electionExists electionId) ;;
       if taken
       then ret (error_response 500 "Could not generate unique election id")
       else
         start_at <- lift (toISOString rt (new_Date rt start)) ;;
         end_at <- lift (toISOString rt (new_Date rt end_)) ;;
         now <- Date_now ;;
         let electionObj :=
           {| ElectionRow.id := electionId;
              ElectionRow.title := title;
              ElectionRow.description := description;
              ElectionRow.start_at := start_at;
              ElectionRow.end_at := end_at;
              ElectionRow.eligibility := eligibility;
              ElectionRow.publish := if truthy publish then 1 else 0;
              ElectionRow.created_by := created_by;
              ElectionRow.created_at := Date_toISOString rt now |} in
         insertElection electionObj ;;;
         savedCandidates <-
           (if isArray candidates
            then save_candidates electionId (elements candidates)
            else ret []) ;;
         ret {| status := 201;
                body := obj
                  [("success", JBool true);
                   ("election",
                    obj [("id", JStr electionId);
                         ("title", title);
                         ("description", description);
                         ("start_at", JStr start_at);
                         ("end_at", JStr end_at);
                         ("eligibility", eligibility);
                         ("publish", JBool (truthy publish));
                         ("created_by", created_by);
                         ("created_at", JStr (ElectionRow.created_at electionObj));
                         ("candidates", JArr savedCandidates)])] |})
    (ret (error_response 500 "Internal server error")).

(** GET /api/elections/:id *)
Definition get_election (req : Request) : M Store Response :=
  election <- gets (getElectionById (param_id req)) ;;
  match election with
  | None => ret (error_response 404 "Election not found")
  | Some (r, cs) =>
      ret {| status := 200;
             body := obj [("election", election_row_json r cs)] |}
  end.

(** GET /api/elections/:id/candidates *)
Definition get_candidates (req : Request) : M Store Response :=
  candidates <- gets (getCandidatesByElectionId (param_id req)) ;;
  ret {| status := 200;
         body := obj [("candidates",
                       JArr (map candidate_row_json candidates))] |}.
End Handlers.

End ShortIdRouter.

(* ================================================================== *)
(** * frontend/script.js: the page                                     *)
(* ================================================================== *)

Module Frontend.
Import Js.

(** What [String.prototype.replace] puts for one code unit under the
    pattern of [escapeHtml]: the ampersand, the two angle brackets, the
    double quote and the apostrophe become their entities, every other code
    unit stays. *)
Definition entity (c : N) : jsstr :=
  if N.eqb c 38 then lit "&amp;"
  else if N.eqb c 60 then lit "&lt;"
  else if N.eqb c 62 then lit "&gt;"
  else if N.eqb c 34 then lit "&quot;"
  else if N.eqb c 39 then lit "&#39;"
  else [c].

Section Page.
Context (rt : Runtime).
(** [Date.prototype.toLocaleString], which depends on the browser's locale,
    and [JSON.stringify]. *)
Context (toLocaleString : option Z -> jsstr).
Context (JSON_stringify : JsVal -> JsVal).

(** [escapeHtml(str)] *)
Definition escapeHtml (str : JsVal) : jsstr :=
  if negb (truthy str) then []
  else flat_map entity (ToString rt str).

(** The header [apiFetch] adds for the stored token. *)
Definition authorization_header (token : JsVal) : option jsstr :=
  if truthy token then Some (lit "Bearer " ++ ToString rt token) else None.

(** What [loadElections] leaves in the list element: the [innerHTML] given
    to each appended [li], or the markup assigned to the list itself. *)
Inductive Rendered : Type :=
| Items (l : list jsstr)
| Markup (html : jsstr).

(** The callback of [data.elections.forEach]. *)
Definition election_item (e : JsVal) : outcome jsstr :=
  match prop e "name" with
  | Throw x => Throw x
  | Ret e_name =>
      Ret (lit "<strong>" ++ escapeHtml e_name ++ lit "</strong><br><small>"
           ++ toLocaleString (new_Date rt (get e "start_ts")) ++ lit " - "
           ++ toLocaleString (new_Date rt (get e "end_ts")) ++ lit "</small>")
  end.

Fixpoint election_items (l : list JsVal) : outcome (list jsstr) :=
  match l with
  | [] => Ret []
  | e :: r =>
      match election_item e with
      | Throw x => Throw x
      | Ret li =>
          match election_items r with
          | Throw x => Throw x
          | Ret lis => Ret (li :: lis)
          end
      end
  end.

(** [loadElections], from the value [apiFetch] resolved to, on a page that
    has the list element. *)
Definition loadElections (data : JsVal) : outcome Rendered :=
  if truthy data && truthy (get data "elections")
     && isArray (get data "elections")
  then match election_items (elements (get data "elections")) with
       | Ret lis => Ret (Items lis)
       | Throw x => Throw x
       end
  else Ret (Markup (lit "<li>" ++ escapeHtml (JSON_stringify data)
                    ++ lit "</li>")).
End Page.
End Frontend.

(* ================================================================== *)
(** * A sample environment                                             *)
(* ================================================================== *)

(** A small executable [Runtime], for running the handlers on concrete
    requests.  Its functions agree with JavaScript and the libraries on the
    inputs used in this file: two ISO dates, decimal integers, tokens of the
    form [tok:<user id>]. *)
Module Sample.
Import Js.

Definition date1 : jsstr := lit "2025-01-01T00:00:00Z".
Definition date2 : jsstr := lit "2025-01-02T00:00:00Z".
Definition time1 : Z := 1735689600000.
Definition time2 : Z := 1735776000000.

Definition Date_parse (s : jsstr) : option Z :=
  if str_eqb s date1 then Some time1
  else if str_eqb s date2 then Some time2
  else None.

Definition Date_toISOString (t : Z) : jsstr :=
  if t =? time1 then lit "2025-01-01T00:00:00.000Z"
  else if t =? time2 then lit "2025-01-02T00:00:00.000Z"
  else lit "1970-01-01T00:00:00.000Z".

Fixpoint digits (fuel : nat) (n : N) (acc : jsstr) : jsstr :=
  match fuel with
  | O => acc
  | S k =>
      let acc' := (48 + n mod 10)%N :: acc in
      if (n <? 10)%N then acc' else digits k (n / 10)%N acc'
  end.

Definition decimal (n : N) : jsstr := digits (S (N.to_nat (N.log2 n))) n [].

(** Number::toString, on the integers. *)
Definition Number_toString (q : Q) : jsstr :=
  match Qnum q with
  | Z0 => lit "0"
  | Zpos p => decimal (Npos p)
  | Zneg p => lit "-" ++ decimal (Npos p)
  end.

Definition StringToNumber (s : jsstr) : number :=
  match s with
  | [] => Fin 0
  | _ :: _ =>
      if forallb is_digit s
      then Fin (inject_Z (Z.of_N (fold_left (fun a c => a * 10 + (c - 48)) s 0)%N))
      else NaN
  end.

(** The n-th UUID: eight hexadecimal digits counting up from zero, then a
    fixed tail. *)
Definition hex_digit (n : nat) : N :=
  N.of_nat (if (n <? 10)%nat then 48 + n else 87 + n)%nat.

Definition uuidv4_at (n : nat) : jsstr :=
  lit "000000" ++ [hex_digit ((n / 16) mod 16); hex_digit (n mod 16)]
  ++ lit "-0000-4000-8000-000000000000".

Definition salt : jsstr := lit "$2a$10$abcdefghijklmnopqrstuv".

Definition hashSync (password s : jsstr) : jsstr := s ++ password.

(** bcryptjs refuses arguments that are not strings. *)
Definition compareSync (password : JsVal) (hash : jsstr) : outcome bool :=
  match password with
  | JStr p => Ret (str_eqb hash (firstn 29 hash ++ p))
  | _ => Throw "Error"
  end.

Definition jwt_sign (payload : JsVal) (now : Z) : jsstr :=
  lit "tok:" ++ str_of (get payload "id").

Definition jwt_decode (token : jsstr) : JsVal :=
  if startsWith token (lit "tok:")
  then obj [("id", JStr (slice_from 4 token))]
  else JNull.

Definition jwt_verify (token : jsstr) (now : Z) : option JsVal :=
  if startsWith token (lit "tok:")
  then Some (obj [("id", JStr (slice_from 4 token))])
  else None.

Definition runtime : Runtime :=
  {| Js.Date_parse := Date_parse;
     Js.Date_toISOString := Date_toISOString;
     Js.Number_toString := Number_toString;
     Js.StringToNumber := StringToNumber;
     Js.uuidv4_at := uuidv4_at;
     Js.Date_now_at := fun _ => time1;
     Js.genSaltSync_at := fun _ => salt;
     Js.hashSync := hashSync;
     Js.compareSync := compareSync;
     Js.jwt_sign := jwt_sign;
     Js.jwt_verify := jwt_verify;
     Js.jwt_decode := jwt_decode |}.

(** The same environment with a UUID source that always returns the same
    value. *)
Definition stuck_runtime : Runtime :=
  {| Js.Date_parse := Date_parse;
     Js.Date_toISOString := Date_toISOString;
     Js.Number_toString := Number_toString;
     Js.StringToNumber := StringToNumber;
     Js.uuidv4_at := fun _ => uuidv4_at 0;
     Js.Date_now_at := fun _ => time1;
     Js.genSaltSync_at := fun _ => salt;
     Js.hashSync := hashSync;
     Js.compareSync := compareSync;
     Js.jwt_sign := jwt_sign;
     Js.jwt_verify := jwt_verify;
     Js.jwt_decode := jwt_decode |}.

Definition request (auth : option jsstr) (b : JsVal) (id : jsstr) : Request :=
  {| authorization := auth; req_body := b; param_id := id |}.

(** ** The file-backed server *)

Definition empty_world : FileBackend.World :=
  {| FileBackend.users := []; FileBackend.elections := [];
     FileBackend.audit_log := []; FileBackend.tick := 0 |}.

Definition register_alice : Request :=
  request None
    (obj [("name", JLit "Alice"); ("email", JLit "alice@example.com");
          ("phone", JLit "+911234567890"); ("password", JLit "secret1")])
    [].

(** The world after Alice has registered. *)
Definition world1 : FileBackend.World :=
  snd (FileBackend.register runtime register_alice empty_world).

Definition alice_token : jsstr := lit "Bearer tok:" ++ uuidv4_at 1.

Definition candidates3_list : list JsVal :=
  [obj [("name", JLit " Asha "); ("party", JLit "Blue")];
   obj [("name", JLit "Bo"); ("manifesto", JLit "More parks")];
   obj [("name", JLit "Chen"); ("description", JLit "Incumbent")]].

Definition candidates3 : JsVal := JArr candidates3_list.

Definition election_body (start_ts end_ts : JsVal) : JsVal :=
  obj [("companyName", JLit "Acme"); ("totalSeats", JInt 3);
       ("start_ts", start_ts); ("end_ts", end_ts);
       ("candidates", candidates3)].

(** ** The short-id router *)

Definition empty_store : ShortIdRouter.Store :=
  {| ShortIdRouter.election_rows := []; ShortIdRouter.candidate_rows := [];
     ShortIdRouter.tick := 0 |}.

Definition router_body (start end_ : JsVal) (candidates : JsVal) : JsVal :=
  obj [("title", JLit "Board"); ("start", start); ("end", end_);
       ("candidates", candidates)].

End Sample.

Import Js.
Local Open Scope js_scope.

(* ================================================================== *)
(** * The vocabulary of the properties                                  *)
(* ================================================================== *)

(** ** Requests *)

(** The four ways in which a request carries no identity. *)
Inductive unauthenticated (rt : Runtime) (w : FileBackend.World)
    (req : Request) : Prop :=
| header_absent :
    authorization req = None -> unauthenticated rt w req
| header_malformed auth :
    authorization req = Some auth ->
    startsWith auth (lit "Bearer ") = false ->
    unauthenticated rt w req
| token_rejected auth :
    authorization req = Some auth ->
    jwt_verify rt (slice_from 7 auth)
      (Date_now_at rt (FileBackend.tick w)) = None ->
    unauthenticated rt w req
| user_unknown auth data :
    authorization req = Some auth ->
    jwt_verify rt (slice_from 7 auth)
      (Date_now_at rt (FileBackend.tick w)) = Some data ->
    (forall u, In u (FileBackend.users w) ->
               prop data "id" <> Ret (JStr (FileBackend.User.id u))) ->
    unauthenticated rt w req.

(** The body of a request, as the handlers read it. *)
Definition body_of (req : Request) : JsVal := js_or (req_body req) (JObj []).

(** The two instants of a request to the file-backed server, as the handler
    normalizes them. *)
Definition start_of (rt : Runtime) (req : Request) : number :=
  FileBackend.parseToNumber rt (get (body_of req) "start_ts").

Definition end_of (rt : Runtime) (req : Request) : number :=
  FileBackend.parseToNumber rt (get (body_of req) "end_ts").

(** The two dates of a request to the short-id router: the time values of
    [new Date(start)] and [new Date(end)]. *)
Definition router_start (rt : Runtime) (req : Request) : option Z :=
  new_Date rt (get (body_of req) "start").

Definition router_end (rt : Runtime) (req : Request) : option Z :=
  new_Date rt (get (body_of req) "end").

(** A request to the router without an authorization header, and what the
    router does with it on an empty store. *)
Definition board_request : Request :=
  Sample.request None
    (Sample.router_body (JStr Sample.date1) (JStr Sample.date2)
       Sample.candidates3) [].

Definition anonymous_board : outcome Response * ShortIdRouter.Store :=
  ShortIdRouter.create_election Sample.runtime board_request Sample.empty_store.

(** A read request for an id that no election has. *)
Definition unknown_id_request : Request :=
  Sample.request None JUndefined (lit "nosuchid").

(** A request to the file-backed server whose start is a day after its end,
    sent by Alice. *)
Definition late_start_request : Request :=
  Sample.request (Some Sample.alice_token)
    (Sample.election_body (JStr Sample.date2) (JStr Sample.date1)) [].

(** The same request without an authorization header. *)
Definition anonymous_late_start_request : Request :=
  Sample.request None
    (Sample.election_body (JStr Sample.date2) (JStr Sample.date1)) [].

Definition late_start_router_request : Request :=
  Sample.request None
    (Sample.router_body (JStr Sample.date2) (JStr Sample.date1)
       Sample.candidates3) [].

(** ** Responses *)

(** The property names of a summary. *)
Definition summary_keys : list jsstr :=
  map lit ["id"; "companyName"; "totalSeats"; "start_ts"; "end_ts";
           "description"].

(** A value with nothing nested inside it. *)
Definition is_scalar (v : JsVal) : bool :=
  match v with
  | JArr _ | JObj _ => false
  | _ => true
  end.

Definition values (v : JsVal) : list JsVal :=
  match v with JObj fields => map snd fields | _ => [] end.

(** ** Users *)

(** The user a login identifier resolves to: the first one whose email or
    phone is the identifier. *)
Definition lookup_identifier (identifier : JsVal) (l : list FileBackend.User.t)
  : option FileBackend.User.t :=
  find (fun u =>
          strict_eq (FileBackend.opt_json (FileBackend.User.email u)) identifier
          || strict_eq (FileBackend.opt_json (FileBackend.User.phone u)) identifier)
       l.

Definition identifier_of (req : Request) : JsVal :=
  get (body_of req) "identifier".

Definition password_of (req : Request) : JsVal :=
  get (body_of req) "password".

Definition login_request (identifier password : string) : Request :=
  Sample.request None
    (obj [("identifier", JLit identifier); ("password", JLit password)]) [].

(** [keeps R m]: running [m] relates the state before to the state after by
    [R], however [m] ends. *)
Definition keeps {S A : Type} (R : S -> S -> Prop) (m : M S A) : Prop :=
  forall s o s', m s = (o, s') -> R s s'.

Definition email_of (req : Request) : JsVal := get (body_of req) "email".

Definition phone_of (req : Request) : JsVal := get (body_of req) "phone".

(** The requests the server accepts, and the store after a sequence of
    them. *)
Inductive Call : Type :=
| PostRegister (req : Request)
| PostLogin (req : Request)
| GetMe (req : Request)
| PostElections (req : Request)
| GetElections (req : Request)
| GetElection (req : Request)
| GetElectionCandidates (req : Request).

Definition serve (rt : Runtime) (c : Call) : M FileBackend.World Response :=
  match c with
  | PostRegister req => FileBackend.register rt req
  | PostLogin req => FileBackend.login rt req
  | GetMe req => FileBackend.me rt req
  | PostElections req => FileBackend.create_election rt req
  | GetElections req => FileBackend.list_elections req
  | GetElection req => FileBackend.get_election req
  | GetElectionCandidates req => FileBackend.get_candidates req
  end.

Definition serve_all (rt : Runtime) (calls : list Call) (w : FileBackend.World)
  : FileBackend.World :=
  fold_left (fun w c => snd (serve rt c w)) calls w.

(** The emails and the phones held by the stored users ([null] left out). *)
Definition present (o : option jsstr) : list jsstr :=
  match o with Some s => [s] | None => [] end.

Definition emails (l : list FileBackend.User.t) : list jsstr :=
  flat_map (fun u => present (FileBackend.User.email u)) l.

Definition phones (l : list FileBackend.User.t) : list jsstr :=
  flat_map (fun u => present (FileBackend.User.phone u)) l.

Definition unique_identifiers (w : FileBackend.World) : Prop :=
  NoDup (emails (FileBackend.users w)) /\ NoDup (phones (FileBackend.users w)).

(** This field of a registration is absent, or a string of the right
    format. *)
Definition field_ok (valid : JsVal -> bool) (v : JsVal) : bool :=
  negb (truthy v) || (is_string v && valid v).

(** The registration passes the field validation: a name of two characters
    or more, a password of six or more, an email or a phone, each one given
    well-formed. *)
Definition fields_valid (rt : Runtime) (req : Request) : bool :=
  let b := body_of req in
  truthy (get b "name") && is_string (get b "name")
  && (2 <=? List.length (trim (str_of (get b "name"))))%nat
  && truthy (get b "password") && is_string (get b "password")
  && (6 <=? List.length (str_of (get b "password")))%nat
  && field_ok (FileBackend.isValidEmail rt) (email_of req)
  && field_ok (FileBackend.isValidPhone rt) (phone_of req)
  && (truthy (email_of req) || truthy (phone_of req)).

(** The same identifier again: the email, or the phone, that the first
    request supplied. *)
Definition supplies_same (first again : Request) : Prop :=
  (truthy (email_of first) = true /\ email_of again = email_of first)
  \/ (truthy (phone_of first) = true /\ phone_of again = phone_of first).

Definition register_alice_again : Request :=
  Sample.request None
    (obj [("name", JLit "Alicia"); ("email", JLit "alice@example.com");
          ("password", JLit "another1")])
    [].

(** Alice's email once more, with a password that is too short. *)
Definition register_alice_short : Request :=
  Sample.request None
    (obj [("name", JLit "Alicia"); ("email", JLit "alice@example.com");
          ("password", JLit "short")])
    [].

Definition calls_in_between : list Call :=
  [PostLogin (login_request "alice@example.com" "secret1");
   GetElections (Sample.request None JUndefined [])].

(** ** Elections of the file-backed server *)

(** The candidate stored for a submitted candidate [c] under the id [id]. *)
Definition candidate_of (rt : Runtime) (id : jsstr) (c : JsVal)
  : FileBackend.Candidate.t :=
  {| FileBackend.Candidate.id := id;
     FileBackend.Candidate.name :=
       trim (ToString rt (js_or (get c "name") (JStr [])));
     FileBackend.Candidate.description := js_or (get c "description") (JStr []);
     FileBackend.Candidate.party := js_or (get c "party") (JStr []);
     FileBackend.Candidate.manifesto := js_or (get c "manifesto") (JStr []);
     FileBackend.Candidate.votes := 0 |}.

(** The candidates a request submits. *)
Definition candidates_of (req : Request) : list JsVal :=
  elements (or_default (get (body_of req) "candidates") (JArr [])).

(** The next [n] values of the environment, read as UUIDs. *)
Definition next_uuids (rt : Runtime) (w : FileBackend.World) (n : nat)
  : list jsstr :=
  map (uuidv4_at rt) (seq (FileBackend.tick w) n).

Fixpoint distinct (l : list jsstr) : bool :=
  match l with
  | [] => true
  | x :: r => negb (existsb (str_eqb x) r) && distinct r
  end.

Definition is_election_id (w : FileBackend.World) (x : jsstr) : bool :=
  existsb (fun e => str_eqb (FileBackend.Election.id e) x)
          (FileBackend.elections w).

(** The UUID generator keeps its promise over the next [n] draws: the
    values are pairwise distinct and none is the id of a stored election. *)
Definition fresh_uuids (rt : Runtime) (w : FileBackend.World) (n : nat) : bool :=
  distinct (next_uuids rt w n)
  && forallb (fun x => negb (is_election_id w x)) (next_uuids rt w n).

(** What is preserved of a submitted candidate [c] in the stored one [k]. *)
Definition preserves_candidate (rt : Runtime) (c : JsVal)
    (k : FileBackend.Candidate.t) : Prop :=
  FileBackend.Candidate.name k
  = trim (ToString rt (js_or (get c "name") (JStr [])))
  /\ FileBackend.Candidate.description k = js_or (get c "description") (JStr [])
  /\ FileBackend.Candidate.party k = js_or (get c "party") (JStr [])
  /\ FileBackend.Candidate.manifesto k = js_or (get c "manifesto") (JStr [])
  /\ FileBackend.Candidate.votes k = 0.

Definition create_acme : Request :=
  Sample.request (Some Sample.alice_token)
    (Sample.election_body (JStr Sample.date1) (JStr Sample.date2)) [].

Definition acme_created : outcome Response * FileBackend.World :=
  FileBackend.create_election Sample.runtime create_acme Sample.world1.

Definition acme_response : Response :=
  match fst acme_created with
  | Ret r => r
  | Throw _ => error_response 500 "Server error"
  end.

(** ** Elections of the short-id router *)

(** The short id the router would derive from the n-th draw. *)
Definition short_id_at (rt : Runtime) (n : nat) : jsstr :=
  firstn 10 (ShortIdRouter.strip_dashes (uuidv4_at rt n)).

(** The ids the router can try for one request: the initial one and six
    more. *)
Definition attempts (rt : Runtime) (st : ShortIdRouter.Store) : list jsstr :=
  map (short_id_at rt) (seq (ShortIdRouter.tick st) 7).

Definition all_taken (rt : Runtime) (st : ShortIdRouter.Store) : bool :=
  forallb (fun id => ShortIdRouter.electionExists id st) (attempts rt st).

(** The request passes the router's two checks: title, start and end are
    given, and the start is not at or after the end. *)
Definition router_checks_pass (rt : Runtime) (req : Request) : bool :=
  truthy (get (body_of req) "title")
  && truthy (get (body_of req) "start")
  && truthy (get (body_of req) "end")
  && negb (num_ge (date_value (router_start rt req))
                  (date_value (router_end rt req))).

Fixpoint advance_by (n : nat) (st : ShortIdRouter.Store) : ShortIdRouter.Store :=
  match n with
  | O => st
  | S k => advance_by k (ShortIdRouter.advance st)
  end.

(** The [created_by] of a request. *)
Definition creator_of (rt : Runtime) (req : Request) : JsVal :=
  let user := ShortIdRouter.getUserFromAuthHeader rt req in
  if truthy user
  then js_or (get user "email")
         (js_or (get user "sub") (js_or (get user "id") (get user "name")))
  else JNull.

(** The row inserted for a request, once its id and dates are known. *)
Definition row_of (rt : Runtime) (req : Request) (id start_at end_at : jsstr)
    (now : Z) : ShortIdRouter.ElectionRow.t :=
  {| ShortIdRouter.ElectionRow.id := id;
     ShortIdRouter.ElectionRow.title := get (body_of req) "title";
     ShortIdRouter.ElectionRow.description :=
       or_default (get (body_of req) "description") (JStr []);
     ShortIdRouter.ElectionRow.start_at := start_at;
     ShortIdRouter.ElectionRow.end_at := end_at;
     ShortIdRouter.ElectionRow.eligibility :=
       or_default (get (body_of req) "eligibility") (JLit "all");
     ShortIdRouter.ElectionRow.publish :=
       if truthy (or_default (get (body_of req) "publish") (JBool false))
       then 1 else 0;
     ShortIdRouter.ElectionRow.created_by := creator_of rt req;
     ShortIdRouter.ElectionRow.created_at := Date_toISOString rt now |}.

(** The 201 response for a row and the candidates saved with it. *)
Definition created_response (req : Request) (row : ShortIdRouter.ElectionRow.t)
    (saved : list JsVal) : Response :=
  {| status := 201;
     body := obj
       [("success", JBool true);
        ("election",
         obj [("id", JStr (ShortIdRouter.ElectionRow.id row));
              ("title", ShortIdRouter.ElectionRow.title row);
              ("description", ShortIdRouter.ElectionRow.description row);
              ("start_at", JStr (ShortIdRouter.ElectionRow.start_at row));
              ("end_at", JStr (ShortIdRouter.ElectionRow.end_at row));
              ("eligibility", ShortIdRouter.ElectionRow.eligibility row);
              ("publish",
               JBool (truthy (or_default (get (body_of req) "publish")
                                         (JBool false))));
              ("created_by", ShortIdRouter.ElectionRow.created_by row);
              ("created_at", JStr (ShortIdRouter.ElectionRow.created_at row));
              ("candidates", JArr saved)])] |}.

(** The candidate loop of a request, for the election [id]. *)
Definition candidate_loop (req : Request) (id : jsstr)
  : M ShortIdRouter.Store (list JsVal) :=
  let candidates := or_default (get (body_of req) "candidates") (JArr []) in
  if isArray candidates
  then ShortIdRouter.save_candidates id (elements candidates)
  else ret [].

(** The state in which the candidate loop starts: the id was settled after
    [j] retries, the clock was read, the row inserted. *)
Definition with_row (row : ShortIdRouter.ElectionRow.t) (j : nat)
    (st : ShortIdRouter.Store) : ShortIdRouter.Store :=
  {| ShortIdRouter.election_rows := ShortIdRouter.election_rows st ++ [row];
     ShortIdRouter.candidate_rows := ShortIdRouter.candidate_rows st;
     ShortIdRouter.tick := S (S (ShortIdRouter.tick st + j)) |}.

(** A submitted candidate the loop can read: not [null] or [undefined], with
    a name that is absent (or otherwise falsy) or a string. *)
Definition plain (c : JsVal) : bool :=
  match c with
  | JUndefined | JNull => false
  | _ => negb (truthy (get c "name")) || is_string (get c "name")
  end.

(** The name the loop works with: [(c.name || '').trim()]. *)
Definition kept_name (c : JsVal) : jsstr :=
  trim (str_of (js_or (get c "name") (JStr []))).

(** The name is absent or trims to the empty string. *)
Definition nameless (c : JsVal) : bool := str_eqb (kept_name c) [].

(** The row the loop inserts for a candidate it keeps. *)
Definition candidate_row (election_id : jsstr) (rowid : Z) (c : JsVal)
  : ShortIdRouter.CandidateRow.t :=
  {| ShortIdRouter.CandidateRow.rowid := rowid;
     ShortIdRouter.CandidateRow.election_id := election_id;
     ShortIdRouter.CandidateRow.name := kept_name c;
     ShortIdRouter.CandidateRow.party := js_or (get c "party") (JStr []);
     ShortIdRouter.CandidateRow.manifesto := js_or (get c "manifesto") (JStr []) |}.

(** The rows for a list of submitted candidates, numbered from [rowid]. *)
Fixpoint rows_for (election_id : jsstr) (rowid : Z) (cs : list JsVal)
  : list ShortIdRouter.CandidateRow.t :=
  match cs with
  | [] => []
  | c :: rest =>
      if nameless c then rows_for election_id rowid rest
      else candidate_row election_id rowid c
           :: rows_for election_id (rowid + 1) rest
  end.

(** The entry of the returned candidate list for a row. *)
Definition saved_of (r : ShortIdRouter.CandidateRow.t) : JsVal :=
  ShortIdRouter.saved_json (ShortIdRouter.CandidateRow.rowid r)
    (ShortIdRouter.CandidateRow.name r) (ShortIdRouter.CandidateRow.party r)
    (ShortIdRouter.CandidateRow.manifesto r).

Definition next_rowid (st : ShortIdRouter.Store) : Z :=
  Z.of_nat (S (List.length (ShortIdRouter.candidate_rows st))).

Definition add_candidates (rows : list ShortIdRouter.CandidateRow.t)
    (st : ShortIdRouter.Store) : ShortIdRouter.Store :=
  {| ShortIdRouter.election_rows := ShortIdRouter.election_rows st;
     ShortIdRouter.candidate_rows := ShortIdRouter.candidate_rows st ++ rows;
     ShortIdRouter.tick := ShortIdRouter.tick st |}.


(** A store in which the only id the stuck UUID source can produce is
    taken. *)
Definition taken_store : ShortIdRouter.Store :=
  snd (ShortIdRouter.create_election Sample.stuck_runtime board_request
         Sample.empty_store).

Definition exhausted : outcome Response * ShortIdRouter.Store :=
  ShortIdRouter.create_election Sample.stuck_runtime board_request taken_store.

(** Three submitted candidates, none with a name. *)
Definition nameless3 : list JsVal :=
  [obj [("party", JLit "Blue")]; obj [("name", JLit "   ")];
   obj [("name", JStr [])]].

Definition nameless_request : Request :=
  Sample.request None
    (Sample.router_body (JStr Sample.date1) (JStr Sample.date2)
       (JArr nameless3)) [].

(** A non-empty string that [Date.parse] rejects. *)
Definition unparseable (rt : Runtime) (v : JsVal) : bool :=
  match v with
  | JStr (c :: s) =>
      match Date_parse rt (c :: s) with
      | None => true
      | Some _ => false
      end
  | _ => false
  end.

Definition bad_date_request : Request :=
  Sample.request None
    (Sample.router_body (JLit "not-a-date") (JStr Sample.date1)
       Sample.candidates3) [].

(** The projection [f] of the world is the same before and after. *)
Definition same {X : Type} (f : FileBackend.World -> X)
    (w w' : FileBackend.World) : Prop :=
  f w' = f w.

(** What the handler computes from an identifier field that passed
    validation. *)
Record field_facts (valid : JsVal -> bool)
    (field : FileBackend.User.t -> option jsstr)
    (v : JsVal) (is_blank : bool) (stored : option jsstr) : Prop := {
  facts_blank : FileBackend.blank v = Ret is_blank;
  facts_truthy : truthy v = negb is_blank;
  facts_valid : truthy v && negb (valid v) = false;
  facts_lookup : forall l, exists o, FileBackend.find_taken field v l = Ret o;
  facts_stored : FileBackend.trimmed_or_null v = Ret stored
}.

(** ** Further vocabulary: the files, the runs and the page *)

(** The line [audit] writes when the clock is read at draw [n]. *)
Definition audit_line (rt : Runtime) (n : nat) (line : jsstr) : jsstr :=
  Date_toISOString rt (Date_now_at rt n) ++ lit " | " ++ line ++ [10%N].

(** The record a successful registration stores: the salt, the id and the
    time stamp are the next three draws from the environment. *)
Definition registered_user (rt : Runtime) (req : Request)
    (w : FileBackend.World) (email phone : option jsstr) : FileBackend.User.t :=
  let b := body_of req in
  {| FileBackend.User.id := uuidv4_at rt (S (FileBackend.tick w));
     FileBackend.User.name := trim (str_of (get b "name"));
     FileBackend.User.email := email;
     FileBackend.User.phone := phone;
     FileBackend.User.password_hash :=
       hashSync rt (str_of (get b "password"))
         (genSaltSync_at rt (FileBackend.tick w));
     FileBackend.User.created_at := Date_now_at rt (S (S (FileBackend.tick w)));
     FileBackend.User.age :=
       if truthy (get b "age") then num_json (ToNumber rt (get b "age"))
       else JUndefined;
     FileBackend.User.aadhar :=
       if truthy (get b "aadhar") then JStr (ToString rt (get b "aadhar"))
       else JUndefined;
     FileBackend.User.gender := js_or (get b "gender") JUndefined;
     FileBackend.User.isAdmin := false |}.

(** The world after a successful registration. *)
Definition with_user (rt : Runtime) (u : FileBackend.User.t)
    (w : FileBackend.World) : FileBackend.World :=
  {| FileBackend.users := FileBackend.users w ++ [u];
     FileBackend.elections := FileBackend.elections w;
     FileBackend.audit_log :=
       FileBackend.audit_log w
       ++ [audit_line rt (3 + FileBackend.tick w)
             (lit "register | user:" ++ FileBackend.User.id u)];
     FileBackend.tick := 4 + FileBackend.tick w |}.

Definition registered_response (u : FileBackend.User.t) : Response :=
  {| status := 201;
     body := obj [("message", JLit "User registered successfully");
                  ("userId", JStr (FileBackend.User.id u))] |}.

(** Users, elections and the audit log are as before. *)
Definition files_unchanged (w w' : FileBackend.World) : Prop :=
  FileBackend.users w' = FileBackend.users w
  /\ FileBackend.elections w' = FileBackend.elections w
  /\ FileBackend.audit_log w' = FileBackend.audit_log w.


(** The payload [signTokenForUser] signs. *)
Definition token_payload (u : FileBackend.User.t) : JsVal :=
  obj [("id", JStr (FileBackend.User.id u));
       ("name", js_or (JStr (FileBackend.User.name u)) (JStr []));
       ("email",
        js_or (FileBackend.opt_json (FileBackend.User.email u)) (JStr []));
       ("phone",
        js_or (FileBackend.opt_json (FileBackend.User.phone u)) (JStr []))].

(** The token signed for [u] when the clock is read at draw [n]. *)
Definition token_for (rt : Runtime) (u : FileBackend.User.t) (n : nat) : jsstr :=
  jwt_sign rt (token_payload u) (Date_now_at rt n).

Definition logged_in_response (token : jsstr) : Response :=
  {| status := 200;
     body := obj [("message", JLit "Authenticated"); ("token", JStr token)] |}.

(** The world after a successful login of [u]. *)
Definition with_login (rt : Runtime) (u : FileBackend.User.t)
    (w : FileBackend.World) : FileBackend.World :=
  {| FileBackend.users := FileBackend.users w;
     FileBackend.elections := FileBackend.elections w;
     FileBackend.audit_log :=
       FileBackend.audit_log w
       ++ [audit_line rt (S (FileBackend.tick w))
             (lit "login | user:" ++ FileBackend.User.id u)];
     FileBackend.tick := 2 + FileBackend.tick w |}.

(** What GET /api/me shows of a user. *)
Definition safe_user (u : FileBackend.User.t) : JsVal :=
  obj [("id", JStr (FileBackend.User.id u));
       ("name", JStr (FileBackend.User.name u));
       ("email", FileBackend.opt_json (FileBackend.User.email u));
       ("phone", FileBackend.opt_json (FileBackend.User.phone u));
       ("isAdmin", JBool (FileBackend.User.isAdmin u))].

(** The first stored user with the id. *)
Definition user_by_id (id : jsstr) (l : list FileBackend.User.t)
  : option FileBackend.User.t :=
  find (fun u => strict_eq (JStr (FileBackend.User.id u)) (JStr id)) l.


(** [null] or [undefined]: reading a property of it throws. *)
Definition nullish (v : JsVal) : bool :=
  match v with JUndefined | JNull => true | _ => false end.

(** The first check of POST /api/elections on the file-backed server: the
    four fields are given and the candidates are a non-empty array. *)
Definition required_given (req : Request) : bool :=
  let b := body_of req in
  truthy (get b "companyName") && truthy (get b "totalSeats")
  && truthy (get b "start_ts") && truthy (get b "end_ts")
  && isArray (or_default (get b "candidates") (JArr []))
  && negb (List.length (candidates_of req) =? 0)%nat.

(** The second check: both instants are numbers and the start is before the
    end. *)
Definition window_ok (rt : Runtime) (req : Request) : bool :=
  negb (isNaN (start_of rt req)) && negb (isNaN (end_of rt req))
  && negb (num_ge (start_of rt req) (end_of rt req)).

Definition seats_of (rt : Runtime) (req : Request) : number :=
  ToNumber rt (get (body_of req) "totalSeats").

(** The third check: the number of seats is a positive integer. *)
Definition seats_ok (rt : Runtime) (req : Request) : bool :=
  isInteger (seats_of rt req) && negb (num_le (seats_of rt req) (Fin 0)).

(** Every submitted candidate is a value whose properties can be read. *)
Definition readable (req : Request) : bool :=
  forallb (fun c => negb (nullish c)) (candidates_of req).

(** The world [n] draws from the environment later. *)
Definition bump (n : nat) (w : FileBackend.World) : FileBackend.World :=
  {| FileBackend.users := FileBackend.users w;
     FileBackend.elections := FileBackend.elections w;
     FileBackend.audit_log := FileBackend.audit_log w;
     FileBackend.tick := n + FileBackend.tick w |}.

(** The candidates stored for a list of submitted ones, their ids being
    the draws from [a] on. *)
Definition stored_candidates (rt : Runtime) (a : nat) (cs : list JsVal)
  : list FileBackend.Candidate.t :=
  map (fun ic => candidate_of rt (uuidv4_at rt (fst ic)) (snd ic))
      (combine (seq a (List.length cs)) cs).

(** The election a successful request of the user [u] stores. *)
Definition created_election (rt : Runtime) (req : Request)
    (w : FileBackend.World) (u : FileBackend.User.t) : FileBackend.Election.t :=
  let b := body_of req in
  {| FileBackend.Election.id := uuidv4_at rt (S (FileBackend.tick w));
     FileBackend.Election.companyName :=
       trim (ToString rt (get b "companyName"));
     FileBackend.Election.totalSeats := seats_of rt req;
     FileBackend.Election.description :=
       ToString rt (js_or (or_default (get b "description") (JStr []))
                          (JStr []));
     FileBackend.Election.start_ts := start_of rt req;
     FileBackend.Election.end_ts := end_of rt req;
     FileBackend.Election.created_by := FileBackend.User.id u;
     FileBackend.Election.created_at :=
       Date_now_at rt (S (S (FileBackend.tick w)));
     FileBackend.Election.candidates :=
       stored_candidates rt (3 + FileBackend.tick w) (candidates_of req) |}.

(** The world after the election [e] was stored. *)
Definition with_election (rt : Runtime) (e : FileBackend.Election.t)
    (w : FileBackend.World) : FileBackend.World :=
  let n := List.length (FileBackend.Election.candidates e) in
  {| FileBackend.users := FileBackend.users w;
     FileBackend.elections := FileBackend.elections w ++ [e];
     FileBackend.audit_log :=
       FileBackend.audit_log w
       ++ [audit_line rt (3 + FileBackend.tick w + n)
             (lit "create-election | user:" ++ FileBackend.Election.created_by e
              ++ lit " | election:" ++ FileBackend.Election.id e)];
     FileBackend.tick := 4 + FileBackend.tick w + n |}.

Definition election_created_response (e : FileBackend.Election.t) : Response :=
  {| status := 201;
     body := obj [("success", JBool true);
                  ("election", FileBackend.election_json e)] |}.


(** The address pattern in words: a local part, an at sign, and a domain
    made of two non-empty parts around a dot, no part holding white space
    or an at sign. *)
Definition email_shape (s : jsstr) : Prop :=
  exists l a b : jsstr,
    s = l ++ 64%N :: a ++ 46%N :: b
    /\ l <> [] /\ a <> [] /\ b <> []
    /\ forallb FileBackend.is_local l = true
    /\ forallb FileBackend.is_local a = true
    /\ forallb FileBackend.is_local b = true.

(** The phone pattern without its lower bound on the length, which
    trimming can undo. *)
Definition phone_stored (p : jsstr) : bool :=
  match p with
  | c :: r =>
      (N.eqb c 43 || is_digit c)
      && forallb (fun x => is_digit x || is_space x || N.eqb x 45) r
      && (List.length r <=? 20)%nat
  | [] => false
  end.

(** What holds of every user the server has stored. *)
Definition well_formed_user (u : FileBackend.User.t) : bool :=
  (2 <=? List.length (FileBackend.User.name u))%nat
  && match FileBackend.User.email u, FileBackend.User.phone u with
     | None, None => false
     | _, _ => true
     end
  && match FileBackend.User.email u with
     | Some e => FileBackend.email_re e
     | None => true
     end
  && match FileBackend.User.phone u with
     | Some p => phone_stored p
     | None => true
     end
  && negb (FileBackend.User.isAdmin u).


(** No stored user is an administrator. *)
Definition no_admin (w : FileBackend.World) : bool :=
  forallb (fun u => negb (FileBackend.User.isAdmin u)) (FileBackend.users w).

(** A request for the admin guard, carrying Alice's token. *)
Definition alice_request : Request :=
  Sample.request (Some Sample.alice_token) JUndefined [].


(** Alice's login after her registration, and what the server answers. *)
Definition alice_login : Request := login_request "alice@example.com" "secret1".

Definition alice_logged_in : outcome Response * FileBackend.World :=
  FileBackend.login Sample.runtime alice_login Sample.world1.

Definition alice_login_response : Response :=
  match fst alice_logged_in with
  | Ret r => r
  | Throw _ => error_response 500 "Internal server error"
  end.

(** The successful answers of the three routes that write. *)
Definition succeeded (c : Call) (r : Response) : Prop :=
  match c with
  | PostRegister _ | PostElections _ => status r = 201
  | PostLogin _ => status r = 200
  | _ => False
  end.

(** One line was appended to the audit log, for one of the three events,
    and the files changed as the line says. *)
Inductive audited (rt : Runtime) (w w' : FileBackend.World) : Call -> Prop :=
| audited_register req u n :
    FileBackend.users w' = FileBackend.users w ++ [u] ->
    FileBackend.elections w' = FileBackend.elections w ->
    FileBackend.audit_log w'
    = FileBackend.audit_log w
      ++ [audit_line rt n (lit "register | user:" ++ FileBackend.User.id u)] ->
    audited rt w w' (PostRegister req)
| audited_login req u n :
    In u (FileBackend.users w) ->
    FileBackend.users w' = FileBackend.users w ->
    FileBackend.elections w' = FileBackend.elections w ->
    FileBackend.audit_log w'
    = FileBackend.audit_log w
      ++ [audit_line rt n (lit "login | user:" ++ FileBackend.User.id u)] ->
    audited rt w w' (PostLogin req)
| audited_election req u e n :
    In u (FileBackend.users w) ->
    FileBackend.users w' = FileBackend.users w ->
    FileBackend.elections w' = FileBackend.elections w ++ [e] ->
    FileBackend.Election.created_by e = FileBackend.User.id u ->
    FileBackend.audit_log w'
    = FileBackend.audit_log w
      ++ [audit_line rt n
            (lit "create-election | user:" ++ FileBackend.User.id u
             ++ lit " | election:" ++ FileBackend.Election.id e)] ->
    audited rt w w' (PostElections req).



(** What holds of every election the file-backed server has stored: a
    start that is strictly before the end wherever both are numbers in the
    file (an instant that is not a finite number is written as [null]), a
    positive whole number of seats, at least one candidate, and no votes
    yet. *)
Definition well_formed_election (e : FileBackend.Election.t) : bool :=
  match num_json (FileBackend.Election.start_ts e),
        num_json (FileBackend.Election.end_ts e) with
  | JNum s, JNum t => negb (Qle_bool t s)
  | _, _ => true
  end
  && isInteger (FileBackend.Election.totalSeats e)
  && negb (num_le (FileBackend.Election.totalSeats e) (Fin 0))
  && negb (List.length (FileBackend.Election.candidates e) =? 0)%nat
  && forallb (fun c => FileBackend.Candidate.votes c =? 0)
             (FileBackend.Election.candidates e).

(** The creator of the election is a stored user. *)
Definition has_creator (l : list FileBackend.User.t)
    (e : FileBackend.Election.t) : bool :=
  existsb (fun u => str_eqb (FileBackend.User.id u)
                            (FileBackend.Election.created_by e)) l.

Definition registry_ok (w : FileBackend.World) : bool :=
  forallb (fun e => well_formed_election e
                    && has_creator (FileBackend.users w) e)
          (FileBackend.elections w).

(** The world after Alice created the Acme election. *)
Definition world2 : FileBackend.World := snd acme_created.


(** The property names of an entry of the candidate list. *)
Definition roster_keys : list jsstr :=
  map lit ["id"; "name"; "description"; "party"; "manifesto"].

(** What the candidate list shows of a submitted candidate, besides the
    id. *)
Definition shown (rt : Runtime) (c : JsVal) : JsVal * JsVal * JsVal * JsVal :=
  (JStr (trim (ToString rt (js_or (get c "name") (JStr [])))),
   js_or (get c "description") (JStr []),
   js_or (get c "party") (JStr []),
   js_or (get c "manifesto") (JStr [])).

Definition shown_in (j : JsVal) : JsVal * JsVal * JsVal * JsVal :=
  (get j "name", get j "description", get j "party", get j "manifesto").

(** A request whose candidate list holds a [null]. *)
Definition null_candidate_request : Request :=
  Sample.request (Some Sample.alice_token)
    (obj [("companyName", JLit "Acme"); ("totalSeats", JInt 3);
          ("start_ts", JStr Sample.date1); ("end_ts", JStr Sample.date2);
          ("candidates", JArr [obj [("name", JLit "Asha")]; JNull])])
    [].

(** A registration whose email is a number. *)
Definition register_numeric_email : Request :=
  Sample.request None
    (obj [("name", JLit "Alice"); ("email", JInt 5);
          ("password", JLit "secret1")])
    [].


(** The first two checks of a registration: the name and the password. *)
Definition name_and_password_ok (req : Request) : bool :=
  let b := body_of req in
  truthy (get b "name") && is_string (get b "name")
  && (2 <=? List.length (trim (str_of (get b "name"))))%nat
  && truthy (get b "password") && is_string (get b "password")
  && (6 <=? List.length (str_of (get b "password")))%nat.

(** A value that is given and is not a string. *)
Definition given_not_string (v : JsVal) : bool :=
  truthy v && negb (is_string v).


(** A registration whose phone ends in a space, and a login that gives the
    phone as it was typed. *)
Definition register_bob : Request :=
  Sample.request None
    (obj [("name", JLit "Bob"); ("phone", JLit "+44 20 7946 0958 ");
          ("password", JLit "hunter22")])
    [].

Definition bob_login : Request := login_request "+44 20 7946 0958 " "hunter22".

(** Both dates of a request to the router are valid. *)
Definition dates_ok (rt : Runtime) (req : Request) : bool :=
  match router_start rt req, router_end rt req with
  | Some _, Some _ => true
  | _, _ => false
  end.

(** The candidate loop of the router can read every entry: the candidates
    are not an array (the loop is skipped), or every entry is [plain]. *)
Definition loop_runs (req : Request) : bool :=
  let candidates := or_default (get (body_of req) "candidates") (JArr []) in
  negb (isArray candidates) || forallb plain (elements candidates).

(** An environment whose tokens fail verification and decode to a payload
    with an email. *)
Definition forging_runtime : Runtime :=
  {| Js.Date_parse := Sample.Date_parse;
     Js.Date_toISOString := Sample.Date_toISOString;
     Js.Number_toString := Sample.Number_toString;
     Js.StringToNumber := Sample.StringToNumber;
     Js.uuidv4_at := Sample.uuidv4_at;
     Js.Date_now_at := fun _ => Sample.time1;
     Js.genSaltSync_at := fun _ => Sample.salt;
     Js.hashSync := Sample.hashSync;
     Js.compareSync := Sample.compareSync;
     Js.jwt_sign := Sample.jwt_sign;
     Js.jwt_verify := fun _ _ => None;
     Js.jwt_decode := fun token => obj [("email", JStr token)] |}.

(** A request to the router under a token nobody signed. *)
Definition forged_request : Request :=
  Sample.request (Some (lit "Bearer " ++ lit "root@example.com"))
    (Sample.router_body (JStr Sample.date1) (JStr Sample.date2)
       Sample.candidates3) [].

(** A request to the router whose second candidate is [null]. *)
Definition broken_list : list JsVal :=
  [obj [("name", JLit "Asha")]; JNull; obj [("name", JLit "Bo")]].

Definition broken_request : Request :=
  Sample.request None
    (Sample.router_body (JStr Sample.date1) (JStr Sample.date2)
       (JArr broken_list)) [].

(** The five characters [escapeHtml] replaces. *)
Definition special (c : N) : bool := existsb (N.eqb c) [38; 60; 62; 34; 39]%N.

(** What follows the ampersand in the five entities. *)
Definition entity_tails : list jsstr :=
  map lit ["amp;"; "lt;"; "gt;"; "quot;"; "#39;"].

(** The item [loadElections] shows for a stored election. *)
Definition nameless_item (rt : Runtime) (toLocaleString : option Z -> jsstr)
    (e : FileBackend.Election.t) : jsstr :=
  lit "<strong></strong><br><small>"
  ++ toLocaleString (new_Date rt (num_json (FileBackend.Election.start_ts e)))
  ++ lit " - "
  ++ toLocaleString (new_Date rt (num_json (FileBackend.Election.end_ts e)))
  ++ lit "</small>".


(** A request under the authorization header [apiFetch] adds for the
    stored token. *)
Definition fetched (rt : Runtime) (token b : JsVal) (id : jsstr) : Request :=
  {| authorization := Frontend.authorization_header rt token;
     req_body := b;
     param_id := id |}.

(** The files of [w'] are those of [w] with records appended, and the
    audit log has grown by at least as many lines as the other two files
    have grown by records. *)
Definition grown (w w' : FileBackend.World) : Prop :=
  exists (lu : list FileBackend.User.t) (le : list FileBackend.Election.t)
         (la : list jsstr),
    FileBackend.users w' = FileBackend.users w ++ lu
    /\ FileBackend.elections w' = FileBackend.elections w ++ le
    /\ FileBackend.audit_log w' = FileBackend.audit_log w ++ la
    /\ (List.length lu + List.length le <= List.length la)%nat.


(** ** Requests whose fields convert *)

(** The two instants of a request to the file-backed server are values
    that [String] converts, and its number of seats one that [Number]
    converts: the three conversions the handler makes before it looks at
    the window. *)
Definition instants_convert (req : Request) : bool :=
  converts (get (body_of req) "start_ts")
  && converts (get (body_of req) "end_ts").

Definition seats_convert (req : Request) : bool :=
  converts (get (body_of req) "totalSeats").

(** The two dates of a request to the router are values that [new Date]
    converts. *)
Definition router_dates_convert (req : Request) : bool :=
  converts (get (body_of req) "start") && converts (get (body_of req) "end").

(** Every value POST /api/elections of the file-backed server converts:
    the instants, the seats, the company name, the description and the name
    of each candidate. *)
Definition create_converts (req : Request) : bool :=
  let b := body_of req in
  instants_convert req && seats_convert req
  && converts (get b "companyName")
  && converts (js_or (or_default (get b "description") (JStr [])) (JStr []))
  && forallb (fun c => converts (js_or (get c "name") (JStr [])))
             (candidates_of req).

(** The two optional fields a registration converts, [Number(age)] and
    [String(aadhar)]. *)
Definition optional_fields_convert (req : Request) : bool :=
  converts (get (body_of req) "age") && converts (get (body_of req) "aadhar").

(** [re.test(v)]: the argument is converted to a string first, which throws
    on a value that does not convert. *)
Definition regexp_test (rt : Runtime) (re : jsstr -> bool) (v : JsVal)
  : outcome bool :=
  if converts v then Ret (re (ToString rt v)) else Throw "TypeError".

(** The field validation of POST /api/register, the five checks that come
    before the user file is read: [Ret None] when the request passes them,
    the message of the 400 when one of them fails, and the exception when
    one of them throws. *)
Definition validation (rt : Runtime) (req : Request) : outcome (option string) :=
  let b := body_of req in
  let name := get b "name" in
  let email := get b "email" in
  let phone := get b "phone" in
  let password := get b "password" in
  if negb (truthy name) || negb (is_string name)
     || (List.length (trim (str_of name)) <? 2)%nat
  then Ret (Some "Name is required and must be at least 2 characters.")
  else if negb (truthy password) || negb (is_string password)
          || (List.length (str_of password) <? 6)%nat
  then Ret (Some "Password is required and must be at least 6 characters.")
  else
    match FileBackend.blank email with
    | Throw e => Throw e
    | Ret no_email =>
    match (if no_email then FileBackend.blank phone else Ret false) with
    | Throw e => Throw e
    | Ret no_phone =>
        if no_email && no_phone
        then Ret (Some "Either email or phone is required.")
        else
          match (if truthy email
                 then regexp_test rt FileBackend.email_re email
                 else Ret true) with
          | Throw e => Throw e
          | Ret false => Ret (Some "Invalid email format.")
          | Ret true =>
              match (if truthy phone
                     then regexp_test rt FileBackend.phone_re phone
                     else Ret true) with
              | Throw e => Throw e
              | Ret false => Ret (Some "Invalid phone format.")
              | Ret true => Ret None
              end
          end
    end
    end.

(** Alice's email again, with a phone sent as a number. *)
Definition register_alice_numeric_phone : Request :=
  Sample.request None
    (obj [("name", JLit "Alicia"); ("email", JLit "alice@example.com");
          ("phone", JInt 1234567); ("password", JLit "another1")])
    [].

(** A login whose password is any JSON value. *)
Definition login_with (identifier : string) (password : JsVal) : Request :=
  Sample.request None
    (obj [("identifier", JLit identifier); ("password", password)]) [].

(** The store of the router after the board election was created in it. *)
Definition board_store : ShortIdRouter.Store := snd anonymous_board.

(** The ids of the elections the router has stored. *)
Definition stored_ids (st : ShortIdRouter.Store) : list jsstr :=
  map ShortIdRouter.ElectionRow.id (ShortIdRouter.election_rows st).

(** A request to the file-backed server whose start is a day after its end
    and whose other fields are all absent, sent by Alice. *)
Definition bare_late_start_request : Request :=
  Sample.request (Some Sample.alice_token)
    (obj [("start_ts", JStr Sample.date2); ("end_ts", JStr Sample.date1)]) [].

Example sample_register :
  FileBackend.register Sample.runtime Sample.register_alice Sample.empty_world
  = (Ret {| status := 201;
            body := obj [("message", JLit "User registered successfully");
                         ("userId", JStr (Sample.uuidv4_at 1))] |},
     Sample.world1).
Proof. vm_compute. reflexivity. Qed.

(* ================================================================== *)
(** * Properties                                                        *)
(* ================================================================== *)

(** ** Strings and values *)

Lemma str_eqb_eq (a b : jsstr) : str_eqb a b = true <-> a = b.
Proof.
  revert b; induction a as [|x a IH]; intros [|y b]; simpl;
    try (split; [discriminate | discriminate]); try tauto.
  rewrite andb_true_iff, N.eqb_eq, IH.
  split; [intros [-> ->]; reflexivity | intros H; inversion H; auto].
Qed.

Lemma str_eqb_refl (a : jsstr) : str_eqb a a = true.
Proof. apply str_eqb_eq; reflexivity. Qed.

Lemma str_eqb_neq (a b : jsstr) : str_eqb a b = false <-> a <> b.
Proof.
  rewrite <- str_eqb_eq. destruct (str_eqb a b); split; congruence.
Qed.

Lemma strict_eq_str (s : jsstr) (v : JsVal) :
  strict_eq (JStr s) v = true <-> v = JStr s.
Proof.
  destruct v; simpl; try (split; discriminate).
  rewrite str_eqb_eq. split; congruence.
Qed.

Lemma truthy_or (a b : JsVal) :
  truthy (js_or a b) = truthy a || truthy b.
Proof. unfold js_or. destruct (truthy a) eqn:E; simpl; auto. Qed.

(** Running one step of a handler: the monad's operations, and no more. *)
Ltac monad_step :=
  unfold try_catch, bind, lift, gets, modify, ret; cbv beta iota.

(** ** The authorization guard of the file-backed server *)

Section Guard.
Import FileBackend.
Context (rt : Runtime).

Lemma find_user_none (l : list User.t) (v : JsVal) :
  (forall u, In u l -> v <> JStr (User.id u)) ->
  find (fun u => strict_eq (JStr (User.id u)) v) l = None.
Proof.
  induction l as [|u l IH]; cbn [find]; intros H; [reflexivity|].
  destruct (strict_eq (JStr (User.id u)) v) eqn:E.
  - apply strict_eq_str in E. exfalso. apply (H u); [left; reflexivity | exact E].
  - apply IH. intros u' Hu'. apply H. right; exact Hu'.
Qed.

Ltac frame_done :=
  do 2 eexists; split; [reflexivity | cbn; repeat split; auto].

(** The guard reads the clock at most once and touches nothing else. *)
Lemma getUserFromAuthHeader_frame (req : Request) (w : World) :
  exists o w',
    getUserFromAuthHeader rt req w = (Ret o, w')
    /\ users w' = users w /\ elections w' = elections w
    /\ audit_log w' = audit_log w
    /\ (tick w' = tick w \/ tick w' = S (tick w)).
Proof.
  unfold getUserFromAuthHeader.
  destruct (authorization req) as [auth|]; [|frame_done].
  destruct (negb (truthy (JStr auth)) || negb (startsWith auth (lit "Bearer ")));
    [frame_done|].
  unfold Date_now; monad_step.
  destruct (jwt_verify rt (slice_from 7 auth) (Date_now_at rt (tick w)));
    [|frame_done].
  destruct (prop j "id"); frame_done.
Qed.

Lemma getUserFromAuthHeader_none (req : Request) (w : World) :
  unauthenticated rt w req ->
  exists w', getUserFromAuthHeader rt req w = (Ret None, w').
Proof.
  intros H. unfold getUserFromAuthHeader.
  destruct H as [H | auth H Hp | auth H Hv | auth data H Hv Hu]; rewrite H.
  - eexists; reflexivity.
  - rewrite Hp, orb_true_r. eexists; reflexivity.
  - destruct (negb (truthy (JStr auth)) || negb (startsWith auth (lit "Bearer ")));
      [eexists; reflexivity|].
    unfold Date_now; monad_step. rewrite Hv.
    eexists; reflexivity.
  - destruct (negb (truthy (JStr auth)) || negb (startsWith auth (lit "Bearer ")));
      [eexists; reflexivity|].
    unfold Date_now; monad_step. rewrite Hv.
    destruct (prop data "id") as [v|e] eqn:Ep; [|eexists; reflexivity].
    cbv beta iota. rewrite find_user_none; [eexists; reflexivity|].
    intros u Hu' ->. apply (Hu u Hu'). reflexivity.
Qed.

(** Conversely, an identity is always a stored user named by a verified
    token. *)
Lemma getUserFromAuthHeader_some (req : Request) (w w' : World) (u : User.t) :
  getUserFromAuthHeader rt req w = (Ret (Some u), w') ->
  In u (users w) /\
  exists auth data,
    authorization req = Some auth
    /\ startsWith auth (lit "Bearer ") = true
    /\ jwt_verify rt (slice_from 7 auth) (Date_now_at rt (tick w)) = Some data
    /\ prop data "id" = Ret (JStr (User.id u)).
Proof.
  unfold getUserFromAuthHeader.
  destruct (authorization req) as [auth|]; [|discriminate].
  destruct (startsWith auth (lit "Bearer ")) eqn:Es;
    [|rewrite orb_true_r; discriminate].
  destruct (negb (truthy (JStr auth))); [discriminate|]. cbn [orb negb].
  unfold Date_now; monad_step.
  destruct (jwt_verify rt (slice_from 7 auth) (Date_now_at rt (tick w)))
    as [data|] eqn:Ev; [|discriminate].
  destruct (prop data "id") as [v|e] eqn:Ep; [|discriminate].
  cbv beta iota. intros H. inversion H as [[Hf Hw]]; clear H.
  apply find_some in Hf. destruct Hf as [Hin Heq].
  apply strict_eq_str in Heq. subst v.
  split; [exact Hin|]. exists auth, data. auto.
Qed.
End Guard.

(** ** Creating an election on the file-backed server *)

Section CreateElection.
Import FileBackend.
Context (rt : Runtime).

Lemma create_election_unauth (req : Request) (w w1 : World) :
  getUserFromAuthHeader rt req w = (Ret None, w1) ->
  create_election rt req w
  = (Ret (error_response 401 "Missing or invalid token"), w1).
Proof.
  intros H. unfold create_election, requireAuth. monad_step.
  rewrite H. reflexivity.
Qed.

(** An instant that is not before the end is refused, whatever the other
    fields are. *)
Lemma create_election_window (req : Request) (w w1 : World) (u : User.t) :
  getUserFromAuthHeader rt req w = (Ret (Some u), w1) ->
  num_ge (start_of rt req) (end_of rt req) = true ->
  exists msg,
    create_election rt req w = (Ret (error_response 400 msg), w1).
Proof.
  intros Hu Hge. unfold create_election, requireAuth. monad_step.
  rewrite Hu. cbv beta iota zeta.
  match goal with |- context [if ?c then _ else _] => destruct c end.
  - eexists; reflexivity.
  - unfold start_of, end_of, body_of in Hge. rewrite Hge.
    rewrite orb_true_r. eexists; reflexivity.
Qed.
End CreateElection.

(** ** Creating an election through the short-id router *)

Lemma Qle_bool_inject_Z (a b : Z) :
  Qle_bool (inject_Z a) (inject_Z b) = true <-> a <= b.
Proof. rewrite Zle_Qle. apply Qle_bool_iff. Qed.

Section RouterCreate.
Import ShortIdRouter.
Context (rt : Runtime).

Lemma router_window (req : Request) (st : Store) :
  num_ge (date_value (router_start rt req)) (date_value (router_end rt req))
  = true ->
  exists msg,
    create_election rt req st = (Ret (error_response 400 msg), st).
Proof.
  intros Hge. unfold create_election. monad_step. cbv zeta.
  match goal with |- context [if ?c then _ else _] => destruct c end.
  - eexists; reflexivity.
  - unfold router_start, router_end, body_of in Hge. rewrite Hge.
    eexists; reflexivity.
Qed.
End RouterCreate.

(** *** The voting window *)

Lemma num_ge_Fin (s e : Q) : (e <= s)%Q -> num_ge (Fin s) (Fin e) = true.
Proof. intros H. apply Qle_bool_iff. exact H. Qed.

(** On the file-backed server a request whose start is not before its end
    never creates an election, whoever sends it: the answer is 401 or 400. *)
Lemma window_never_stored
    (rt : Runtime) (req : Request) (w w' : FileBackend.World)
    (o : outcome Response) :
  num_ge (start_of rt req) (end_of rt req) = true ->
  FileBackend.create_election rt req w = (o, w') ->
  FileBackend.elections w' = FileBackend.elections w
  /\ exists r, o = Ret r /\ (status r = 400 \/ status r = 401).
Proof.
  intros Hge Hc.
  destruct (getUserFromAuthHeader_frame rt req w)
    as (u & w1 & Hg & _ & He & _).
  destruct u as [u|].
  - destruct (create_election_window rt req w w1 u Hg Hge) as [msg Hm].
    rewrite Hm in Hc. inversion Hc; subst. split; [exact He|].
    eexists; split; [reflexivity | left; reflexivity].
  - rewrite (create_election_unauth rt req w w1 Hg) in Hc.
    inversion Hc; subst. split; [exact He|].
    eexists; split; [reflexivity | right; reflexivity].
Qed.

(** C2 (as amended). A CreateElection request whose normalized start
    instant is greater than or equal to its normalized end instant is
    refused with the validation error (400), whatever its other fields are,
    and no election is persisted: on the short-id router for every request
    whose two dates [new Date] converts, and on the file-backed server for
    every caller that passed the authorization guard and every request whose
    instants and number of seats convert.  The guard runs before the
    validation: a request that did not pass it is answered 401, and nothing
    is persisted either. *)
Theorem start_not_before_end_is_rejected (rt : Runtime) :
  (forall (req : Request) (w w1 : FileBackend.World) (u : FileBackend.User.t)
          (s e : Q),
      FileBackend.getUserFromAuthHeader rt req w = (Ret (Some u), w1) ->
      instants_convert req = true -> seats_convert req = true ->
      start_of rt req = Fin s -> end_of rt req = Fin e -> (e <= s)%Q ->
      exists msg,
        FileBackend.create_election rt req w
        = (Ret (error_response 400 msg), w1)
        /\ FileBackend.elections w1 = FileBackend.elections w)
  /\
  (forall (req : Request) (w w1 : FileBackend.World),
      FileBackend.getUserFromAuthHeader rt req w = (Ret None, w1) ->
      FileBackend.create_election rt req w
      = (Ret (error_response 401 "Missing or invalid token"), w1)
      /\ FileBackend.elections w1 = FileBackend.elections w)
  /\
  (forall (req : Request) (w w' : FileBackend.World) (o : outcome Response)
          (s e : Q),
      instants_convert req = true -> seats_convert req = true ->
      start_of rt req = Fin s -> end_of rt req = Fin e -> (e <= s)%Q ->
      FileBackend.create_election rt req w = (o, w') ->
      FileBackend.elections w' = FileBackend.elections w
      /\ exists r, o = Ret r /\ (status r = 400 \/ status r = 401))
  /\
  (forall (req : Request) (st : ShortIdRouter.Store) (s e : Z),
      router_dates_convert req = true ->
      router_start rt req = Some s -> router_end rt req = Some e -> e <= s ->
      exists msg,
        ShortIdRouter.create_election rt req st
        = (Ret (error_response 400 msg), st)).
Proof.
  split; [|split; [|split]].
  - intros req w w1 u s e Hg _ _ Hs He Hle.
    assert (Hge : num_ge (start_of rt req) (end_of rt req) = true)
      by (rewrite Hs, He; apply num_ge_Fin; exact Hle).
    destruct (create_election_window rt req w w1 u Hg Hge) as [msg Hm].
    exists msg. split; [exact Hm|].
    destruct (getUserFromAuthHeader_frame rt req w)
      as (o & w2 & H2 & _ & Hel & _).
    rewrite Hg in H2. inversion H2; subst. exact Hel.
  - intros req w w1 Hg.
    split; [exact (create_election_unauth rt req w w1 Hg)|].
    destruct (getUserFromAuthHeader_frame rt req w)
      as (o & w2 & H2 & _ & Hel & _).
    rewrite Hg in H2. inversion H2; subst. exact Hel.
  - intros req w w' o s e _ _ Hs He Hle Hc.
    apply (window_never_stored rt req w w' o); [|exact Hc].
    rewrite Hs, He. apply num_ge_Fin. exact Hle.
  - intros req st s e _ Hs He Hle. apply router_window.
    rewrite Hs, He. cbn [date_value num_ge].
    apply Qle_bool_inject_Z. exact Hle.
Qed.

(** Without an authorization header the file-backed server answers the
    request with 401: the guard comes before the validation. *)
Lemma anonymous_late_start_is_401 :
  start_of Sample.runtime anonymous_late_start_request
  = Fin (inject_Z Sample.time2)
  /\ end_of Sample.runtime anonymous_late_start_request
     = Fin (inject_Z Sample.time1)
  /\ Sample.time1 <= Sample.time2
  /\ FileBackend.create_election Sample.runtime anonymous_late_start_request
       Sample.world1
     = (Ret (error_response 401 "Missing or invalid token"), Sample.world1).
Proof.
  repeat split; try (vm_compute; reflexivity). vm_compute. discriminate.
Qed.

Lemma start_not_before_end_is_rejected_witness :
  (exists msg,
      FileBackend.create_election Sample.runtime late_start_request
        Sample.world1
      = (Ret (error_response 400 msg),
         snd (FileBackend.getUserFromAuthHeader Sample.runtime
                late_start_request Sample.world1))
      /\ FileBackend.elections
           (snd (FileBackend.getUserFromAuthHeader Sample.runtime
                   late_start_request Sample.world1))
         = FileBackend.elections Sample.world1)
  /\
  (exists msg,
      FileBackend.create_election Sample.runtime bare_late_start_request
        Sample.world1
      = (Ret (error_response 400 msg),
         snd (FileBackend.getUserFromAuthHeader Sample.runtime
                bare_late_start_request Sample.world1))
      /\ FileBackend.elections
           (snd (FileBackend.getUserFromAuthHeader Sample.runtime
                   bare_late_start_request Sample.world1))
         = FileBackend.elections Sample.world1)
  /\
  (FileBackend.create_election Sample.runtime anonymous_late_start_request
     Sample.world1
   = (Ret (error_response 401 "Missing or invalid token"), Sample.world1)
   /\ FileBackend.elections Sample.world1
      = FileBackend.elections Sample.world1)
  /\
  (exists msg,
      ShortIdRouter.create_election Sample.runtime late_start_router_request
        Sample.empty_store
      = (Ret (error_response 400 msg), Sample.empty_store)).
Proof.
  split; [|split; [|split]].
  - eapply (proj1 (start_not_before_end_is_rejected Sample.runtime))
      with (s := inject_Z Sample.time2) (e := inject_Z Sample.time1).
    + vm_compute. reflexivity.
    + reflexivity.
    + reflexivity.
    + vm_compute. reflexivity.
    + vm_compute. reflexivity.
    + vm_compute. discriminate.
  - eapply (proj1 (start_not_before_end_is_rejected Sample.runtime))
      with (s := inject_Z Sample.time2) (e := inject_Z Sample.time1).
    + vm_compute. reflexivity.
    + reflexivity.
    + reflexivity.
    + vm_compute. reflexivity.
    + vm_compute. reflexivity.
    + vm_compute. discriminate.
  - apply (proj1 (proj2 (start_not_before_end_is_rejected Sample.runtime))).
    vm_compute. reflexivity.
  - eapply (proj2 (proj2 (proj2
              (start_not_before_end_is_rejected Sample.runtime))))
      with (s := Sample.time2) (e := Sample.time1).
    + reflexivity.
    + vm_compute. reflexivity.
    + vm_compute. reflexivity.
    + vm_compute. discriminate.
Defined.

(** ** The public read routes *)

Section ReadRoutes.
Import FileBackend.

Lemma find_election_none (id : jsstr) (l : list Election.t) :
  (forall e, In e l -> Election.id e <> id) -> find_election id l = None.
Proof.
  unfold find_election. induction l as [|x l IH]; cbn [find]; intros H;
    [reflexivity|].
  destruct (strict_eq (JStr (Election.id x)) (JStr id)) eqn:E.
  - apply strict_eq_str in E. inversion E as [E']. exfalso.
    apply (H x); [left; reflexivity | symmetry; exact E'].
  - apply IH. intros e He. apply H. right; exact He.
Qed.

Lemma find_election_some (id : jsstr) (l : list Election.t) (e : Election.t) :
  In e l -> Election.id e = id ->
  exists e', find_election id l = Some e' /\ In e' l /\ Election.id e' = id.
Proof.
  unfold find_election. intros Hin Hid.
  destruct (find (fun x => strict_eq (JStr (Election.id x)) (JStr id)) l)
    as [e'|] eqn:Hf.
  - exists e'. apply find_some in Hf. destruct Hf as [Hin' Heq].
    apply strict_eq_str in Heq. inversion Heq as [E]. auto.
  - exfalso. apply (find_none _ _ Hf) in Hin.
    rewrite <- Hid in Hin. cbn [strict_eq] in Hin.
    rewrite str_eqb_refl in Hin. discriminate.
Qed.

(** The first election appended under a new id is the one found. *)
Lemma find_election_app_new (l : list Election.t) (e : Election.t) :
  (forall x, In x l -> Election.id x <> Election.id e) ->
  find_election (Election.id e) (l ++ [e]) = Some e.
Proof.
  unfold find_election. induction l as [|x l IH]; intros H; cbn [app find].
  - cbn [strict_eq]. rewrite str_eqb_refl. reflexivity.
  - destruct (strict_eq (JStr (Election.id x)) (JStr (Election.id e))) eqn:E.
    + apply strict_eq_str in E. inversion E as [E']. exfalso.
      apply (H x); [left; reflexivity | symmetry; exact E'].
    + apply IH. intros y Hy. apply H. right; exact Hy.
Qed.
End ReadRoutes.

Section RouterReadRoutes.
Import ShortIdRouter.

Lemma electionExists_false (id : jsstr) (st : Store) :
  electionExists id st = false <->
  (forall r, In r (election_rows st) -> ElectionRow.id r <> id).
Proof.
  unfold electionExists. split.
  - intros H r Hr E. rewrite <- not_true_iff_false in H. apply H.
    apply existsb_exists. exists r. split; [exact Hr|].
    apply str_eqb_eq. exact E.
  - intros H. apply not_true_iff_false. intros E.
    apply existsb_exists in E. destruct E as (r & Hr & E).
    apply str_eqb_eq in E. apply (H r Hr E).
Qed.

Lemma electionExists_true (id : jsstr) (st : Store) :
  electionExists id st = true <->
  (exists r, In r (election_rows st) /\ ElectionRow.id r = id).
Proof.
  unfold electionExists. rewrite existsb_exists.
  split; intros (r & Hr & E); exists r; (split; [exact Hr|]);
    apply str_eqb_eq; exact E.
Qed.

Lemma getElectionById_none (id : jsstr) (st : Store) :
  electionExists id st = false -> getElectionById id st = None.
Proof.
  intros H. unfold getElectionById.
  destruct (find (fun r => str_eqb (ElectionRow.id r) id) (election_rows st))
    as [r|] eqn:Hf; [|reflexivity].
  apply find_some in Hf. destruct Hf as [Hin Heq].
  apply str_eqb_eq in Heq.
  exfalso. apply (proj1 (electionExists_false id st) H r Hin Heq).
Qed.

Lemma getElectionById_some (id : jsstr) (st : Store) :
  electionExists id st = true ->
  exists r, getElectionById id st = Some (r, getCandidatesByElectionId id st)
            /\ ElectionRow.id r = id.
Proof.
  intros H. apply electionExists_true in H. destruct H as (r & Hin & Hid).
  unfold getElectionById.
  destruct (find (fun r => str_eqb (ElectionRow.id r) id) (election_rows st))
    as [r'|] eqn:Hf.
  - exists r'. split; [reflexivity|]. apply find_some in Hf.
    apply str_eqb_eq. apply Hf.
  - exfalso. apply (find_none _ _ Hf) in Hin. cbv beta in Hin.
    rewrite <- Hid, str_eqb_refl in Hin. discriminate.
Qed.
End RouterReadRoutes.

(** The status of the four read routes by id.  For an election id that is
    not in the registry, GetElection answers 404 on both back ends and
    GetCandidates answers 404 on the file-backed server; for an id that is
    present they answer 200.  The candidates route of the short-id router
    answers 200 in every case. *)
Lemma lookup_by_id_status :
  (forall (req : Request) (w : FileBackend.World),
      (forall e, In e (FileBackend.elections w) ->
                 FileBackend.Election.id e <> param_id req) ->
      FileBackend.get_election req w
      = (Ret (error_response 404 "Election not found"), w)
      /\ FileBackend.get_candidates req w
         = (Ret (error_response 404 "Election not found"), w))
  /\
  (forall (req : Request) (w : FileBackend.World) (e : FileBackend.Election.t),
      In e (FileBackend.elections w) ->
      FileBackend.Election.id e = param_id req ->
      exists r1 r2,
        FileBackend.get_election req w = (Ret r1, w) /\ status r1 = 200
        /\ FileBackend.get_candidates req w = (Ret r2, w) /\ status r2 = 200)
  /\
  (forall (req : Request) (st : ShortIdRouter.Store),
      ShortIdRouter.electionExists (param_id req) st = false ->
      ShortIdRouter.get_election req st
      = (Ret (error_response 404 "Election not found"), st))
  /\
  (forall (req : Request) (st : ShortIdRouter.Store),
      ShortIdRouter.electionExists (param_id req) st = true ->
      exists r, ShortIdRouter.get_election req st = (Ret r, st)
                /\ status r = 200)
  /\
  (forall (req : Request) (st : ShortIdRouter.Store),
      exists r, ShortIdRouter.get_candidates req st = (Ret r, st)
                /\ status r = 200).
Proof.
  split; [|split; [|split; [|split]]].
  - intros req w H.
    unfold FileBackend.get_election, FileBackend.get_candidates.
    monad_step. rewrite (find_election_none _ _ H). split; reflexivity.
  - intros req w e Hin Hid.
    destruct (find_election_some _ _ _ Hin Hid) as (e' & Hf & _).
    unfold FileBackend.get_election, FileBackend.get_candidates.
    monad_step. rewrite Hf. do 2 eexists. repeat split; reflexivity.
  - intros req st H. unfold ShortIdRouter.get_election. monad_step.
    rewrite (getElectionById_none _ _ H). reflexivity.
  - intros req st H. unfold ShortIdRouter.get_election. monad_step.
    destruct (getElectionById_some _ _ H) as (r & Hr & _). rewrite Hr.
    eexists. split; reflexivity.
  - intros req st. unfold ShortIdRouter.get_candidates. monad_step.
    eexists. split; reflexivity.
Qed.

Lemma lookup_by_id_status_witness :
  (FileBackend.get_election unknown_id_request
     Sample.world1
   = (Ret (error_response 404 "Election not found"), Sample.world1)
   /\ FileBackend.get_candidates
        unknown_id_request Sample.world1
      = (Ret (error_response 404 "Election not found"), Sample.world1))
  /\ ShortIdRouter.get_election
       unknown_id_request Sample.empty_store
     = (Ret (error_response 404 "Election not found"), Sample.empty_store).
Proof.
  split.
  - apply (proj1 lookup_by_id_status). intros e He. destruct He.
  - apply (proj1 (proj2 (proj2 lookup_by_id_status))). reflexivity.
Defined.

(** On the short-id router, GetCandidates of an id that is not in the
    registry is answered with 200, not 404. *)
Lemma router_candidates_of_unknown_id :
  ShortIdRouter.electionExists (param_id unknown_id_request) Sample.empty_store
  = false
  /\ ShortIdRouter.get_candidates unknown_id_request Sample.empty_store
     = (Ret {| status := 200; body := obj [("candidates", JArr [])] |},
        Sample.empty_store).
Proof. split; reflexivity. Qed.

(** C6. The candidates route of the short-id router has no not-found
    answer: whatever the id and whatever the store, its status is 200.  The
    store that holds the board election holds no election with the id
    [nosuchid]; there the router answers GET /api/elections/nosuchid with
    404 and GET /api/elections/nosuchid/candidates with 200, while the
    file-backed server, with one election stored, answers 404 on both
    routes. *)
Theorem router_candidates_route_has_no_404 :
  (forall (req : Request) (st : ShortIdRouter.Store),
      exists r, ShortIdRouter.get_candidates req st = (Ret r, st)
                /\ status r = 200)
  /\ List.length (stored_ids board_store) = 1%nat
  /\ ~ In (param_id unknown_id_request) (stored_ids board_store)
  /\ ShortIdRouter.get_election unknown_id_request board_store
     = (Ret (error_response 404 "Election not found"), board_store)
  /\ (exists r,
         ShortIdRouter.get_candidates unknown_id_request board_store
         = (Ret r, board_store)
         /\ status r = 200)
  /\ List.length (FileBackend.elections world2) = 1%nat
  /\ FileBackend.get_election unknown_id_request world2
     = (Ret (error_response 404 "Election not found"), world2)
  /\ FileBackend.get_candidates unknown_id_request world2
     = (Ret (error_response 404 "Election not found"), world2).
Proof.
  split; [|split; [|split; [|split; [|split; [|split; [|split]]]]]].
  - intros req st. unfold ShortIdRouter.get_candidates. monad_step.
    eexists. split; reflexivity.
  - vm_compute. reflexivity.
  - intros H. vm_compute in H.
    repeat (destruct H as [H|H]; [discriminate H|]). exact H.
  - vm_compute. reflexivity.
  - unfold ShortIdRouter.get_candidates. monad_step.
    eexists. split; reflexivity.
  - vm_compute. reflexivity.
  - vm_compute. reflexivity.
  - vm_compute. reflexivity.
Qed.

(** *** The election list *)

Lemma num_json_scalar (n : number) : is_scalar (num_json n) = true.
Proof. destruct n; reflexivity. Qed.

Lemma summary_json_shape (e : FileBackend.Election.t) :
  keys (FileBackend.summary_json e) = summary_keys
  /\ forallb is_scalar (values (FileBackend.summary_json e)) = true.
Proof.
  split; [reflexivity|].
  unfold FileBackend.summary_json, obj, values. cbn [map snd fst forallb].
  rewrite !num_json_scalar. reflexivity.
Qed.

(** C7. Whatever the registry holds, ListElections answers 200 with one
    summary per election, in registry order, and every summary is an object
    with exactly the properties id, companyName, totalSeats, start_ts, end_ts
    and description, each a plain string or number: there is no candidates
    property, no vote count and no password data in it, although GetElection
    returns the candidates of the same election. *)
Theorem list_elections_is_summary_only (req : Request) (w : FileBackend.World) :
  exists l,
    FileBackend.list_elections req w
    = (Ret {| status := 200; body := obj [("elections", JArr l)] |}, w)
    /\ l = map FileBackend.summary_json (FileBackend.elections w)
    /\ Forall (fun s =>
         keys s = summary_keys
         /\ forallb is_scalar (values s) = true
         /\ ~ In (lit "candidates") (keys s)
         /\ ~ In (lit "votes") (keys s)
         /\ ~ In (lit "password") (keys s)
         /\ ~ In (lit "password_hash") (keys s)) l
    /\ Forall (fun e =>
         In (lit "candidates") (keys (FileBackend.election_json e)))
         (FileBackend.elections w).
Proof.
  exists (map FileBackend.summary_json (FileBackend.elections w)).
  split; [reflexivity|]. split; [reflexivity|]. split.
  - apply Forall_forall. intros s Hs. apply in_map_iff in Hs.
    destruct Hs as (e & <- & _).
    destruct (summary_json_shape e) as [Hk Hv]. rewrite Hk.
    split; [reflexivity|]. split; [exact Hv|].
    repeat split; intros Hin; vm_compute in Hin;
      repeat (destruct Hin as [Hin|Hin]; [discriminate Hin|]); exact Hin.
  - apply Forall_forall. intros e _. vm_compute. tauto.
Qed.

(** ** Login *)

(** When the password check returns false.  In any store state, a login
    with an identifier that belongs to no user and a login with a registered
    identifier for whose password [compareSync] returns false get the same
    response, 401 with the body [{ error: 'Invalid credentials' }], and
    neither changes the state. *)
Lemma login_failures_look_alike
    (rt : Runtime) (w : FileBackend.World) (unknown wrong : Request)
    (u : FileBackend.User.t) :
  truthy (identifier_of unknown) = true ->
  truthy (password_of unknown) = true ->
  lookup_identifier (identifier_of unknown) (FileBackend.users w) = None ->
  truthy (identifier_of wrong) = true ->
  truthy (password_of wrong) = true ->
  lookup_identifier (identifier_of wrong) (FileBackend.users w) = Some u ->
  compareSync rt (password_of wrong) (FileBackend.User.password_hash u)
  = Ret false ->
  FileBackend.login rt unknown w
  = (Ret (error_response 401 "Invalid credentials"), w)
  /\ FileBackend.login rt wrong w
     = (Ret (error_response 401 "Invalid credentials"), w).
Proof.
  unfold identifier_of, password_of, lookup_identifier, body_of.
  intros Hi1 Hp1 Hn Hi2 Hp2 Hs Hc. split.
  - unfold FileBackend.login. monad_step. cbv zeta.
    rewrite Hi1, Hp1. cbn [negb orb]. rewrite Hn. reflexivity.
  - unfold FileBackend.login. monad_step. cbv zeta.
    rewrite Hi2, Hp2. cbn [negb orb]. rewrite Hs, Hc. reflexivity.
Qed.

Lemma login_failures_look_alike_witness :
  FileBackend.login Sample.runtime
    (login_request "bob@example.com" "secret1") Sample.world1
  = (Ret (error_response 401 "Invalid credentials"), Sample.world1)
  /\ FileBackend.login Sample.runtime
       (login_request "alice@example.com" "secret2") Sample.world1
     = (Ret (error_response 401 "Invalid credentials"), Sample.world1).
Proof.
  eapply (login_failures_look_alike Sample.runtime Sample.world1);
    vm_compute; reflexivity.
Defined.

(** A third way to fail: when the password check itself throws, the handler
    answers 500. *)
Lemma login_compare_throws
    (rt : Runtime) (w : FileBackend.World) (req : Request)
    (u : FileBackend.User.t) (e : string) :
  truthy (identifier_of req) = true ->
  truthy (password_of req) = true ->
  lookup_identifier (identifier_of req) (FileBackend.users w) = Some u ->
  compareSync rt (password_of req) (FileBackend.User.password_hash u)
  = Throw e ->
  FileBackend.login rt req w
  = (Ret (error_response 500 "Internal server error"), w).
Proof.
  unfold identifier_of, password_of, lookup_identifier, body_of.
  intros Hi Hp Hs Hc. unfold FileBackend.login. monad_step. cbv zeta.
  rewrite Hi, Hp. cbn [negb orb]. rewrite Hs, Hc. reflexivity.
Qed.

(** C5. A password that is not a string tells a registered identifier
    from an unknown one.  With Alice registered, a login that sends the
    number 5 as the password is answered 401 [Invalid credentials] under an
    identifier nobody has, and 500 [Internal server error] under Alice's
    email: the handler hands the password to [compareSync] without the
    check on its type that the registration makes, and bcryptjs throws on
    an argument that is not a string. *)
Theorem login_tells_registered_from_unknown :
  password_of (login_with "bob@example.com" (JInt 5))
  = password_of (login_with "alice@example.com" (JInt 5))
  /\ lookup_identifier (identifier_of (login_with "bob@example.com" (JInt 5)))
       (FileBackend.users Sample.world1) = None
  /\ (exists u,
         lookup_identifier
           (identifier_of (login_with "alice@example.com" (JInt 5)))
           (FileBackend.users Sample.world1) = Some u)
  /\ FileBackend.login Sample.runtime (login_with "bob@example.com" (JInt 5))
       Sample.world1
     = (Ret (error_response 401 "Invalid credentials"), Sample.world1)
  /\ FileBackend.login Sample.runtime
       (login_with "alice@example.com" (JInt 5)) Sample.world1
     = (Ret (error_response 500 "Internal server error"), Sample.world1).
Proof.
  split; [reflexivity|]. split; [vm_compute; reflexivity|].
  split; [eexists; vm_compute; reflexivity|].
  split; vm_compute; reflexivity.
Qed.

(** With the right password the same user is logged in. *)
Example sample_login :
  exists r w',
    FileBackend.login Sample.runtime
      (login_request "alice@example.com" "secret1") Sample.world1
    = (Ret r, w') /\ status r = 200.
Proof. do 2 eexists. split; [vm_compute; reflexivity | reflexivity]. Qed.

(** ** What a handler leaves alone *)

Section Frames.
Context {S : Type} (R : S -> S -> Prop).
Hypothesis R_refl : forall s, R s s.
Hypothesis R_trans : forall a b c, R a b -> R b c -> R a c.

Lemma keeps_ret {A} (a : A) : keeps R (ret a).
Proof. intros s o s' H. inversion H; subst. apply R_refl. Qed.

Lemma keeps_lift {A} (o : outcome A) : keeps R (lift o).
Proof. intros s o' s' H. inversion H; subst. apply R_refl. Qed.

Lemma keeps_gets {A} (f : S -> A) : keeps R (gets f).
Proof. intros s o s' H. inversion H; subst. apply R_refl. Qed.

Lemma keeps_modify (f : S -> S) :
  (forall s, R s (f s)) -> keeps R (modify f).
Proof. intros Hf s o s' H. inversion H; subst. apply Hf. Qed.

Lemma keeps_bind {A B} (m : M S A) (f : A -> M S B) :
  keeps R m -> (forall a, keeps R (f a)) -> keeps R (bind m f).
Proof.
  intros Hm Hf s o s' H. unfold bind in H.
  destruct (m s) as [[a|e] s1] eqn:E.
  - eapply R_trans; [eapply Hm; exact E | eapply Hf; exact H].
  - inversion H; subst. eapply Hm; exact E.
Qed.

Lemma keeps_try_catch {A} (m h : M S A) :
  keeps R m -> keeps R h -> keeps R (try_catch m h).
Proof.
  intros Hm Hh s o s' H. unfold try_catch in H.
  destruct (m s) as [[a|e] s1] eqn:E.
  - inversion H; subst. eapply Hm; exact E.
  - eapply R_trans; [eapply Hm; exact E | eapply Hh; exact H].
Qed.

Lemma keeps_mapM {A B} (f : A -> M S B) (l : list A) :
  (forall a, keeps R (f a)) -> keeps R (mapM f l).
Proof.
  intros Hf. induction l as [|x l IH]; cbn [mapM].
  - apply keeps_ret.
  - apply keeps_bind; [apply Hf|]. intros y.
    apply keeps_bind; [exact IH|]. intros ys. apply keeps_ret.
Qed.
End Frames.

(** Decomposing a handler along its control flow; reflexivity and
    transitivity of the relation are taken from the context. *)
Ltac keeps_step :=
  first
    [ apply keeps_ret
    | apply keeps_lift
    | apply keeps_gets
    | apply keeps_try_catch
    | apply keeps_bind
    | match goal with
      | |- forall _, keeps _ _ => intro
      | |- keeps _ (if ?c then _ else _) => destruct c
      | |- keeps _ (match ?x with _ => _ end) => destruct x
      end ];
  try assumption.

Section FileBackendFrames.
Import FileBackend.
Context (rt : Runtime).

Lemma same_refl {X} (f : World -> X) (w : World) : same f w w.
Proof. reflexivity. Qed.

Lemma same_trans {X} (f : World -> X) (a b c : World) :
  same f a b -> same f b c -> same f a c.
Proof. unfold same. congruence. Qed.

Section Projection.
Context {X : Type} (f : World -> X).
Hypothesis f_advance : forall w, f (advance w) = f w.
Hypothesis f_audit : forall g w, f (set_audit_log g w) = f w.

Let Hr := same_refl f.
Let Ht := same_trans f.

Lemma Date_now_keeps : keeps (same f) (Date_now rt).
Proof. intros w o w' H. inversion H; subst. apply f_advance. Qed.

Lemma uuidv4_keeps : keeps (same f) (uuidv4 rt).
Proof. intros w o w' H. inversion H; subst. apply f_advance. Qed.

Lemma genSaltSync_keeps : keeps (same f) (genSaltSync rt).
Proof. intros w o w' H. inversion H; subst. apply f_advance. Qed.

Lemma audit_keeps (line : jsstr) : keeps (same f) (audit rt line).
Proof.
  unfold audit. apply keeps_bind; [exact Ht | apply Date_now_keeps|].
  intros t. apply keeps_modify. intros w. apply f_audit.
Qed.

Lemma getUserFromAuthHeader_keeps (req : Request) :
  keeps (same f) (getUserFromAuthHeader rt req).
Proof.
  unfold getUserFromAuthHeader.
  repeat first [apply Date_now_keeps | keeps_step].
Qed.

Lemma signTokenForUser_keeps (u : User.t) :
  keeps (same f) (signTokenForUser rt u).
Proof.
  unfold signTokenForUser.
  repeat first [apply Date_now_keeps | keeps_step].
Qed.

Lemma login_keeps (req : Request) : keeps (same f) (login rt req).
Proof.
  unfold login. cbv zeta.
  repeat first [apply signTokenForUser_keeps | apply audit_keeps | keeps_step].
Qed.

Lemma me_keeps (req : Request) : keeps (same f) (me rt req).
Proof.
  unfold me.
  repeat first [apply getUserFromAuthHeader_keeps | keeps_step].
Qed.
End Projection.
End FileBackendFrames.

(** ** Registration *)

Section Register.
Import FileBackend.
Context (rt : Runtime).

Ltac refused :=
  do 2 eexists; split; [reflexivity|]; split; [reflexivity|];
  left; split; [discriminate | reflexivity].

Ltac register_tail b w :=
  cbv beta iota;
  destruct (truthy (get b "email") && negb (isValidEmail rt (get b "email")));
    [refused|];
  destruct (truthy (get b "phone") && negb (isValidPhone rt (get b "phone")));
    [refused|];
  cbv beta iota;
  destruct (find_taken User.email (get b "email") (users w))
    as [[taken|]|]; [refused| |refused];
  cbv beta iota;
  destruct (find_taken User.phone (get b "phone") (users w))
    as [[taken'|]|]; [refused| |refused];
  cbv beta iota;
  destruct (trimmed_or_null (get b "email")) as [user_email|]; [|refused];
  destruct (trimmed_or_null (get b "phone")) as [user_phone|]; [|refused];
  do 2 eexists; split; [reflexivity|]; split; [reflexivity|];
  right; split; [reflexivity|]; eexists; split; [reflexivity|];
  repeat split; reflexivity.

(** Every registration ends in a response.  Either it is not a 201 and the
    store is as before, or it is a 201 and one user was appended, whose email
    and phone are the trimmed ones of the request and were found free. *)
Lemma register_result (req : Request) (w : World) :
  exists r w',
    register rt req w = (Ret r, w')
    /\ elections w' = elections w
    /\ ((status r <> 201 /\ users w' = users w)
        \/ (status r = 201 /\ exists u,
              users w' = users w ++ [u]
              /\ find_taken User.email (email_of req) (users w) = Ret None
              /\ find_taken User.phone (phone_of req) (users w) = Ret None
              /\ trimmed_or_null (email_of req) = Ret (User.email u)
              /\ trimmed_or_null (phone_of req) = Ret (User.phone u))).
Proof.
  unfold register, email_of, phone_of, body_of.
  unfold audit, genSaltSync, uuidv4, Date_now. monad_step. cbv zeta.
  set (b := js_or (req_body req) (JObj [])).
  destruct (negb (truthy (get b "name")) || negb (is_string (get b "name"))
            || (List.length (trim (str_of (get b "name"))) <? 2)%nat);
    [refused|].
  destruct (negb (truthy (get b "password"))
            || negb (is_string (get b "password"))
            || (List.length (str_of (get b "password")) <? 6)%nat);
    [refused|].
  destruct (blank (get b "email")) as [[|]|]; [ | |refused]; cbv beta iota.
  - destruct (blank (get b "phone")) as [[|]|]; [refused| |refused].
    cbn [andb]. register_tail b w.
  - cbn [andb]. register_tail b w.
Qed.
End Register.

(** *** Trimming *)

Lemma drop_space_head (s r : jsstr) (c : N) :
  drop_space s = c :: r -> is_space c = false.
Proof.
  induction s as [|x s IH]; cbn [drop_space]; [discriminate|].
  destruct (is_space x) eqn:E; [exact IH|].
  intros H. inversion H; subst. exact E.
Qed.

Lemma drop_space_nil (s : jsstr) :
  drop_space s = [] -> forallb is_space s = true.
Proof.
  induction s as [|x s IH]; cbn [drop_space forallb]; [reflexivity|].
  destruct (is_space x); [exact IH | discriminate].
Qed.

Lemma forallb_rev {A} (p : A -> bool) (l : list A) :
  forallb p (rev l) = forallb p l.
Proof.
  induction l as [|x l IH]; cbn [rev forallb]; [reflexivity|].
  rewrite forallb_app, IH. cbn [forallb]. rewrite andb_true_r.
  apply andb_comm.
Qed.

(** A string trims to nothing only if it is made of white space. *)
Lemma trim_nil (s : jsstr) : trim s = [] -> forallb is_space s = true.
Proof.
  unfold trim. intros H.
  apply (f_equal (@rev N)) in H. rewrite rev_involutive in H. cbn [rev] in H.
  apply drop_space_nil in H. rewrite forallb_rev in H.
  destruct (drop_space s) as [|c r] eqn:E; [apply drop_space_nil; exact E|].
  apply drop_space_head in E. cbn [forallb] in H. rewrite E in H.
  discriminate.
Qed.

Lemma trim_starts_visible (c : N) (s : jsstr) :
  is_space c = false -> str_eqb (trim (c :: s)) [] = false.
Proof.
  intros Hc. apply str_eqb_neq. intros H. apply trim_nil in H.
  cbn [forallb] in H. rewrite Hc in H. discriminate.
Qed.

Lemma digit_not_space (c : N) : is_digit c = true -> is_space c = false.
Proof.
  unfold is_digit. rewrite andb_true_iff, !N.leb_le. intros [H1 H2].
  assert (H : (c = 48 \/ c = 49 \/ c = 50 \/ c = 51 \/ c = 52 \/ c = 53
               \/ c = 54 \/ c = 55 \/ c = 56 \/ c = 57)%N) by lia.
  repeat (destruct H as [->|H]; [reflexivity|]). subst; reflexivity.
Qed.

(** A string that matches the email expression starts with a visible
    character, and so does one that matches the phone expression. *)
Lemma email_re_visible (s : jsstr) :
  FileBackend.email_re s = true -> str_eqb (trim s) [] = false.
Proof.
  unfold FileBackend.email_re. destruct s as [|c s]; [discriminate|].
  cbn [FileBackend.span]. destruct (FileBackend.is_local c) eqn:E;
    [|discriminate]. intros _. apply trim_starts_visible.
  unfold FileBackend.is_local in E. apply andb_true_iff in E.
  destruct E as [E _]. apply negb_true_iff in E. exact E.
Qed.

Lemma phone_re_visible (s : jsstr) :
  FileBackend.phone_re s = true -> str_eqb (trim s) [] = false.
Proof.
  unfold FileBackend.phone_re. destruct s as [|c s]; [discriminate|].
  rewrite !andb_true_iff. intros [[[H _] _] _]. apply trim_starts_visible.
  apply orb_true_iff in H. destruct H as [H|H].
  - apply N.eqb_eq in H. subst. reflexivity.
  - apply digit_not_space. exact H.
Qed.

(** *** Looking an identifier up *)

Section Taken.
Import FileBackend.
Context (rt : Runtime).

Lemma findM_pure {A} (p : A -> bool) (l : list A) :
  findM (fun x => Ret (p x)) l = Ret (find p l).
Proof.
  induction l as [|x l IH]; cbn [findM find]; [reflexivity|].
  destruct (p x); [reflexivity | exact IH].
Qed.

Lemma strict_eq_opt (o : option jsstr) (t : jsstr) :
  strict_eq (opt_json o) (JStr t) = true <-> o = Some t.
Proof.
  destruct o as [s|]; cbn [opt_json strict_eq].
  - rewrite str_eqb_eq. split; congruence.
  - split; discriminate.
Qed.

Lemma find_taken_str (field : User.t -> option jsstr) (c : N) (s : jsstr)
    (l : list User.t) :
  find_taken field (JStr (c :: s)) l
  = Ret (find (fun u => strict_eq (opt_json (field u)) (JStr (trim (c :: s)))) l).
Proof. unfold find_taken. cbn [truthy call_trim]. apply findM_pure. Qed.

Lemma find_taken_falsy (field : User.t -> option jsstr) (v : JsVal)
    (l : list User.t) :
  truthy v = false -> find_taken field v l = Ret None.
Proof. unfold find_taken. intros ->. reflexivity. Qed.

Lemma in_identifiers (field : User.t -> option jsstr) (t : jsstr)
    (l : list User.t) :
  In t (flat_map (fun u => present (field u)) l)
  <-> exists u, In u l /\ field u = Some t.
Proof.
  rewrite in_flat_map. split; intros (u & Hu & H); exists u; (split; [exact Hu|]).
  - destruct (field u) as [s|]; cbn [present] in H; [|destruct H].
    destruct H as [->|[]]. reflexivity.
  - rewrite H. left. reflexivity.
Qed.

(** A taken identifier is found. *)
Lemma taken_is_found (field : User.t -> option jsstr) (c : N) (s : jsstr)
    (l : list User.t) :
  In (trim (c :: s)) (flat_map (fun u => present (field u)) l) ->
  exists u, find_taken field (JStr (c :: s)) l = Ret (Some u).
Proof.
  intros H. apply in_identifiers in H. destruct H as (u & Hu & Hf).
  rewrite find_taken_str.
  destruct (find (fun u => strict_eq (opt_json (field u))
                              (JStr (trim (c :: s)))) l) as [u'|] eqn:E.
  - exists u'. reflexivity.
  - exfalso. apply (find_none _ _ E) in Hu. cbv beta in Hu.
    rewrite (proj2 (strict_eq_opt _ _) Hf) in Hu. discriminate.
Qed.

(** An identifier found free is held by no stored user. *)
Lemma free_is_absent (field : User.t -> option jsstr) (c : N) (s : jsstr)
    (l : list User.t) :
  find_taken field (JStr (c :: s)) l = Ret None ->
  ~ In (trim (c :: s)) (flat_map (fun u => present (field u)) l).
Proof.
  rewrite find_taken_str. intros H Hin. inversion H as [E]; clear H.
  apply in_identifiers in Hin. destruct Hin as (u & Hu & Hf).
  apply (find_none _ _ E) in Hu. cbv beta in Hu.
  rewrite (proj2 (strict_eq_opt _ _) Hf) in Hu. discriminate.
Qed.

Lemma trimmed_or_null_truthy (v : JsVal) (o : option jsstr) :
  trimmed_or_null v = Ret o -> truthy v = true ->
  exists c s, v = JStr (c :: s) /\ o = Some (trim (c :: s)).
Proof.
  unfold trimmed_or_null. intros H Ht. rewrite Ht in H.
  destruct v as [| |b|q|s|l|fs]; cbn [call_trim] in H; try discriminate.
  destruct s as [|c s]; [discriminate|]. inversion H. eauto.
Qed.

Lemma trimmed_or_null_some (v : JsVal) (t : jsstr) :
  trimmed_or_null v = Ret (Some t) ->
  exists c s, v = JStr (c :: s) /\ t = trim (c :: s).
Proof.
  unfold trimmed_or_null. destruct v as [| |b|q|s|l|fs]; cbn [truthy call_trim];
    try discriminate.
  - destruct b; discriminate.
  - destruct (negb (Qeq_bool q 0)); discriminate.
  - destruct s as [|c s]; [discriminate|]. intros H. inversion H. eauto.
Qed.

Lemma identifiers_app (field : User.t -> option jsstr) (l : list User.t)
    (u : User.t) :
  flat_map (fun u => present (field u)) (l ++ [u])
  = flat_map (fun u => present (field u)) l ++ present (field u).
Proof. rewrite flat_map_app. cbn [flat_map]. rewrite app_nil_r. reflexivity. Qed.

Lemma NoDup_snoc {A} (l : list A) (x : A) :
  NoDup l -> ~ In x l -> NoDup (l ++ [x]).
Proof.
  intros Hl Hx. apply NoDup_app; [exact Hl | repeat constructor; auto | ].
  intros a Ha [<-|[]]. exact (Hx Ha).
Qed.

(** Appending a user whose identifier was found free keeps the identifiers
    of the store distinct. *)
Lemma identifiers_stay_distinct (field : User.t -> option jsstr) (v : JsVal)
    (l : list User.t) (u : User.t) :
  NoDup (flat_map (fun u => present (field u)) l) ->
  find_taken field v l = Ret None ->
  trimmed_or_null v = Ret (field u) ->
  NoDup (flat_map (fun u => present (field u)) (l ++ [u])).
Proof.
  intros Hnd Hfree Htrim. rewrite identifiers_app.
  destruct (field u) as [t|] eqn:Ef; cbn [present];
    [|rewrite app_nil_r; exact Hnd].
  apply trimmed_or_null_some in Htrim. destruct Htrim as (c & s & -> & ->).
  apply NoDup_snoc; [exact Hnd|]. apply free_is_absent. exact Hfree.
Qed.
End Taken.

(** *** The user store over a sequence of requests *)

Section UserStore.
Import FileBackend.
Context (rt : Runtime).

Lemma create_election_keeps_users (req : Request) :
  keeps (same users) (create_election rt req).
Proof.
  pose proof (same_refl users) as Hr. pose proof (same_trans users) as Ht.
  unfold create_election, requireAuth, new_candidate. cbv zeta.
  repeat first
    [ apply getUserFromAuthHeader_keeps; reflexivity
    | apply uuidv4_keeps; reflexivity
    | apply Date_now_keeps; reflexivity
    | apply audit_keeps; reflexivity
    | apply keeps_mapM; try assumption
    | apply keeps_modify; intro; reflexivity
    | keeps_step ].
Qed.

(** Only a registration writes to the user store. *)
Lemma serve_keeps_users (c : Call) (w : World) :
  match c with
  | PostRegister _ => True
  | _ => users (snd (serve rt c w)) = users w
  end.
Proof.
  destruct c as [req|req|req|req|req|req|req]; cbn [serve].
  - exact I.
  - destruct (login rt req w) as [o w'] eqn:E.
    apply (login_keeps rt users) in E; [exact E | reflexivity | reflexivity].
  - destruct (me rt req w) as [o w'] eqn:E.
    apply (me_keeps rt users) in E; [exact E | reflexivity].
  - destruct (create_election rt req w) as [o w'] eqn:E.
    apply create_election_keeps_users in E. exact E.
  - reflexivity.
  - unfold get_election. monad_step.
    destruct (find_election (param_id req) (elections w)); reflexivity.
  - unfold get_candidates. monad_step.
    destruct (find_election (param_id req) (elections w)); reflexivity.
Qed.

(** No request removes or changes a stored user. *)
Lemma serve_extends_users (c : Call) (w : World) :
  exists l, users (snd (serve rt c w)) = users w ++ l.
Proof.
  pose proof (serve_keeps_users c w) as H.
  destruct c as [req| | | | | | ];
    try (exists []; rewrite app_nil_r; exact H).
  cbn [serve].
  destruct (register_result rt req w) as (r & w' & -> & _ & [[_ Hu]|[_ Hu]]).
  - exists []. rewrite app_nil_r. exact Hu.
  - destruct Hu as (u & Hu & _). exists [u]. exact Hu.
Qed.

Lemma serve_all_extends_users (calls : list Call) (w : World) :
  exists l, users (serve_all rt calls w) = users w ++ l.
Proof.
  revert w. induction calls as [|c calls IH]; intros w; cbn [serve_all fold_left].
  - exists []. rewrite app_nil_r. reflexivity.
  - destruct (serve_extends_users c w) as [l1 H1].
    destruct (IH (snd (serve rt c w))) as [l2 H2].
    exists (l1 ++ l2). unfold serve_all in H2. rewrite H2, H1.
    rewrite app_assoc. reflexivity.
Qed.

(** Every request keeps the stored emails distinct, and the stored phones
    distinct. *)
Lemma serve_keeps_unique (c : Call) (w : World) :
  unique_identifiers w -> unique_identifiers (snd (serve rt c w)).
Proof.
  intros [He Hp]. pose proof (serve_keeps_users c w) as H.
  destruct c as [req| | | | | | ];
    try (unfold unique_identifiers; rewrite H; split; assumption).
  cbn [serve].
  destruct (register_result rt req w) as (r & w' & -> & _ & [[_ Hu]|[_ Hu]]).
  - unfold unique_identifiers. cbn [snd]. rewrite Hu. split; assumption.
  - destruct Hu as (u & Hu & Hfe & Hfp & Hte & Htp).
    unfold unique_identifiers. cbn [snd]. rewrite Hu. split.
    + apply (identifiers_stay_distinct User.email (email_of req));
        assumption.
    + apply (identifiers_stay_distinct User.phone (phone_of req));
        assumption.
Qed.

Lemma serve_all_keeps_unique (calls : list Call) (w : World) :
  unique_identifiers w -> unique_identifiers (serve_all rt calls w).
Proof.
  revert w. induction calls as [|c calls IH]; intros w H;
    cbn [serve_all fold_left]; [exact H|].
  apply IH. apply serve_keeps_unique. exact H.
Qed.
End UserStore.

(** *** A registration with valid fields *)

Section ValidRegistration.
Import FileBackend.
Context (rt : Runtime).

Lemma field_ok_facts (valid : JsVal -> bool) (field : User.t -> option jsstr)
    (v : JsVal) :
  (forall s, valid (JStr s) = true -> str_eqb (trim s) [] = false) ->
  field_ok valid v = true ->
  exists is_blank stored, field_facts valid field v is_blank stored.
Proof.
  intros Hvis H. unfold field_ok in H. destruct (truthy v) eqn:Et.
  - cbn [negb orb] in H. apply andb_true_iff in H. destruct H as [Hs Hv].
    destruct v as [| | | |s| |]; try discriminate.
    destruct s as [|c s]; [discriminate|].
    exists false, (Some (trim (c :: s))). split.
    + unfold blank. cbn [truthy negb call_trim]. rewrite (Hvis _ Hv).
      reflexivity.
    + reflexivity.
    + rewrite Hv. reflexivity.
    + intros l. rewrite find_taken_str. eexists; reflexivity.
    + reflexivity.
  - exists true, None. split.
    + unfold blank. rewrite Et. reflexivity.
    + exact Et.
    + rewrite Et. reflexivity.
    + intros l. rewrite find_taken_falsy by exact Et. eexists; reflexivity.
    + unfold trimmed_or_null. rewrite Et. reflexivity.
Qed.

Lemma isValidEmail_visible (s : jsstr) :
  isValidEmail rt (JStr s) = true -> str_eqb (trim s) [] = false.
Proof.
  unfold isValidEmail. intros H. apply andb_true_iff in H.
  apply email_re_visible. apply H.
Qed.

Lemma isValidPhone_visible (s : jsstr) :
  isValidPhone rt (JStr s) = true -> str_eqb (trim s) [] = false.
Proof.
  unfold isValidPhone. intros H. apply andb_true_iff in H.
  apply phone_re_visible. apply H.
Qed.

(** With valid fields the answer depends on the two lookups alone: 409 if
    the email or the phone is taken, and 201 if both are free. *)
Lemma register_valid (req : Request) (w : World) :
  fields_valid rt req = true ->
  exists oe op,
    find_taken User.email (email_of req) (users w) = Ret oe
    /\ find_taken User.phone (phone_of req) (users w) = Ret op
    /\ match oe, op with
       | Some _, _ =>
           register rt req w
           = (Ret (error_response 409 "Email already registered."), w)
       | None, Some _ =>
           register rt req w
           = (Ret (error_response 409 "Phone already registered."), w)
       | None, None =>
           exists r w', register rt req w = (Ret r, w') /\ status r = 201
       end.
Proof.
  unfold fields_valid, email_of, phone_of, body_of. cbv zeta.
  set (b := js_or (req_body req) (JObj [])).
  rewrite !andb_true_iff.
  intros [[[[[[[[Hn1 Hn2] Hn3] Hp1] Hp2] Hp3] He] Hp] Hany].
  destruct (field_ok_facts _ User.email _ isValidEmail_visible He)
    as (be & se & [Eb Et Ev El Es]).
  destruct (field_ok_facts _ User.phone _ isValidPhone_visible Hp)
    as (bp & sp & [Pb Pt Pv Pl Ps]).
  destruct (El (users w)) as [oe Hoe]. destruct (Pl (users w)) as [op Hop].
  exists oe, op. split; [exact Hoe|]. split; [exact Hop|].
  assert (Hboth : be && bp = false).
  { rewrite Et, Pt in Hany. destruct be, bp; try reflexivity. discriminate. }
  apply Nat.leb_le in Hn3, Hp3.
  assert (Hn3' : (List.length (trim (str_of (get b "name"))) <? 2)%nat = false)
    by (apply Nat.ltb_ge; exact Hn3).
  assert (Hp3' : (List.length (str_of (get b "password")) <? 6)%nat = false)
    by (apply Nat.ltb_ge; exact Hp3).
  unfold register, audit, genSaltSync, uuidv4, Date_now. monad_step. cbv zeta.
  fold b. rewrite Hn1, Hn2, Hn3', Hp1, Hp2, Hp3'. cbn [negb orb].
  rewrite Eb. cbv beta iota.
  destruct be; cbv beta iota; [rewrite Pb; cbv beta iota|];
    cbn [andb] in Hboth |- *; try rewrite Hboth;
  rewrite Ev, Pv.
  all: cbv beta iota; rewrite Hoe; cbv beta iota.
  all: destruct oe as [taken|]; [reflexivity|].
  all: rewrite Hop; cbv beta iota.
  all: destruct op as [taken|]; [reflexivity|].
  all: rewrite Es, Ps; do 2 eexists; split; reflexivity.
Qed.

(** A registration that supplies a taken identifier is never accepted and
    leaves the store as it is. *)
Lemma register_taken (field : User.t -> option jsstr)
    (req : Request) (w : World) (c : N) (s : jsstr) :
  (field = User.email /\ email_of req = JStr (c :: s)
   \/ field = User.phone /\ phone_of req = JStr (c :: s)) ->
  In (trim (c :: s)) (flat_map (fun u => present (field u)) (users w)) ->
  exists r w',
    register rt req w = (Ret r, w') /\ status r <> 201
    /\ users w' = users w.
Proof.
  intros Hf Hin.
  destruct (register_result rt req w) as (r & w' & Hr & _ & [[Hs Hu]|[_ Hu]]).
  - exists r, w'. auto.
  - exfalso. destruct Hu as (u & _ & Hfe & Hfp & _).
    destruct (taken_is_found field c s (users w) Hin) as [u' Hu'].
    destruct Hf as [[-> Hv]|[-> Hv]]; rewrite Hv in *; congruence.
Qed.
(** A field that passed the blank test is absent or a string. *)
Lemma blank_find_taken (field : User.t -> option jsstr) (v : JsVal)
    (is_blank : bool) (l : list User.t) :
  blank v = Ret is_blank -> exists o, find_taken field v l = Ret o.
Proof.
  unfold blank. destruct (truthy v) eqn:Et; cbn [negb].
  - destruct v as [| | | |s| |]; cbn [call_trim]; try discriminate.
    destruct s as [|c s]; [discriminate|]. intros _.
    rewrite find_taken_str. eexists; reflexivity.
  - intros _. rewrite find_taken_falsy by exact Et. eexists; reflexivity.
Qed.

(** The handler and its field validation: a message of the validation is
    the 400 the handler answers, and a request that passes the validation
    goes on to the two lookups, each of which ends in a 409 when it finds a
    user. *)
Lemma register_validation (req : Request) (w : World) :
  match validation rt req with
  | Ret (Some msg) => register rt req w = (Ret (error_response 400 msg), w)
  | Ret None =>
      exists oe,
        find_taken User.email (email_of req) (users w) = Ret oe
        /\ match oe with
           | Some _ =>
               register rt req w
               = (Ret (error_response 409 "Email already registered."), w)
           | None =>
               forall u,
                 find_taken User.phone (phone_of req) (users w) = Ret (Some u) ->
                 register rt req w
                 = (Ret (error_response 409 "Phone already registered."), w)
           end
  | Throw _ => True
  end.
Proof.
  unfold validation, email_of, phone_of, body_of. cbv zeta.
  set (b := js_or (req_body req) (JObj [])).
  unfold register. monad_step. cbv zeta. fold b.
  destruct (negb (truthy (get b "name")) || negb (is_string (get b "name"))
            || (List.length (trim (str_of (get b "name"))) <? 2)%nat);
    [reflexivity|].
  destruct (negb (truthy (get b "password"))
            || negb (is_string (get b "password"))
            || (List.length (str_of (get b "password")) <? 6)%nat);
    [reflexivity|].
  destruct (blank (get b "email")) as [no_email|e] eqn:Eb; [|exact I].
  cbv beta iota.
  destruct (blank_find_taken User.email _ _ (users w) Eb) as [oe Hoe].
  set (V := match (if truthy (get b "email")
                    then regexp_test rt email_re (get b "email")
                    else Ret true) with
             | Ret true =>
                 match (if truthy (get b "phone")
                        then regexp_test rt phone_re (get b "phone")
                        else Ret true) with
                 | Ret true => Ret None
                 | Ret false => Ret (Some "Invalid phone format.")
                 | Throw e => Throw e
                 end
             | Ret false => Ret (Some "Invalid email format.")
             | Throw e => Throw e
             end).
  set (bad_email := truthy (get b "email")
                    && negb (isValidEmail rt (get b "email"))).
  set (bad_phone := truthy (get b "phone")
                    && negb (isValidPhone rt (get b "phone"))).
  assert (Hrest :
    match V with
    | Ret (Some msg) =>
        (bad_email = true /\ msg = "Invalid email format.")
        \/ (bad_email = false /\ bad_phone = true
            /\ msg = "Invalid phone format.")
    | Ret None => bad_email = false /\ bad_phone = false
    | Throw _ => True
    end).
  { subst V bad_email bad_phone.
    unfold regexp_test, isValidEmail, isValidPhone.
    destruct (truthy (get b "email")); cbn [andb].
    - destruct (converts (get b "email")); [|exact I].
      destruct (email_re (ToString rt (get b "email"))); cbn [negb];
        [|left; split; reflexivity].
      destruct (truthy (get b "phone")); cbn [andb].
      + destruct (converts (get b "phone")); [|exact I].
        destruct (phone_re (ToString rt (get b "phone"))); cbn [negb];
          [split; reflexivity | right; repeat split; reflexivity].
      + split; reflexivity.
    - destruct (truthy (get b "phone")); cbn [andb].
      + destruct (converts (get b "phone")); [|exact I].
        destruct (phone_re (ToString rt (get b "phone"))); cbn [negb];
          [split; reflexivity | right; repeat split; reflexivity].
      + split; reflexivity. }
  clearbody V bad_email bad_phone.
  destruct no_email; cbv beta iota.
  - destruct (blank (get b "phone")) as [no_phone|e] eqn:Pb; [|exact I].
    destruct no_phone; cbn [andb]; [reflexivity|].
    destruct V as [[msg|]|]; [| |exact I].
    + destruct Hrest as [[-> ->]|(-> & -> & ->)]; reflexivity.
    + destruct Hrest as [-> ->]. exists oe. split; [exact Hoe|].
      rewrite Hoe. destruct oe as [taken|]; [reflexivity|].
      intros u Hu. rewrite Hu. reflexivity.
  - cbn [andb].
    destruct V as [[msg|]|]; [| |exact I].
    + destruct Hrest as [[-> ->]|(-> & -> & ->)]; reflexivity.
    + destruct Hrest as [-> ->]. exists oe. split; [exact Hoe|].
      rewrite Hoe. destruct oe as [taken|]; [reflexivity|].
      intros u Hu. rewrite Hu. reflexivity.
Qed.
End ValidRegistration.

(** C4 (as amended). Once a registration has succeeded with some email
    (respectively some phone), a later Register call that supplies the same
    email (respectively phone), after any requests in between, is never
    accepted and leaves the user store unchanged.  The handler runs its
    field validation before the uniqueness check: the refusal is the
    conflict error 409 whenever the call passes that validation, and the
    400 of the validation, with its message, when a field check fails.
    Hence the stored emails stay pairwise distinct, and so do the stored
    phones. *)
Theorem taken_identifier_is_refused
    (rt : Runtime) (w0 w1 : FileBackend.World) (first again : Request)
    (r1 : Response) (calls : list Call) :
  FileBackend.register rt first w0 = (Ret r1, w1) ->
  status r1 = 201 ->
  supplies_same first again ->
  exists r w',
    FileBackend.register rt again (serve_all rt calls w1) = (Ret r, w')
    /\ status r <> 201
    /\ FileBackend.users w' = FileBackend.users (serve_all rt calls w1)
    /\ (validation rt again = Ret None ->
        w' = serve_all rt calls w1
        /\ (r = error_response 409 "Email already registered."
            \/ r = error_response 409 "Phone already registered."))
    /\ (forall msg,
           validation rt again = Ret (Some msg) ->
           w' = serve_all rt calls w1 /\ r = error_response 400 msg)
    /\ (unique_identifiers w0 -> unique_identifiers w').
Proof.
  intros Hfirst H201 Hsame.
  set (w := serve_all rt calls w1).
  destruct (register_result rt first w0)
    as (r0 & w0' & Hr0 & _ & [[Hs _]|[_ Hu]]);
    rewrite Hfirst in Hr0; inversion Hr0; subst r0 w0'; [contradiction|].
  destruct Hu as (u & Hu & _ & _ & Hte & Htp).
  destruct (serve_all_extends_users rt calls w1) as [l Hl]. fold w in Hl.
  assert (Htaken : exists field c s,
             (field = FileBackend.User.email /\ email_of again = JStr (c :: s)
              \/ field = FileBackend.User.phone
                 /\ phone_of again = JStr (c :: s))
             /\ In (trim (c :: s))
                  (flat_map (fun u => present (field u)) (FileBackend.users w))).
  { destruct Hsame as [[Ht He]|[Ht He]].
    - destruct (trimmed_or_null_truthy _ _ Hte Ht) as (c & s & Hv & Hs).
      exists FileBackend.User.email, c, s. split; [left; split; congruence|].
      rewrite Hl, Hu, !flat_map_app. apply in_or_app. left.
      apply in_or_app. right. cbn [flat_map]. rewrite Hs. left. reflexivity.
    - destruct (trimmed_or_null_truthy _ _ Htp Ht) as (c & s & Hv & Hs).
      exists FileBackend.User.phone, c, s. split; [right; split; congruence|].
      rewrite Hl, Hu, !flat_map_app. apply in_or_app. left.
      apply in_or_app. right. cbn [flat_map]. rewrite Hs. left. reflexivity. }
  destruct Htaken as (field & c & s & Hfield & Hin).
  destruct (register_taken rt field again w c s Hfield Hin)
    as (r & w' & Hr & Hst & Husers).
  exists r, w'. split; [exact Hr|]. split; [exact Hst|]. split; [exact Husers|].
  pose proof (register_validation rt again w) as Hval.
  split; [|split].
  - intros Hnone. rewrite Hnone in Hval.
    destruct Hval as (oe & Hoe & Hm).
    destruct (taken_is_found field c s _ Hin) as [u' Hu'].
    destruct Hfield as [[-> Hv]|[-> Hv]]; rewrite Hv in *.
    + rewrite Hu' in Hoe. inversion Hoe; subst oe.
      rewrite Hm in Hr. inversion Hr; subst. split; [reflexivity|].
      left; reflexivity.
    + destruct oe as [taken|].
      * rewrite Hm in Hr. inversion Hr; subst. split; [reflexivity|].
        left; reflexivity.
      * rewrite (Hm u' Hu') in Hr. inversion Hr; subst.
        split; [reflexivity|]. right; reflexivity.
  - intros msg Hsome. rewrite Hsome in Hval. rewrite Hval in Hr.
    inversion Hr; subst. split; reflexivity.
  - intros Huniq.
    assert (H1 : unique_identifiers w1).
    { pose proof (serve_keeps_unique rt (PostRegister first) w0 Huniq) as H.
      cbn [serve] in H. rewrite Hfirst in H. exact H. }
    pose proof (serve_all_keeps_unique rt calls w1 H1) as Hw. fold w in Hw.
    pose proof (serve_keeps_unique rt (PostRegister again) w Hw) as H.
    cbn [serve] in H. rewrite Hr in H. exact H.
Qed.

Lemma taken_identifier_is_refused_witness :
  exists r w',
    FileBackend.register Sample.runtime register_alice_numeric_phone
      (serve_all Sample.runtime calls_in_between Sample.world1) = (Ret r, w')
    /\ status r <> 201
    /\ FileBackend.users w'
       = FileBackend.users
           (serve_all Sample.runtime calls_in_between Sample.world1)
    /\ (validation Sample.runtime register_alice_numeric_phone = Ret None ->
        w' = serve_all Sample.runtime calls_in_between Sample.world1
        /\ (r = error_response 409 "Email already registered."
            \/ r = error_response 409 "Phone already registered."))
    /\ (forall msg,
           validation Sample.runtime register_alice_numeric_phone
           = Ret (Some msg) ->
           w' = serve_all Sample.runtime calls_in_between Sample.world1
           /\ r = error_response 400 msg)
    /\ (unique_identifiers Sample.empty_world -> unique_identifiers w').
Proof.
  eapply (taken_identifier_is_refused Sample.runtime Sample.empty_world
            Sample.world1 Sample.register_alice).
  - vm_compute. reflexivity.
  - reflexivity.
  - left. split; reflexivity.
Defined.

(** Alice's email again with a phone sent as a number: the number reads as
    a phone, the call passes the validation, and the answer is the
    conflict. *)
Example sample_numeric_phone_conflict :
  validation Sample.runtime register_alice_numeric_phone = Ret None
  /\ fields_valid Sample.runtime register_alice_numeric_phone = false
  /\ FileBackend.register Sample.runtime register_alice_numeric_phone
       Sample.world1
     = (Ret (error_response 409 "Email already registered."), Sample.world1).
Proof. repeat split; vm_compute; reflexivity. Qed.

(** The second registration of Alice's email is a conflict. *)
Example sample_conflict :
  FileBackend.register Sample.runtime register_alice_again Sample.world1
  = (Ret (error_response 409 "Email already registered."), Sample.world1).
Proof. vm_compute. reflexivity. Qed.

(** With a password that is too short it is a validation error: that check
    comes first. *)
Lemma taken_email_with_short_password :
  (exists r, FileBackend.register Sample.runtime Sample.register_alice
               Sample.empty_world = (Ret r, Sample.world1)
             /\ status r = 201)
  /\ truthy (email_of Sample.register_alice) = true
  /\ email_of register_alice_short = email_of Sample.register_alice
  /\ FileBackend.register Sample.runtime register_alice_short Sample.world1
     = (Ret (error_response 400
               "Password is required and must be at least 6 characters."),
        Sample.world1).
Proof.
  split; [|split; [|split]].
  - eexists. split; [vm_compute; reflexivity | reflexivity].
  - reflexivity.
  - reflexivity.
  - vm_compute. reflexivity.
Qed.

(** From an empty store, every sequence of requests leaves the stored emails
    pairwise distinct and the stored phones pairwise distinct. *)
Lemma identifiers_unique_from_start (rt : Runtime) (calls : list Call)
    (w : FileBackend.World) :
  FileBackend.users w = [] ->
  unique_identifiers (serve_all rt calls w).
Proof.
  intros H. apply serve_all_keeps_unique.
  unfold unique_identifiers. rewrite H. split; constructor.
Qed.

(** ** Reading a created election back *)

Lemma distinct_NoDup (l : list jsstr) : distinct l = true -> NoDup l.
Proof.
  induction l as [|x l IH]; cbn [distinct]; intros H; [constructor|].
  apply andb_true_iff in H. destruct H as [Hx Hl].
  constructor; [|apply IH; exact Hl].
  intros Hin. apply negb_true_iff in Hx.
  rewrite <- not_true_iff_false in Hx. apply Hx.
  apply existsb_exists. exists x. split; [exact Hin | apply str_eqb_refl].
Qed.

Lemma NoDup_skipn {A} (n : nat) (l : list A) : NoDup l -> NoDup (skipn n l).
Proof.
  revert l. induction n as [|n IH]; intros l H; [exact H|].
  destruct l as [|x l]; [constructor|]. cbn [skipn]. apply IH.
  inversion H; assumption.
Qed.

Section ReadBack.
Import FileBackend.
Context (rt : Runtime).

Lemma getUserFromAuthHeader_tick (req : Request) (w w' : World) (u : User.t) :
  getUserFromAuthHeader rt req w = (Ret (Some u), w') ->
  w' = advance w.
Proof.
  unfold getUserFromAuthHeader.
  destruct (authorization req) as [auth|]; [|discriminate].
  destruct (negb (truthy (JStr auth)) || negb (startsWith auth (lit "Bearer ")));
    [discriminate|].
  unfold Date_now; monad_step.
  destruct (jwt_verify rt (slice_from 7 auth) (Date_now_at rt (tick w)));
    [|discriminate].
  destruct (prop j "id"); [|discriminate].
  cbv beta iota. intros H. inversion H. reflexivity.
Qed.

(** [candidates.map] draws one UUID per candidate, in order, and touches
    nothing else. *)
Lemma new_candidates_result (cs : list JsVal) (w w' : World)
    (ks : list Candidate.t) :
  mapM (new_candidate rt) cs w = (Ret ks, w') ->
  ks = map (fun ic => candidate_of rt (uuidv4_at rt (fst ic)) (snd ic))
           (combine (seq (tick w) (List.length cs)) cs)
  /\ users w' = users w /\ elections w' = elections w
  /\ audit_log w' = audit_log w.
Proof.
  revert w ks. induction cs as [|c cs IH]; intros w ks; cbn [mapM].
  - intros H. inversion H; subst. repeat split; reflexivity.
  - unfold new_candidate at 1, uuidv4. monad_step.
    destruct (prop c "name") as [c_name|] eqn:Ep; [|discriminate].
    cbv beta iota.
    destruct (mapM (new_candidate rt) cs (advance w)) as [[ks'|] w1] eqn:Em;
      [|discriminate].
    intros H. inversion H; subst; clear H.
    destruct (IH _ _ Em) as (-> & Hu & He & Ha).
    split; [|auto].
    cbn [List.length seq combine map fst snd]. f_equal.
    unfold candidate_of, prop in *.
    destruct c; try discriminate; inversion Ep; reflexivity.
Qed.
End ReadBack.

Section Created.
Import FileBackend.
Context (rt : Runtime).

Ltac not_created H H201 :=
  inversion H; subst; cbn in H201; discriminate H201.

(** What a 201 from CreateElection means: the caller was identified, the
    window is a proper one, and exactly one election was appended, which is
    the one returned. *)
Lemma create_election_created (req : Request) (w w' : World) (r : Response) :
  create_election rt req w = (Ret r, w') ->
  status r = 201 ->
  exists (u : User.t) (election : Election.t),
    getUserFromAuthHeader rt req w = (Ret (Some u), advance w)
    /\ elections w' = elections w ++ [election]
    /\ users w' = users w
    /\ r = {| status := 201;
              body := obj [("success", JBool true);
                           ("election", election_json election)] |}
    /\ Election.id election = uuidv4_at rt (S (tick w))
    /\ Election.start_ts election = start_of rt req
    /\ Election.end_ts election = end_of rt req
    /\ Election.created_by election = User.id u
    /\ Election.candidates election
       = map (fun ic => candidate_of rt (uuidv4_at rt (fst ic)) (snd ic))
             (combine (seq (3 + tick w) (List.length (candidates_of req)))
                      (candidates_of req))
    /\ isNaN (start_of rt req) = false /\ isNaN (end_of rt req) = false
    /\ num_ge (start_of rt req) (end_of rt req) = false.
Proof.
  intros H H201.
  destruct (getUserFromAuthHeader_frame rt req w)
    as ([u|] & w1 & Hg & _); revgoals.
  { rewrite (create_election_unauth rt req w w1 Hg) in H. not_created H H201. }
  pose proof (getUserFromAuthHeader_tick rt req w w1 u Hg) as ->.
  exists u. revert H.
  unfold create_election, requireAuth. monad_step. rewrite Hg.
  cbv beta iota zeta.
  match goal with |- context [if ?c then _ else _] => destruct c end;
    [intros H; not_created H H201|].
  fold (body_of req). fold (start_of rt req). fold (end_of rt req).
  destruct (isNaN (start_of rt req)); [intros H; not_created H H201|].
  destruct (isNaN (end_of rt req)); [intros H; not_created H H201|].
  destruct (num_ge (start_of rt req) (end_of rt req));
    [intros H; not_created H H201|].
  cbn [orb].
  match goal with |- context [if ?c then _ else _] => destruct c end;
    [intros H; not_created H H201|].
  unfold uuidv4, Date_now, audit. monad_step.
  fold (candidates_of req).
  destruct (mapM (new_candidate rt) (candidates_of req) (advance (advance (advance w))))
    as [[ks|] w2] eqn:Em; [|intros H; not_created H H201].
  destruct (new_candidates_result rt _ _ _ _ Em) as (Hks & Hu & He & Ha).
  cbv beta iota. unfold Date_now. monad_step.
  intros H. inversion H; subst r w'; clear H.
  eexists. split; [reflexivity|]. split; [cbn; rewrite He; reflexivity|].
  split; [cbn; rewrite Hu; reflexivity|]. split; [reflexivity|].
  cbn. repeat split; try reflexivity. exact Hks.
Qed.
End Created.

Lemma candidates_preserved (rt : Runtime) (cs : list JsVal) (a : nat) :
  Forall2 (preserves_candidate rt) cs
    (map (fun ic => candidate_of rt (uuidv4_at rt (fst ic)) (snd ic))
         (combine (seq a (List.length cs)) cs)).
Proof.
  revert a. induction cs as [|c cs IH]; intros a;
    cbn [List.length seq combine map]; constructor.
  - unfold preserves_candidate. cbn. repeat split; reflexivity.
  - apply IH.
Qed.

Lemma candidate_ids (rt : Runtime) (cs : list JsVal) (a : nat) :
  map FileBackend.Candidate.id
    (map (fun ic => candidate_of rt (uuidv4_at rt (fst ic)) (snd ic))
         (combine (seq a (List.length cs)) cs))
  = map (uuidv4_at rt) (seq a (List.length cs)).
Proof.
  revert a. induction cs as [|c cs IH]; intros a;
    cbn [List.length seq combine map]; [reflexivity|].
  rewrite IH. reflexivity.
Qed.

Lemma is_election_id_false (w : FileBackend.World) (x : jsstr) :
  is_election_id w x = false ->
  forall e, In e (FileBackend.elections w) -> FileBackend.Election.id e <> x.
Proof.
  unfold is_election_id. intros H e He E.
  rewrite <- not_true_iff_false in H. apply H. apply existsb_exists.
  exists e. split; [exact He | apply str_eqb_eq; exact E].
Qed.

(** What the JSON of a stored candidate shows. *)
Lemma candidate_json_fields (k : FileBackend.Candidate.t) :
  get (FileBackend.candidate_json k) "id" = JStr (FileBackend.Candidate.id k)
  /\ get (FileBackend.candidate_json k) "votes"
     = JInt (FileBackend.Candidate.votes k)
  /\ shown_in (FileBackend.candidate_json k)
     = (JStr (FileBackend.Candidate.name k),
        FileBackend.Candidate.description k,
        FileBackend.Candidate.party k,
        FileBackend.Candidate.manifesto k).
Proof. repeat split; reflexivity. Qed.

Lemma stored_json_shown (rt : Runtime) (cs : list JsVal) (a : nat) :
  map shown_in
    (map FileBackend.candidate_json
       (map (fun ic => candidate_of rt (uuidv4_at rt (fst ic)) (snd ic))
            (combine (seq a (List.length cs)) cs)))
  = map (shown rt) cs.
Proof.
  revert a. induction cs as [|c cs IH]; intros a;
    cbn [List.length seq combine map]; [reflexivity|].
  rewrite IH. reflexivity.
Qed.

Lemma stored_json_ids (ks : list FileBackend.Candidate.t) :
  map (fun j => get j "id") (map FileBackend.candidate_json ks)
  = map JStr (map FileBackend.Candidate.id ks).
Proof.
  induction ks as [|k ks IH]; cbn [map]; [reflexivity|].
  rewrite IH. reflexivity.
Qed.

Lemma stored_json_votes (rt : Runtime) (cs : list JsVal) (a : nat) :
  Forall (fun j => get j "votes" = JInt 0)
    (map FileBackend.candidate_json
       (map (fun ic => candidate_of rt (uuidv4_at rt (fst ic)) (snd ic))
            (combine (seq a (List.length cs)) cs))).
Proof.
  revert a. induction cs as [|c cs IH]; intros a;
    cbn [List.length seq combine map]; constructor.
  - reflexivity.
  - apply IH.
Qed.

(** C8. After a successful CreateElection, GetElection on the returned id
    succeeds and returns the election that was created, the very JSON the
    creation returned: its candidate list has one entry per submitted
    candidate, in the order of submission, each showing the trimmed name and
    the party, manifesto and description that were sent (the empty string
    when not given), zero votes, and an id that no other entry has.  The
    UUIDs drawn for the request are taken to be fresh, as the generator
    promises. *)
Theorem created_election_reads_back
    (rt : Runtime) (req : Request) (w w' : FileBackend.World) (r : Response) :
  FileBackend.create_election rt req w = (Ret r, w') ->
  status r = 201 ->
  fresh_uuids rt w (3 + List.length (candidates_of req)) = true ->
  exists (e : FileBackend.Election.t) (ids : list jsstr) (js : list JsVal),
    r = {| status := 201;
           body := obj [("success", JBool true);
                        ("election", FileBackend.election_json e)] |}
    /\ (forall q : Request,
           param_id q = FileBackend.Election.id e ->
           FileBackend.get_election q w'
           = (Ret {| status := 200;
                     body := obj [("election", FileBackend.election_json e)] |},
              w'))
    /\ Forall2 (preserves_candidate rt) (candidates_of req)
               (FileBackend.Election.candidates e)
    /\ NoDup (map FileBackend.Candidate.id (FileBackend.Election.candidates e))
    /\ get (get (body r) "election") "id" = JStr (FileBackend.Election.id e)
    /\ (forall q : Request,
           param_id q = FileBackend.Election.id e ->
           exists r',
             FileBackend.get_election q w' = (Ret r', w')
             /\ status r' = 200
             /\ get (body r') "election" = get (body r) "election")
    /\ get (get (body r) "election") "candidates" = JArr js
    /\ List.length js = List.length (candidates_of req)
    /\ map shown_in js = map (shown rt) (candidates_of req)
    /\ Forall (fun j => get j "votes" = JInt 0) js
    /\ map (fun j => get j "id") js = map JStr ids
    /\ NoDup ids.
Proof.
  intros H H201 Hfresh.
  destruct (create_election_created rt req w w' r H H201)
    as (u & e & _ & Hel & _ & Hr & Hid & _ & _ & _ & Hcs & _).
  unfold fresh_uuids, next_uuids in Hfresh. apply andb_true_iff in Hfresh.
  destruct Hfresh as [Hdistinct Hnew].
  assert (Hread : forall q : Request,
             param_id q = FileBackend.Election.id e ->
             FileBackend.get_election q w'
             = (Ret {| status := 200;
                       body := obj [("election",
                                     FileBackend.election_json e)] |}, w')).
  { intros q Hq. unfold FileBackend.get_election. monad_step.
    rewrite Hq, Hel, find_election_app_new; [reflexivity|].
    apply is_election_id_false. rewrite Hid.
    rewrite forallb_forall in Hnew. apply negb_true_iff. apply Hnew.
    cbn [Nat.add seq map]. right. left. reflexivity. }
  assert (Hids : NoDup (map FileBackend.Candidate.id
                          (FileBackend.Election.candidates e))).
  { rewrite Hcs, candidate_ids. apply distinct_NoDup in Hdistinct.
    apply (NoDup_skipn 3) in Hdistinct.
    cbn [Nat.add seq map skipn] in Hdistinct. exact Hdistinct. }
  exists e, (map FileBackend.Candidate.id (FileBackend.Election.candidates e)),
    (map FileBackend.candidate_json (FileBackend.Election.candidates e)).
  split; [exact Hr|]. split; [exact Hread|].
  split; [rewrite Hcs; apply candidates_preserved|].
  split; [exact Hids|].
  split; [rewrite Hr; reflexivity|].
  split.
  { intros q Hq. eexists. split; [exact (Hread q Hq)|].
    split; [reflexivity|]. rewrite Hr. reflexivity. }
  split; [rewrite Hr; reflexivity|].
  split.
  { rewrite Hcs, !length_map, length_combine, length_seq.
    apply Nat.min_id. }
  split; [rewrite Hcs; apply stored_json_shown|].
  split; [rewrite Hcs; apply stored_json_votes|].
  split; [apply stored_json_ids | exact Hids].
Qed.

Lemma created_election_reads_back_witness :
  exists (e : FileBackend.Election.t) (ids : list jsstr) (js : list JsVal),
    acme_response
    = {| status := 201;
         body := obj [("success", JBool true);
                      ("election", FileBackend.election_json e)] |}
    /\ (forall q : Request,
           param_id q = FileBackend.Election.id e ->
           FileBackend.get_election q (snd acme_created)
           = (Ret {| status := 200;
                     body := obj [("election", FileBackend.election_json e)] |},
              snd acme_created))
    /\ Forall2 (preserves_candidate Sample.runtime) (candidates_of create_acme)
               (FileBackend.Election.candidates e)
    /\ NoDup (map FileBackend.Candidate.id (FileBackend.Election.candidates e))
    /\ get (get (body acme_response) "election") "id"
       = JStr (FileBackend.Election.id e)
    /\ (forall q : Request,
           param_id q = FileBackend.Election.id e ->
           exists r',
             FileBackend.get_election q (snd acme_created)
             = (Ret r', snd acme_created)
             /\ status r' = 200
             /\ get (body r') "election"
                = get (body acme_response) "election")
    /\ get (get (body acme_response) "election") "candidates" = JArr js
    /\ List.length js = List.length (candidates_of create_acme)
    /\ map shown_in js = map (shown Sample.runtime) (candidates_of create_acme)
    /\ Forall (fun j => get j "votes" = JInt 0) js
    /\ map (fun j => get j "id") js = map JStr ids
    /\ NoDup ids.
Proof.
  apply (created_election_reads_back Sample.runtime create_acme Sample.world1
           (snd acme_created) acme_response);
    vm_compute; reflexivity.
Defined.

(** The candidate list Alice gets back for the Acme election. *)
Example sample_read_back :
  map shown_in
    (elements (get (get (body acme_response) "election") "candidates"))
  = [(JLit "Asha", JStr [], JLit "Blue", JStr []);
     (JLit "Bo", JStr [], JStr [], JLit "More parks");
     (JLit "Chen", JLit "Incumbent", JStr [], JStr [])]
  /\ map (fun j => get j "votes")
       (elements (get (get (body acme_response) "election") "candidates"))
     = [JInt 0; JInt 0; JInt 0].
Proof. split; vm_compute; reflexivity. Qed.

(** ** Allocating a short id *)

Section Allocation.
Import ShortIdRouter.
Context (rt : Runtime).

Lemma short_id_length (n : nat) : (List.length (short_id_at rt n) <= 10)%nat.
Proof. unfold short_id_at. rewrite length_firstn. apply Nat.le_min_l. Qed.

Lemma short_id_full (n : nat) :
  (10 <= List.length (strip_dashes (uuidv4_at rt n)))%nat ->
  List.length (short_id_at rt n) = 10%nat.
Proof. unfold short_id_at. rewrite length_firstn. intros H. lia. Qed.

Lemma advance_rows (n : nat) (st : Store) :
  election_rows (advance_by n st) = election_rows st
  /\ candidate_rows (advance_by n st) = candidate_rows st
  /\ tick (advance_by n st) = (tick st + n)%nat.
Proof.
  revert st. induction n as [|n IH]; intros st; cbn [advance_by].
  - rewrite Nat.add_0_r. auto.
  - destruct (IH (advance st)) as (He & Hc & Ht). rewrite He, Hc, Ht.
    cbn. repeat split; lia.
Qed.

Lemma electionExists_advance (id : jsstr) (n : nat) (st : Store) :
  electionExists id (advance_by n st) = electionExists id st.
Proof.
  unfold electionExists. destruct (advance_rows n st) as (-> & _). reflexivity.
Qed.

Lemma last_default {A} (x : A) (l : list A) (d d' : A) :
  last (x :: l) d = last (x :: l) d'.
Proof.
  revert x. induction l as [|y l IH]; intros x; [reflexivity|].
  change (last (y :: l) d = last (y :: l) d'). apply IH.
Qed.

(** The loop stops at the first id that is free, after [j] further draws;
    it gives up, keeping the last id drawn, when [remaining] draws were all
    taken. *)
Lemma retry_id_result (remaining : nat) (id : jsstr) (st : Store) :
  exists (j : nat),
    retry_id rt remaining id st
    = (Ret (last (id :: map (short_id_at rt) (seq (tick st) j)) id),
       advance_by j st)
    /\ (j <= remaining)%nat
    /\ (forall x, In x (removelast (id :: map (short_id_at rt) (seq (tick st) j))) ->
                  electionExists x st = true)
    /\ (electionExists (last (id :: map (short_id_at rt) (seq (tick st) j)) id) st
        = true -> j = remaining).
Proof.
  revert id st. induction remaining as [|k IH]; intros id st; cbn [retry_id].
  - exists 0%nat. cbn [advance_by seq map removelast last].
    split; [reflexivity|]. split; [lia|].
    split; [intros x [] | intros _; reflexivity].
  - monad_step. destruct (electionExists id st) eqn:E.
    + unfold generateShortId. cbv beta iota.
      fold (short_id_at rt (tick st)).
      destruct (IH (short_id_at rt (tick st)) (advance st))
        as (j & Hr & Hj & Hall & Hlast).
      assert (Eadv : forall x, electionExists x (advance st) = electionExists x st)
        by reflexivity.
      cbn [tick advance] in Hr, Hall, Hlast.
      exists (S j). cbn [advance_by seq map].
      change (last (id :: short_id_at rt (tick st)
                       :: map (short_id_at rt) (seq (S (tick st)) j)) id)
        with (last (short_id_at rt (tick st)
                      :: map (short_id_at rt) (seq (S (tick st)) j)) id).
      rewrite (last_default _ _ id (short_id_at rt (tick st))).
      split; [exact Hr|]. split; [lia|]. split.
      * intros x Hx. cbn [removelast] in Hx.
        destruct Hx as [<-|Hx]; [exact E|]. rewrite <- Eadv. apply Hall.
        exact Hx.
      * intros Hx. rewrite <- Eadv in Hx. rewrite (Hlast Hx). reflexivity.
    + exists 0%nat. cbn [advance_by seq map removelast last].
      split; [reflexivity|]. split; [lia|].
      split; [intros x [] | congruence].
Qed.

(** The allocation of one request, from the state [st] in which the request
    arrives: the id settled on is the [j]-th of the seven attempts, all the
    attempts before it are taken, and it is itself taken only if it is the
    seventh. *)
Lemma allocation_result (st : Store) :
  exists (j : nat),
    bind (generateShortId rt) (retry_id rt 6) st
    = (Ret (short_id_at rt (tick st + j)), advance_by (S j) st)
    /\ (j <= 6)%nat
    /\ (forall i, (i < j)%nat ->
                  electionExists (short_id_at rt (tick st + i)) st = true)
    /\ (electionExists (short_id_at rt (tick st + j)) st = true -> j = 6%nat).
Proof.
  unfold bind, generateShortId. fold (short_id_at rt (tick st)).
  destruct (retry_id_result 6 (short_id_at rt (tick st)) (advance st))
    as (j & Hr & Hj & Hall & Hlast).
  cbn [tick advance] in Hr, Hall, Hlast.
  assert (Hlist : short_id_at rt (tick st)
                    :: map (short_id_at rt) (seq (S (tick st)) j)
                  = map (short_id_at rt) (seq (tick st) (S j))) by reflexivity.
  rewrite Hlist in Hr, Hall, Hlast.
  assert (Hl : last (map (short_id_at rt) (seq (tick st) (S j)))
                    (short_id_at rt (tick st))
               = short_id_at rt (tick st + j)).
  { rewrite seq_S, map_app. cbn [map]. apply last_last. }
  assert (Hrm : removelast (map (short_id_at rt) (seq (tick st) (S j)))
                = map (short_id_at rt) (seq (tick st) j)).
  { rewrite seq_S, map_app. cbn [map]. apply removelast_last. }
  rewrite Hl in Hr, Hlast. rewrite Hrm in Hall.
  exists j. split; [exact Hr|]. split; [exact Hj|]. split.
  - intros i Hi. apply Hall. apply in_map. apply in_seq. lia.
  - exact Hlast.
Qed.

Lemma all_taken_iff (st : Store) (j : nat) :
  (j <= 6)%nat ->
  (forall i, (i < j)%nat ->
             electionExists (short_id_at rt (tick st + i)) st = true) ->
  (electionExists (short_id_at rt (tick st + j)) st = true -> j = 6%nat) ->
  all_taken rt st = electionExists (short_id_at rt (tick st + j)) st.
Proof.
  intros Hj Hall Hlast. unfold all_taken, attempts.
  destruct (electionExists (short_id_at rt (tick st + j)) st) eqn:E.
  - specialize (Hlast eq_refl). subst j. apply forallb_forall.
    intros x Hx. apply in_map_iff in Hx. destruct Hx as (n & <- & Hn).
    apply in_seq in Hn.
    destruct (Nat.eq_dec n (tick st + 6)) as [->|Hne]; [exact E|].
    replace n with (tick st + (n - tick st))%nat by lia. apply Hall. lia.
  - apply not_true_iff_false. intros H. rewrite forallb_forall in H.
    rewrite H in E; [discriminate|]. apply in_map. apply in_seq. lia.
Qed.
End Allocation.

(** ** The router's handler, step by step *)

Section RouterSteps.
Import ShortIdRouter.
Context (rt : Runtime).

(** A request that passes the checks is served as follows. *)
Lemma router_create_steps (req : Request) (st : Store) :
  router_checks_pass rt req = true ->
  exists j : nat,
    (j <= 6)%nat
    /\ (forall i, (i < j)%nat ->
                  electionExists (short_id_at rt (tick st + i)) st = true)
    /\ all_taken rt st = electionExists (short_id_at rt (tick st + j)) st
    /\ create_election rt req st
       = if all_taken rt st
         then (Ret (error_response 500 "Could not generate unique election id"),
               advance_by 7 st)
         else
           match toISOString rt (router_start rt req),
                 toISOString rt (router_end rt req) with
           | Ret start_at, Ret end_at =>
               let id := short_id_at rt (tick st + j) in
               let row := row_of rt req id start_at end_at
                            (Date_now_at rt (S (tick st + j))) in
               match candidate_loop req id (with_row row j st) with
               | (Ret saved, st') => (Ret (created_response req row saved), st')
               | (Throw _, st') =>
                   (Ret (error_response 500 "Internal server error"), st')
               end
           | _, _ =>
               (Ret (error_response 500 "Internal server error"),
                advance_by (S j) st)
           end.
Proof.
  unfold router_checks_pass, router_start, router_end, body_of.
  rewrite !andb_true_iff, negb_true_iff. intros [[[Ht Hs] He] Hge].
  destruct (allocation_result rt st) as (j & Ha & Hj & Hall & Hlast).
  exists j. split; [exact Hj|]. split; [exact Hall|].
  pose proof (all_taken_iff rt st j Hj Hall Hlast) as Hiff.
  split; [exact Hiff|].
  unfold create_election. monad_step. cbv zeta.
  rewrite Ht, Hs, He, Hge. cbn [negb orb].
  unfold bind, generateShortId in Ha. cbv beta iota in Ha.
  unfold generateShortId. cbv beta iota. rewrite Ha. cbv beta iota.
  rewrite electionExists_advance. rewrite Hiff.
  destruct (electionExists (short_id_at rt (tick st + j)) st) eqn:E.
  - rewrite (Hlast eq_refl). reflexivity.
  - destruct (toISOString rt (new_Date rt (get (js_or (req_body req) (JObj [])) "start")))
      as [start_at|]; [|reflexivity].
    destruct (toISOString rt (new_Date rt (get (js_or (req_body req) (JObj [])) "end")))
      as [end_at|]; [|reflexivity].
    unfold Date_now, insertElection. monad_step.
    destruct (advance_rows (S j) st) as (Hre & Hrc & Hrt).
    cbn [advance election_rows candidate_rows tick].
    rewrite Hre, Hrc, Hrt.
    replace (S (tick st + S j)) with (S (S (tick st + j))) by lia.
    replace (tick st + S j)%nat with (S (tick st + j)) by lia.
    unfold candidate_loop, body_of, with_row, row_of, creator_of, body_of.
    cbv zeta.
    match goal with
    | |- context [if ?c then _ else _] => destruct c
    end; [|reflexivity].
    match goal with
    | |- context [save_candidates ?a ?b ?c] =>
        destruct (save_candidates a b c) as [[saved|e] st']
    end; reflexivity.
Qed.
End RouterSteps.

(** ** The candidate loop of the router *)

Section CandidateLoop.
Import ShortIdRouter.

Lemma truthy_str (s : jsstr) : truthy (JStr s) = negb (str_eqb s []).
Proof. destruct s; reflexivity. Qed.

(** One turn of the loop on a readable candidate. *)
Lemma save_candidates_step (id : jsstr) (c : JsVal) (rest : list JsVal)
    (st : Store) :
  plain c = true ->
  save_candidates id (c :: rest) st
  = if nameless c then save_candidates id rest st
    else match save_candidates id rest
                 (add_candidates [candidate_row id (next_rowid st) c] st) with
         | (Ret saved, st') =>
             (Ret (saved_of (candidate_row id (next_rowid st) c) :: saved), st')
         | (Throw e, st') => (Throw e, st')
         end.
Proof.
  intros Hp. cbn [save_candidates]. unfold insertCandidate. monad_step.
  assert (Hprop : prop c "name" = Ret (get c "name"))
    by (destruct c; try discriminate; reflexivity).
  rewrite Hprop. cbv beta iota.
  assert (Htrim : call_trim (js_or (get c "name") (JStr [])) = Ret (kept_name c)).
  { unfold kept_name, js_or. destruct c; try discriminate; cbn [plain] in Hp;
      match goal with
      | |- context [truthy ?v] => destruct (truthy v) eqn:Et
      end;
      try reflexivity; cbn [negb orb] in Hp;
      match goal with
      | H : is_string ?v = true |- _ => destruct v; try discriminate H
      end; reflexivity. }
  rewrite Htrim. cbv beta iota. rewrite truthy_str, negb_involutive.
  fold (nameless c). destruct (nameless c); reflexivity.
Qed.

(** A nameless candidate leaves no trace, wherever it stands in the list. *)
Lemma save_candidates_skip (id : jsstr) (pre post : list JsVal) (c : JsVal)
    (st : Store) :
  plain c = true -> nameless c = true ->
  save_candidates id (pre ++ c :: post) st
  = save_candidates id (pre ++ post) st.
Proof.
  intros Hp Hn. revert st. induction pre as [|x pre IH]; intros st.
  - cbn [app]. rewrite save_candidates_step by exact Hp. rewrite Hn.
    reflexivity.
  - cbn [app save_candidates]. unfold bind.
    destruct (lift (prop x "name") st) as [[v|] st1]; [|reflexivity].
    destruct (lift (call_trim (js_or v (JStr []))) st1) as [[n|] st2];
      [|reflexivity].
    destruct (negb (truthy (JStr n))); [apply IH|].
    destruct (insertCandidate id n _ _ st2) as [[rowid|] st3]; [|reflexivity].
    rewrite IH. reflexivity.
Qed.

(** On readable candidates the loop never fails: it inserts the rows of the
    candidates that have a name, in order, and returns them. *)
Lemma save_candidates_plain (id : jsstr) (cs : list JsVal) (st : Store) :
  forallb plain cs = true ->
  save_candidates id cs st
  = (Ret (map saved_of (rows_for id (next_rowid st) cs)),
     add_candidates (rows_for id (next_rowid st) cs) st).
Proof.
  revert st. induction cs as [|c cs IH]; intros st Hp.
  - cbn. unfold add_candidates. rewrite app_nil_r. destruct st; reflexivity.
  - cbn [forallb] in Hp. apply andb_true_iff in Hp. destruct Hp as [Hc Hcs].
    rewrite save_candidates_step by exact Hc. cbn [rows_for].
    destruct (nameless c); [apply IH; exact Hcs|].
    rewrite IH by exact Hcs.
    assert (Hnext : next_rowid (add_candidates [candidate_row id (next_rowid st) c] st)
                    = next_rowid st + 1).
    { unfold next_rowid, add_candidates. cbn [candidate_rows].
      rewrite length_app. cbn [List.length]. lia. }
    rewrite Hnext. cbn [map]. f_equal.
    unfold add_candidates. cbn [election_rows candidate_rows tick].
    rewrite <- app_assoc. reflexivity.
Qed.




End CandidateLoop.






(** With every attempt taken, the answer is the allocation error and the
    store is as before; with the counting UUID source the second election
    gets the next id. *)
Example sample_exhausted :
  all_taken Sample.stuck_runtime taken_store = true
  /\ fst exhausted
     = Ret (error_response 500 "Could not generate unique election id")
  /\ ShortIdRouter.election_rows (snd exhausted)
     = ShortIdRouter.election_rows taken_store.
Proof. repeat split; vm_compute; reflexivity. Qed.

(** ** A request the router serves *)

(** With its checks passed, an id free, valid dates and readable candidates,
    a request is answered 201: one row is inserted for the election, under
    the id settled on after [j] retries, and one for each candidate that
    has a name. *)
Lemma router_served
    (rt : Runtime) (req : Request) (st : ShortIdRouter.Store)
    (cs : list JsVal) (s e : Z) :
  router_checks_pass rt req = true ->
  all_taken rt st = false ->
  router_start rt req = Some s ->
  router_end rt req = Some e ->
  get (body_of req) "candidates" = JArr cs ->
  forallb plain cs = true ->
  exists j : nat,
    (j <= 6)%nat
    /\ ShortIdRouter.create_election rt req st
       = (Ret (created_response req
                 (row_of rt req (short_id_at rt (ShortIdRouter.tick st + j))
                    (Date_toISOString rt s) (Date_toISOString rt e)
                    (Date_now_at rt (S (ShortIdRouter.tick st + j))))
                 (map saved_of
                    (rows_for (short_id_at rt (ShortIdRouter.tick st + j))
                       (next_rowid st) cs))),
          add_candidates
            (rows_for (short_id_at rt (ShortIdRouter.tick st + j))
               (next_rowid st) cs)
            (with_row
               (row_of rt req (short_id_at rt (ShortIdRouter.tick st + j))
                  (Date_toISOString rt s) (Date_toISOString rt e)
                  (Date_now_at rt (S (ShortIdRouter.tick st + j))))
               j st)).
Proof.
  intros Hpass Hfree Hs He Hcs Hplain.
  destruct (router_create_steps rt req st Hpass) as (j & Hj & _ & _ & Hc).
  rewrite Hfree, Hs, He in Hc. cbn [toISOString] in Hc. cbv zeta in Hc.
  unfold candidate_loop in Hc. rewrite Hcs in Hc.
  cbn [or_default isArray elements] in Hc.
  rewrite (save_candidates_plain _ _ _ Hplain) in Hc.
  exists j. split; [exact Hj | exact Hc].
Qed.

(** ** Nameless candidates *)



(** The election is created with an empty candidate list although three
    candidates were submitted. *)
Example sample_nameless :
  exists r st',
    ShortIdRouter.create_election Sample.runtime nameless_request
      Sample.empty_store = (Ret r, st')
    /\ status r = 201
    /\ get (get (body r) "election") "candidates" = JArr []
    /\ ShortIdRouter.candidate_rows st' = []
    /\ List.length (ShortIdRouter.election_rows st') = 1%nat.
Proof.
  do 2 eexists. split; [vm_compute; reflexivity|].
  repeat split; reflexivity.
Qed.

(** ** Timestamps that do not parse *)

Lemma unparseable_inv (rt : Runtime) (v : JsVal) :
  unparseable rt v = true ->
  exists s, v = JStr s /\ Date_parse rt s = None.
Proof.
  destruct v as [| | | |[|c s]| |]; try discriminate. cbn [unparseable].
  destruct (Date_parse rt (c :: s)) eqn:E; [discriminate|].
  intros _. exists (c :: s). auto.
Qed.

(** The file-backed server normalizes both forms of instant to a number of
    milliseconds, and reads an unparseable string as [NaN]. *)
Lemma parseToNumber_number (rt : Runtime) (q : Q) :
  FileBackend.parseToNumber rt (JNum q) = Fin q.
Proof. reflexivity. Qed.

Lemma parseToNumber_string (rt : Runtime) (s : jsstr) :
  FileBackend.parseToNumber rt (JStr s) = date_value (Date_parse rt s).
Proof. reflexivity. Qed.

Lemma parseToNumber_unparseable (rt : Runtime) (v : JsVal) :
  unparseable rt v = true -> FileBackend.parseToNumber rt v = NaN.
Proof.
  intros H. apply unparseable_inv in H. destruct H as (s & -> & H).
  rewrite parseToNumber_string, H. reflexivity.
Qed.

(** On the file-backed server an instant that does not parse is a
    validation error, and an election that is created stores the two
    instants as the numbers they were normalized to. *)
Lemma create_election_unparseable
    (rt : Runtime) (req : Request) (w w1 : FileBackend.World)
    (u : FileBackend.User.t) :
  FileBackend.getUserFromAuthHeader rt req w = (Ret (Some u), w1) ->
  unparseable rt (get (body_of req) "start_ts") = true
  \/ unparseable rt (get (body_of req) "end_ts") = true ->
  exists msg,
    FileBackend.create_election rt req w = (Ret (error_response 400 msg), w1).
Proof.
  intros Hu Hbad. unfold FileBackend.create_election, FileBackend.requireAuth.
  monad_step. rewrite Hu. cbv beta iota zeta.
  match goal with |- context [if ?c then _ else _] => destruct c end;
    [eexists; reflexivity|].
  fold (body_of req).
  destruct Hbad as [H|H]; rewrite (parseToNumber_unparseable rt _ H);
    cbn [isNaN orb]; [|rewrite orb_true_r; cbn [orb]]; eexists; reflexivity.
Qed.

Section RouterDates.
Import ShortIdRouter.
Context (rt : Runtime).

Lemma new_Date_unparseable (v : JsVal) :
  unparseable rt v = true -> new_Date rt v = None.
Proof.
  intros H. apply unparseable_inv in H. destruct H as (s & -> & H). exact H.
Qed.

Lemma num_ge_NaN_r (n : number) : num_ge n NaN = false.
Proof. destruct n; reflexivity. Qed.

(** The short-id router lets a date that does not parse through its checks,
    and fails on it afterwards: the answer is 500, not a validation error.
    Nothing is stored. *)
Lemma router_unparseable (req : Request) (st : Store) :
  truthy (get (body_of req) "title") = true ->
  truthy (get (body_of req) "start") = true ->
  truthy (get (body_of req) "end") = true ->
  unparseable rt (get (body_of req) "start") = true
  \/ unparseable rt (get (body_of req) "end") = true ->
  exists r st',
    create_election rt req st = (Ret r, st')
    /\ status r = 500
    /\ election_rows st' = election_rows st
    /\ candidate_rows st' = candidate_rows st.
Proof.
  intros Ht Hs He Hbad.
  assert (Hnone : router_start rt req = None \/ router_end rt req = None).
  { unfold router_start, router_end.
    destruct Hbad as [H|H]; [left | right]; apply new_Date_unparseable; exact H. }
  assert (Hpass : router_checks_pass rt req = true).
  { unfold router_checks_pass. rewrite Ht, Hs, He. cbn [andb].
    apply negb_true_iff.
    destruct Hnone as [-> | ->]; cbn [date_value]; [reflexivity|].
    apply num_ge_NaN_r. }
  destruct (router_create_steps rt req st Hpass) as (j & _ & _ & _ & Hc).
  rewrite Hc. destruct (all_taken rt st).
  - destruct (advance_rows 7 st) as (Her & Hcr & _).
    do 2 eexists. split; [reflexivity|]. auto.
  - destruct (advance_rows (S j) st) as (Her & Hcr & _).
    destruct Hnone as [-> | ->]; cbn [toISOString].
    + do 2 eexists. split; [reflexivity|]. auto.
    + destruct (toISOString rt (router_start rt req));
        do 2 eexists; (split; [reflexivity|]); auto.
Qed.
End RouterDates.

(** C3. On the short-id router, a CreateElection request whose start is a
    string that does not parse to a date is answered with 500 (the generic
    "Internal server error"), where the claim and the file-backed server
    have the validation error 400. *)
Theorem router_bad_date_is_500 :
  unparseable Sample.runtime (get (body_of bad_date_request) "start") = true
  /\ ShortIdRouter.create_election Sample.runtime bad_date_request
       Sample.empty_store
     = (Ret (error_response 500 "Internal server error"),
        advance_by 1 Sample.empty_store).
Proof. split; vm_compute; reflexivity. Qed.

(** ** Who may create an election *)

(** On the file-backed server, an election that appears in the registry was
    created for a stored user named by a verified token. *)
Lemma created_elections_have_a_caller
    (rt : Runtime) (req : Request) (w w' : FileBackend.World)
    (o : outcome Response) :
  FileBackend.create_election rt req w = (o, w') ->
  FileBackend.elections w' <> FileBackend.elections w ->
  exists u w1,
    FileBackend.getUserFromAuthHeader rt req w = (Ret (Some u), w1)
    /\ In u (FileBackend.users w).
Proof.
  intros Hc Hne.
  destruct (FileBackend.getUserFromAuthHeader rt req w) as [o1 w1] eqn:Hg.
  destruct (getUserFromAuthHeader_frame rt req w)
    as (o2 & w2 & H2 & _ & He & _).
  rewrite Hg in H2. inversion H2; subst. destruct o2 as [u|].
  - exists u, w2. split; [reflexivity|].
    apply (getUserFromAuthHeader_some rt req w w2 u Hg).
  - rewrite (create_election_unauth rt req w w2 Hg) in Hc.
    inversion Hc; subst. congruence.
Qed.

(** C1 (as amended). On the file-backed server CreateElection requires an
    authenticated caller: when the authorization header is absent or
    malformed, when the token is rejected by verification (invalid or
    expired), or when the token names no stored user, the answer is 401 and
    the election registry and the user store are left as they were; an
    election is added to the registry only for a stored user named by a
    verified token.  The short-id router has no such gate: a request
    without an authorization header is served like any other, and the
    election is stored with [created_by = null]. *)
Theorem create_election_and_identity (rt : Runtime) :
  (forall (req : Request) (w : FileBackend.World),
      unauthenticated rt w req ->
      exists w',
        FileBackend.create_election rt req w
        = (Ret (error_response 401 "Missing or invalid token"), w')
        /\ FileBackend.elections w' = FileBackend.elections w
        /\ FileBackend.users w' = FileBackend.users w)
  /\
  (forall (req : Request) (w w' : FileBackend.World) (o : outcome Response),
      FileBackend.create_election rt req w = (o, w') ->
      FileBackend.elections w' <> FileBackend.elections w ->
      exists u w1,
        FileBackend.getUserFromAuthHeader rt req w = (Ret (Some u), w1)
        /\ In u (FileBackend.users w))
  /\
  (forall (req : Request) (st : ShortIdRouter.Store) (cs : list JsVal)
          (s e : Z),
      authorization req = None ->
      router_checks_pass rt req = true ->
      all_taken rt st = false ->
      router_start rt req = Some s ->
      router_end rt req = Some e ->
      get (body_of req) "candidates" = JArr cs ->
      forallb plain cs = true ->
      exists (row : ShortIdRouter.ElectionRow.t) (saved : list JsVal)
             (st' : ShortIdRouter.Store),
        ShortIdRouter.create_election rt req st
        = (Ret (created_response req row saved), st')
        /\ ShortIdRouter.election_rows st'
           = ShortIdRouter.election_rows st ++ [row]
        /\ ShortIdRouter.ElectionRow.created_by row = JNull).
Proof.
  split; [|split].
  - intros req w H.
    destruct (getUserFromAuthHeader_none rt req w H) as [w1 H1].
    destruct (getUserFromAuthHeader_frame rt req w)
      as (o & w2 & H2 & Hu & He & _).
    rewrite H1 in H2. inversion H2; subst.
    exists w2. rewrite (create_election_unauth _ _ _ _ H1). auto.
  - intros req w w' o. apply created_elections_have_a_caller.
  - intros req st cs s e Hnone Hpass Hfree Hs He Hcs Hplain.
    destruct (router_served rt req st cs s e Hpass Hfree Hs He Hcs Hplain)
      as (j & _ & Hc).
    do 3 eexists. split; [exact Hc|]. split; [reflexivity|].
    cbn [row_of ShortIdRouter.ElectionRow.created_by].
    unfold creator_of, ShortIdRouter.getUserFromAuthHeader.
    rewrite Hnone. reflexivity.
Qed.

Lemma create_election_and_identity_witness :
  (exists w',
      FileBackend.create_election Sample.runtime anonymous_late_start_request
        Sample.world1
      = (Ret (error_response 401 "Missing or invalid token"), w')
      /\ FileBackend.elections w' = FileBackend.elections Sample.world1
      /\ FileBackend.users w' = FileBackend.users Sample.world1)
  /\
  (exists (row : ShortIdRouter.ElectionRow.t) (saved : list JsVal)
          (st' : ShortIdRouter.Store),
      ShortIdRouter.create_election Sample.runtime board_request
        Sample.empty_store
      = (Ret (created_response board_request row saved), st')
      /\ ShortIdRouter.election_rows st'
         = ShortIdRouter.election_rows Sample.empty_store ++ [row]
      /\ ShortIdRouter.ElectionRow.created_by row = JNull).
Proof.
  split.
  - apply (proj1 (create_election_and_identity Sample.runtime)).
    apply header_absent. reflexivity.
  - apply (proj2 (proj2 (create_election_and_identity Sample.runtime))
             board_request Sample.empty_store Sample.candidates3_list
             Sample.time1 Sample.time2);
      vm_compute; reflexivity.
Defined.

(** The short-id router answers a request that carries no authorization
    header with 201, and stores the election with [created_by = null]. *)
Lemma router_creates_without_identity :
  authorization board_request = None
  /\ (exists r, fst anonymous_board = Ret r /\ status r = 201)
  /\ map ShortIdRouter.ElectionRow.created_by
         (ShortIdRouter.election_rows (snd anonymous_board)) = [JNull]
  /\ ShortIdRouter.election_rows (snd anonymous_board)
     <> ShortIdRouter.election_rows Sample.empty_store.
Proof.
  split; [reflexivity|]. split; [|split].
  - eexists. split; [vm_compute; reflexivity | reflexivity].
  - vm_compute. reflexivity.
  - vm_compute. discriminate.
Qed.

(* ================================================================== *)
(** * Further properties of the handlers                               *)
(* ================================================================== *)

Section RegisterCases.
Import FileBackend.
Context (rt : Runtime).

Ltac turned_down :=
  do 2 eexists; split; [reflexivity|]; left;
  split; [discriminate | repeat split; reflexivity].

Ltac register_rest b w Hok Hfinish :=
  destruct (truthy (get b "email") && negb (isValidEmail rt (get b "email")))
    eqn:Hve; [turned_down|];
  destruct (truthy (get b "phone") && negb (isValidPhone rt (get b "phone")))
    eqn:Hvp; [turned_down|];
  destruct (find_taken User.email (get b "email") (users w))
    as [[taken|]|] eqn:Hfe; [turned_down| |turned_down];
  destruct (find_taken User.phone (get b "phone") (users w))
    as [[taken'|]|] eqn:Hfp; [turned_down| |turned_down];
  destruct (trimmed_or_null (get b "email")) as [email|] eqn:Hte;
    [|turned_down];
  destruct (trimmed_or_null (get b "phone")) as [phone|] eqn:Htp;
    [|turned_down];
  do 2 eexists; split; [reflexivity|]; right; exists email, phone;
  repeat split; try reflexivity;
  rewrite (Hok _ _ _ Hve Hte), (Hok _ _ _ Hvp Htp); cbn [andb];
  exact Hfinish.

Lemma register_cases (req : Request) (w : World) :
  exists r w',
    register rt req w = (Ret r, w')
    /\ ((status r <> 201 /\ files_unchanged w w')
        \/ exists email phone,
             trimmed_or_null (email_of req) = Ret email
             /\ trimmed_or_null (phone_of req) = Ret phone
             /\ find_taken User.email (email_of req) (users w) = Ret None
             /\ find_taken User.phone (phone_of req) (users w) = Ret None
             /\ fields_valid rt req = true
             /\ r = registered_response (registered_user rt req w email phone)
             /\ w' = with_user rt (registered_user rt req w email phone) w).
Proof.
  unfold register, fields_valid, email_of, phone_of, registered_user,
    with_user, registered_response, files_unchanged, body_of.
  unfold audit, genSaltSync, uuidv4, Date_now. monad_step. cbv zeta.
  set (b := js_or (req_body req) (JObj [])).
  destruct (truthy (get b "name")) eqn:Hn1; [|turned_down].
  destruct (is_string (get b "name")) eqn:Hn2; [|turned_down].
  cbn [negb orb andb].
  destruct (List.length (trim (str_of (get b "name"))) <? 2)%nat eqn:Hn3;
    [turned_down|].
  destruct (truthy (get b "password")) eqn:Hp1; [|turned_down].
  destruct (is_string (get b "password")) eqn:Hp2; [|turned_down].
  cbn [negb orb andb].
  destruct (List.length (str_of (get b "password")) <? 6)%nat eqn:Hp3;
    [turned_down|].
  assert (Hlen : forall n m : nat, (n <? m)%nat = false -> (m <=? n)%nat = true).
  { intros n m H. apply Nat.ltb_ge in H. apply Nat.leb_le. exact H. }
  rewrite (Hlen _ _ Hn3), (Hlen _ _ Hp3). cbn [andb]. clear Hlen.
  assert (Hok : forall (valid : JsVal -> bool) v o,
             truthy v && negb (valid v) = false ->
             trimmed_or_null v = Ret o -> field_ok valid v = true).
  { intros valid v o Hv Ht. unfold field_ok, trimmed_or_null in *.
    destruct (truthy v); [|reflexivity]. cbn [negb orb andb] in *.
    apply negb_false_iff in Hv. rewrite Hv, andb_true_r.
    destruct v; try discriminate; reflexivity. }
  assert (Hblank : forall v, truthy v = false -> blank v = Ret true).
  { intros v H. unfold blank. rewrite H. reflexivity. }
  destruct (blank (get b "email")) as [no_email|] eqn:Hbe; [|turned_down].
  assert (Hfinish :
    forall no_phone,
      (if no_email then blank (get b "phone") else Ret false) = Ret no_phone ->
      no_email && no_phone = false ->
      truthy (get b "email") || truthy (get b "phone") = true).
  { intros no_phone Hbp Hboth.
    destruct (truthy (get b "email")) eqn:Et; [reflexivity|].
    destruct (truthy (get b "phone")) eqn:Ep; [reflexivity|]. exfalso.
    rewrite (Hblank _ Et) in Hbe. inversion Hbe; subst no_email.
    rewrite (Hblank _ Ep) in Hbp. inversion Hbp; subst no_phone.
    discriminate Hboth. }
  destruct no_email; cbv beta iota.
  - destruct (blank (get b "phone")) as [no_phone|] eqn:Hbp; [|turned_down].
    specialize (Hfinish no_phone eq_refl).
    destruct (true && no_phone) eqn:Hboth; [turned_down|].
    specialize (Hfinish eq_refl). register_rest b w Hok Hfinish.
  - specialize (Hfinish false eq_refl eq_refl). cbn [andb].
    register_rest b w Hok Hfinish.
Qed.
End RegisterCases.

Section LoginCases.
Import FileBackend.
Context (rt : Runtime).

Lemma login_cases (req : Request) (w : World) :
  exists r w',
    login rt req w = (Ret r, w')
    /\ ((status r <> 200 /\ w' = w)
        \/ exists u,
             truthy (identifier_of req) = true
             /\ truthy (password_of req) = true
             /\ lookup_identifier (identifier_of req) (users w) = Some u
             /\ compareSync rt (password_of req) (User.password_hash u)
                = Ret true
             /\ r = logged_in_response (token_for rt u (tick w))
             /\ w' = with_login rt u w).
Proof.
  unfold login, identifier_of, password_of, lookup_identifier, body_of,
    logged_in_response, token_for, token_payload, with_login.
  unfold signTokenForUser, audit, Date_now. monad_step. cbv zeta.
  set (b := js_or (req_body req) (JObj [])).
  destruct (truthy (get b "identifier")) eqn:Hi;
    [|do 2 eexists; split; [reflexivity|]; left; split;
      [discriminate | reflexivity]].
  destruct (truthy (get b "password")) eqn:Hp;
    [|do 2 eexists; split; [reflexivity|]; left; split;
      [discriminate | reflexivity]].
  cbn [negb orb].
  destruct (find _ (users w)) as [u|] eqn:Hf;
    [|do 2 eexists; split; [reflexivity|]; left; split;
      [discriminate | reflexivity]].
  destruct (compareSync rt (get b "password") (User.password_hash u))
    as [[|]|] eqn:Hc;
    try (do 2 eexists; split; [reflexivity|]; left; split;
         [discriminate | reflexivity]).
  do 2 eexists. split; [reflexivity|]. right. exists u.
  repeat split; try reflexivity; assumption.
Qed.

Lemma me_cases (req : Request) (w : World) :
  exists r w',
    me rt req w = (Ret r, w')
    /\ files_unchanged w w'
    /\ (r = error_response 401 "Missing or invalid token"
        \/ exists u, In u (users w)
             /\ r = {| status := 200; body := obj [("user", safe_user u)] |}).
Proof.
  unfold me. monad_step.
  destruct (getUserFromAuthHeader_frame rt req w)
    as (o & w1 & Hg & Hu & He & Ha & _).
  rewrite Hg. destruct o as [u|].
  - apply getUserFromAuthHeader_some in Hg. destruct Hg as [Hin _].
    do 2 eexists. split; [reflexivity|]. split; [repeat split; assumption|].
    right. exists u. split; [exact Hin | reflexivity].
  - do 2 eexists. split; [reflexivity|]. split; [repeat split; assumption|].
    left; reflexivity.
Qed.
End LoginCases.

Section CreateCases.
Import FileBackend.
Context (rt : Runtime).

Lemma new_candidate_run (c : JsVal) (w : World) :
  new_candidate rt c w
  = if nullish c then (Throw "TypeError", advance w)
    else (Ret (candidate_of rt (uuidv4_at rt (tick w)) c), advance w).
Proof. destruct c; reflexivity. Qed.

Lemma bump_advance (n : nat) (w : World) :
  bump n (advance w) = bump (S n) w.
Proof.
  unfold bump, advance. cbn [users elections audit_log tick].
  rewrite <- plus_n_Sm. reflexivity.
Qed.

Lemma new_candidates_run (cs : list JsVal) (w : World) :
  if forallb (fun c => negb (nullish c)) cs
  then mapM (new_candidate rt) cs w
       = (Ret (stored_candidates rt (tick w) cs), bump (List.length cs) w)
  else exists k, mapM (new_candidate rt) cs w = (Throw "TypeError", bump k w).
Proof.
  revert w. induction cs as [|c cs IH]; intros w.
  - destruct w; reflexivity.
  - cbn [forallb mapM]. unfold bind, ret. rewrite !new_candidate_run.
    specialize (IH (advance w)).
    destruct (nullish c); cbn [negb andb].
    + exists 1%nat. destruct w; reflexivity.
    + destruct (forallb (fun c => negb (nullish c)) cs).
      * rewrite IH, bump_advance. reflexivity.
      * destruct IH as [k IH]. exists (S k). rewrite IH, bump_advance.
        reflexivity.
Qed.

Lemma stored_candidates_length (a : nat) (cs : list JsVal) :
  List.length (stored_candidates rt a cs) = List.length cs.
Proof.
  unfold stored_candidates.
  rewrite length_map, length_combine, length_seq. apply Nat.min_id.
Qed.

Lemma create_election_run (req : Request) (w : World) (u : User.t) :
  getUserFromAuthHeader rt req w = (Ret (Some u), advance w) ->
  create_election rt req w
  = if negb (required_given req)
    then (Ret (error_response 400
            "companyName, totalSeats, start_ts, end_ts and at least one candidate are required"),
          advance w)
    else if negb (window_ok rt req)
    then (Ret (error_response 400 "Invalid start/end timestamps"), advance w)
    else if negb (seats_ok rt req)
    then (Ret (error_response 400 "totalSeats must be a positive integer"),
          advance w)
    else if readable req
    then (Ret (election_created_response (created_election rt req w u)),
          with_election rt (created_election rt req w u) w)
    else (Ret (error_response 500 "Server error"),
          snd (mapM (new_candidate rt) (candidates_of req) (bump 3 w))).
Proof.
  intros Hu. unfold create_election, requireAuth. monad_step. rewrite Hu.
  cbv beta iota zeta.
  unfold required_given, window_ok, seats_ok, seats_of, start_of, end_of,
    readable, body_of.
  pose proof (new_candidates_run (candidates_of req) (bump 3 w)) as Hrun.
  unfold candidates_of, body_of in *.
  set (b := js_or (req_body req) (JObj [])) in *.
  destruct (truthy (get b "companyName")); [|reflexivity].
  destruct (truthy (get b "totalSeats")); [|reflexivity].
  destruct (truthy (get b "start_ts")); [|reflexivity].
  destruct (truthy (get b "end_ts")); [|reflexivity].
  destruct (isArray (or_default (get b "candidates") (JArr [])));
    [|reflexivity].
  destruct (List.length (elements (or_default (get b "candidates") (JArr [])))
            =? 0)%nat; [reflexivity|].
  cbn [negb orb andb].
  destruct (isNaN (parseToNumber rt (get b "start_ts"))); [reflexivity|].
  destruct (isNaN (parseToNumber rt (get b "end_ts"))); [reflexivity|].
  destruct (num_ge (parseToNumber rt (get b "start_ts"))
                   (parseToNumber rt (get b "end_ts"))); [reflexivity|].
  cbn [negb orb andb].
  destruct (isInteger (ToNumber rt (get b "totalSeats"))); [|reflexivity].
  destruct (num_le (ToNumber rt (get b "totalSeats")) (Fin 0)); [reflexivity|].
  cbn [negb orb andb].
  unfold uuidv4, Date_now. cbv beta iota.
  change (advance (advance (advance w))) with (bump 3 w).
  destruct (forallb (fun c => negb (nullish c))
              (elements (or_default (get b "candidates") (JArr [])))).
  - rewrite Hrun. unfold audit, Date_now. monad_step.
    unfold election_created_response, created_election, with_election,
      seats_of, start_of, end_of, candidates_of, body_of.
    fold b. cbn [Election.candidates Election.created_by Election.id].
    rewrite stored_candidates_length.
    cbn [bump advance set_elections set_audit_log users elections audit_log
         tick].
    set (n := List.length
                (elements (or_default (get b "candidates") (JArr [])))).
    replace (n + (3 + tick w))%nat with (3 + tick w + n)%nat by lia.
    unfold set_audit_log, advance, set_elections, bump.
    cbn [users elections audit_log tick]. unfold audit_line.
    replace (n + (3 + tick w))%nat with (3 + tick w + n)%nat by lia.
    reflexivity.
  - destruct Hrun as [k Hrun]. rewrite Hrun. reflexivity.
Qed.
End CreateCases.

(** ** The two patterns *)

Section Patterns.
Import FileBackend.

Lemma span_app (p : N -> bool) (s : jsstr) :
  s = fst (span p s) ++ snd (span p s)
  /\ forallb p (fst (span p s)) = true
  /\ match snd (span p s) with c :: _ => p c = false | [] => True end.
Proof.
  induction s as [|c s (IH1 & IH2 & IH3)]; cbn [span]; [cbn; auto|].
  destruct (p c) eqn:E.
  - destruct (span p s) as [a b]. cbn [fst snd app forallb] in *.
    rewrite E. repeat split; [f_equal; exact IH1 | exact IH2 | exact IH3].
  - cbn. auto.
Qed.

Lemma span_exact (p : N -> bool) (l r : jsstr) (c : N) :
  forallb p l = true -> p c = false -> span p (l ++ c :: r) = (l, c :: r).
Proof.
  intros Hl Hc. induction l as [|x l IH]; cbn [app span].
  - rewrite Hc. reflexivity.
  - cbn in Hl. apply andb_true_iff in Hl. destruct Hl as [Hx Hl].
    rewrite Hx, (IH Hl). reflexivity.
Qed.

Lemma dot_then_more_iff (s : jsstr) :
  dot_then_more s = true <-> exists a b, s = a ++ 46%N :: b /\ b <> [].
Proof.
  induction s as [|c s IH]; cbn [dot_then_more].
  - split; [discriminate|]. intros (a & b & H & _). destruct a; discriminate.
  - destruct s as [|d s].
    + split; [discriminate|]. intros (a & b & H & Hb).
      destruct a as [|x [|y a]]; inversion H; subst; congruence.
    + rewrite orb_true_iff, IH, N.eqb_eq. split.
      * intros [->|(a & b & H & Hb)].
        -- exists [], (d :: s). split; [reflexivity | discriminate].
        -- exists (c :: a), b. split; [cbn; congruence | exact Hb].
      * intros (a & b & H & Hb). destruct a as [|x a]; inversion H; subst.
        -- left; reflexivity.
        -- right. exists a, b. split; [assumption | exact Hb].
Qed.

Lemma email_re_shape (s : jsstr) : email_re s = true <-> email_shape s.
Proof.
  unfold email_re, email_shape. split.
  - destruct (span_app is_local s) as (Hs & Hl & _).
    destruct (span is_local s) as [l r]. cbn [fst snd] in *.
    destruct l as [|x l]; [discriminate|].
    destruct r as [|at_sign r]; [discriminate|].
    rewrite !andb_true_iff, N.eqb_eq. intros [[-> Hr] Hd].
    destruct r as [|c r]; [discriminate|].
    apply dot_then_more_iff in Hd. destruct Hd as (a & b & -> & Hb).
    exists (x :: l), (c :: a), b.
    change (c :: a ++ 46%N :: b) with ((c :: a) ++ 46%N :: b) in Hr.
    rewrite forallb_app in Hr. apply andb_true_iff in Hr.
    destruct Hr as [Ha Hb']. cbn [forallb] in Hb'.
    apply andb_true_iff in Hb'. destruct Hb' as [_ Hb'].
    repeat split; try discriminate; try assumption.
  - intros (l & a & b & -> & Hl & Ha & Hb & Fl & Fa & Fb).
    rewrite span_exact by (try assumption; reflexivity).
    destruct l as [|x l]; [congruence|].
    rewrite N.eqb_refl. cbn [andb].
    rewrite forallb_app. cbn [forallb]. rewrite Fa, Fb.
    change (is_local 46) with true. cbn [andb].
    destruct a as [|c a]; [congruence|]. cbn [app].
    apply dot_then_more_iff. exists a, b. split; [reflexivity | exact Hb].
Qed.

Lemma drop_space_visible (s : jsstr) :
  forallb (fun c => negb (is_space c)) s = true -> drop_space s = s.
Proof.
  destruct s as [|c s]; [reflexivity|]. cbn [forallb drop_space].
  intros H. apply andb_true_iff in H. destruct H as [H _].
  apply negb_true_iff in H. rewrite H. reflexivity.
Qed.

Lemma trim_visible (s : jsstr) :
  forallb (fun c => negb (is_space c)) s = true -> trim s = s.
Proof.
  intros H. unfold trim. rewrite (drop_space_visible s H).
  rewrite drop_space_visible by (rewrite forallb_rev; exact H).
  apply rev_involutive.
Qed.

Lemma local_visible (l : jsstr) :
  forallb is_local l = true -> forallb (fun c => negb (is_space c)) l = true.
Proof.
  intros H. rewrite forallb_forall in *. intros c Hc.
  specialize (H c Hc). unfold is_local in H.
  apply andb_true_iff in H. tauto.
Qed.

Lemma email_re_trim (s : jsstr) : email_re s = true -> trim s = s.
Proof.
  intros H. apply trim_visible. apply email_re_shape in H.
  destruct H as (l & a & b & -> & _ & _ & _ & Fl & Fa & Fb).
  rewrite forallb_app. cbn [forallb]. rewrite forallb_app. cbn [forallb].
  rewrite !local_visible by assumption. reflexivity.
Qed.

Lemma drop_space_snoc (l : jsstr) (c : N) :
  is_space c = false -> drop_space (l ++ [c]) = drop_space l ++ [c].
Proof.
  intros Hc. induction l as [|x l IH]; cbn [app drop_space].
  - rewrite Hc. reflexivity.
  - destruct (is_space x); [exact IH | reflexivity].
Qed.

Lemma drop_space_suffix (l : jsstr) :
  exists sp, l = sp ++ drop_space l.
Proof.
  induction l as [|x l [sp IH]]; cbn [drop_space].
  - exists []. reflexivity.
  - destruct (is_space x).
    + exists (x :: sp). cbn. congruence.
    + exists []. reflexivity.
Qed.

(** Trimming a string that starts with a visible character keeps that
    character and a prefix of the rest. *)
Lemma trim_cons (c : N) (r : jsstr) :
  is_space c = false ->
  exists r' sp, trim (c :: r) = c :: r' /\ r = r' ++ sp.
Proof.
  intros Hc. unfold trim. cbn [drop_space]. rewrite Hc. cbn [rev].
  rewrite drop_space_snoc by exact Hc. rewrite rev_app_distr. cbn [rev app].
  destruct (drop_space_suffix (rev r)) as [sp Hsp].
  exists (rev (drop_space (rev r))), (rev sp). split; [reflexivity|].
  rewrite <- rev_app_distr, <- Hsp. symmetry. apply rev_involutive.
Qed.

Lemma phone_re_trim (s : jsstr) :
  phone_re s = true -> phone_stored (trim s) = true.
Proof.
  unfold phone_re. destruct s as [|c r]; [discriminate|].
  rewrite !andb_true_iff. intros [[[Hc Hr] _] Hlen].
  assert (Hv : is_space c = false).
  { apply orb_true_iff in Hc. destruct Hc as [Hc|Hc].
    - apply N.eqb_eq in Hc. subst c. reflexivity.
    - apply digit_not_space. exact Hc. }
  destruct (trim_cons c r Hv) as (r' & sp & -> & ->).
  unfold phone_stored. rewrite Hc. rewrite forallb_app in Hr.
  apply andb_true_iff in Hr. destruct Hr as [Hr _]. rewrite Hr.
  cbn [andb]. apply Nat.leb_le. apply Nat.leb_le in Hlen.
  rewrite length_app in Hlen. lia.
Qed.
End Patterns.

(** X1. The address check is the pattern it was written as:
    [isValidEmail] accepts a string exactly when it is a local part, an at
    sign and a domain with a dot strictly inside it, where no part holds
    white space or a second at sign. *)
Theorem isValidEmail_accepts_the_pattern (rt : Runtime) (s : jsstr) :
  FileBackend.isValidEmail rt (JStr s) = true <-> email_shape s.
Proof.
  unfold FileBackend.isValidEmail. cbn [ToString].
  rewrite <- email_re_shape. destruct s as [|c s].
  - cbn. split; discriminate.
  - cbn [truthy andb]. tauto.
Qed.

(** ** What the server stores of a user *)

Section StoredUsers.
Import FileBackend.
Context (rt : Runtime).

Lemma trimmed_field (valid : JsVal -> bool) (v : JsVal) (o : option jsstr) :
  field_ok valid v = true -> trimmed_or_null v = Ret o ->
  (truthy v = false /\ o = None)
  \/ (exists s, v = JStr s /\ truthy v = true /\ valid (JStr s) = true
                /\ o = Some (trim s)).
Proof.
  unfold field_ok, trimmed_or_null. destruct (truthy v) eqn:Ht.
  - cbn [negb orb]. intros Hv Ho. right.
    apply andb_true_iff in Hv. destruct Hv as [Hs Hv].
    destruct v; try discriminate. exists s.
    cbn in Ho. inversion Ho. auto.
  - intros _ Ho. inversion Ho. left. auto.
Qed.

Lemma registered_user_well_formed (req : Request) (w : World)
    (email phone : option jsstr) :
  fields_valid rt req = true ->
  trimmed_or_null (email_of req) = Ret email ->
  trimmed_or_null (phone_of req) = Ret phone ->
  well_formed_user (registered_user rt req w email phone) = true.
Proof.
  unfold fields_valid. rewrite !andb_true_iff.
  intros [[[[[[[[_ _] Hn] _] _] _] He] Hp] Hone] Hte Htp.
  unfold well_formed_user, registered_user.
  cbn [User.name User.email User.phone User.isAdmin negb].
  rewrite Hn. cbn [andb]. rewrite andb_true_r.
  destruct (trimmed_field _ _ _ He Hte) as [[Et ->]|(s & Es & Et & Ev & ->)];
    destruct (trimmed_field _ _ _ Hp Htp) as [[Pt ->]|(p & Ps & Pt & Pv & ->)].
  - rewrite Et, Pt in Hone. discriminate.
  - cbn [andb]. apply phone_re_trim.
    unfold isValidPhone in Pv. apply andb_true_iff in Pv. apply Pv.
  - unfold isValidEmail in Ev. apply andb_true_iff in Ev.
    destruct Ev as [_ Ev]. cbn [ToString] in Ev.
    rewrite (email_re_trim s Ev), Ev. reflexivity.
  - unfold isValidEmail in Ev. apply andb_true_iff in Ev.
    destruct Ev as [_ Ev]. cbn [ToString] in Ev.
    rewrite (email_re_trim s Ev), Ev. cbn [andb]. apply phone_re_trim.
    unfold isValidPhone in Pv. apply andb_true_iff in Pv. apply Pv.
Qed.

(** A request leaves the users as they are, or it is a registration that
    passed validation and appended its record. *)
Lemma serve_users (c : Call) (w : World) :
  users (snd (serve rt c w)) = users w
  \/ exists req email phone,
       c = PostRegister req
       /\ fields_valid rt req = true
       /\ trimmed_or_null (email_of req) = Ret email
       /\ trimmed_or_null (phone_of req) = Ret phone
       /\ users (snd (serve rt c w))
          = users w ++ [registered_user rt req w email phone].
Proof.
  destruct c as [req|req|req|req|req|req|req];
    try (match goal with
         | |- users (snd (serve rt ?c w)) = _ \/ _ =>
             left; exact (serve_keeps_users rt c w)
         end).
  cbn [serve].
  destruct (register_cases rt req w)
    as (r & w' & Hr & [[_ (Hu & _)]|(email & phone & He & Hp & _ & _ & Hv & _ & ->)]);
    rewrite Hr; cbn [snd].
  - left. exact Hu.
  - right. exists req, email, phone. repeat split; assumption || reflexivity.
Qed.

Lemma serve_keeps_well_formed (c : Call) (w : World) :
  forallb well_formed_user (users w) = true ->
  forallb well_formed_user (users (snd (serve rt c w))) = true.
Proof.
  intros H.
  destruct (serve_users c w)
    as [->|(req & email & phone & _ & Hv & He & Hp & ->)]; [exact H|].
  rewrite forallb_app, H. cbn [forallb andb].
  rewrite (registered_user_well_formed req w email phone Hv He Hp).
  reflexivity.
Qed.
End StoredUsers.

(** X2. Every user the server stores is well formed, whatever the requests
    were: the name has two characters or more, there is an email or a phone,
    the email matches the address pattern, the phone starts with a plus sign
    or a digit and goes on with at most twenty digits, spaces and hyphens,
    and the user is not an administrator. *)
Theorem stored_users_stay_well_formed
    (rt : Runtime) (calls : list Call) (w : FileBackend.World) :
  forallb well_formed_user (FileBackend.users w) = true ->
  forallb well_formed_user (FileBackend.users (serve_all rt calls w)) = true.
Proof.
  unfold serve_all. revert w.
  induction calls as [|c calls IH]; intros w H; cbn [fold_left].
  - exact H.
  - apply IH. apply serve_keeps_well_formed. exact H.
Qed.

Lemma stored_users_stay_well_formed_witness :
  forallb well_formed_user
    (FileBackend.users
       (serve_all Sample.runtime
          (PostRegister Sample.register_alice :: calls_in_between)
          Sample.empty_world)) = true.
Proof.
  apply (stored_users_stay_well_formed Sample.runtime
           (PostRegister Sample.register_alice :: calls_in_between)
           Sample.empty_world).
  reflexivity.
Defined.

(** X3. Administrator rights cannot be obtained through the API: registration
    always stores [isAdmin: false] and no route changes a stored user, so
    starting from a store without administrators, [requireAdmin] turns every
    request down, with 401 or with 403, after any sequence of requests. *)
Theorem admin_access_is_never_granted
    (rt : Runtime) (calls : list Call) (w : FileBackend.World) (req : Request) :
  no_admin w = true ->
  no_admin (serve_all rt calls w) = true
  /\ exists r w',
       FileBackend.requireAdmin rt req (serve_all rt calls w)
       = (Ret (inl r), w')
       /\ (r = error_response 401 "Missing or invalid token"
           \/ r = error_response 403 "Admin access required").
Proof.
  intros H.
  assert (Hinv : no_admin (serve_all rt calls w) = true).
  { unfold serve_all. revert w H.
    induction calls as [|c calls IH]; intros w H; cbn [fold_left];
      [exact H|].
    apply IH. unfold no_admin in *.
    destruct (serve_users rt c w)
      as [->|(q & email & phone & _ & _ & _ & _ & ->)]; [exact H|].
    rewrite forallb_app, H. reflexivity. }
  split; [exact Hinv|].
  set (W := serve_all rt calls w) in *.
  unfold FileBackend.requireAdmin. monad_step.
  destruct (getUserFromAuthHeader_frame rt req W) as (o & w1 & Hg & _).
  rewrite Hg. destruct o as [u|].
  - apply getUserFromAuthHeader_some in Hg. destruct Hg as [Hin _].
    unfold no_admin in Hinv. rewrite forallb_forall in Hinv.
    rewrite (Hinv u Hin). do 2 eexists. split; [reflexivity|].
    right; reflexivity.
  - do 2 eexists. split; [reflexivity|]. left; reflexivity.
Qed.

Lemma admin_access_is_never_granted_witness :
  no_admin (serve_all Sample.runtime calls_in_between Sample.world1) = true
  /\ exists r w',
       FileBackend.requireAdmin Sample.runtime alice_request
         (serve_all Sample.runtime calls_in_between Sample.world1)
       = (Ret (inl r), w')
       /\ (r = error_response 401 "Missing or invalid token"
           \/ r = error_response 403 "Admin access required").
Proof.
  apply (admin_access_is_never_granted Sample.runtime calls_in_between
           Sample.world1 alice_request).
  reflexivity.
Defined.

(** X4. What decides a registration.  The answer is 201 only when the
    fields pass validation and no stored user has the trimmed email or the
    trimmed phone, and it is 201 whenever that is so and the two optional
    fields that are converted, the age and the aadhar number, are values
    that convert.  With a 201 the new record is appended, holding the
    trimmed identifiers and the hash of the password under the salt just
    drawn, and the answer names the new id.  Otherwise users, elections and
    the audit log stay as they are. *)
Theorem registration_is_decided_by
    (rt : Runtime) (req : Request) (w : FileBackend.World) :
  exists r w',
    FileBackend.register rt req w = (Ret r, w')
    /\ (status r = 201 ->
        fields_valid rt req = true
        /\ FileBackend.find_taken FileBackend.User.email (email_of req)
             (FileBackend.users w) = Ret None
        /\ FileBackend.find_taken FileBackend.User.phone (phone_of req)
             (FileBackend.users w) = Ret None)
    /\ (optional_fields_convert req = true ->
        fields_valid rt req = true ->
        FileBackend.find_taken FileBackend.User.email (email_of req)
          (FileBackend.users w) = Ret None ->
        FileBackend.find_taken FileBackend.User.phone (phone_of req)
          (FileBackend.users w) = Ret None ->
        status r = 201)
    /\ (status r = 201 ->
        exists u,
          FileBackend.users w' = FileBackend.users w ++ [u]
          /\ get (body r) "userId" = JStr (FileBackend.User.id u)
          /\ FileBackend.User.password_hash u
             = hashSync rt (str_of (password_of req))
                 (genSaltSync_at rt (FileBackend.tick w))
          /\ FileBackend.trimmed_or_null (email_of req)
             = Ret (FileBackend.User.email u)
          /\ FileBackend.trimmed_or_null (phone_of req)
             = Ret (FileBackend.User.phone u))
    /\ (status r <> 201 -> files_unchanged w w').
Proof.
  destruct (register_cases rt req w)
    as (r & w' & Hr & [[Hs Hf]|(email & phone & He & Hp & Hfe & Hfp & Hv & -> & ->)]).
  - exists r, w'. split; [exact Hr|]. split; [|split; [|split]].
    + intros H; contradiction.
    + intros _ Hv Hfe Hfp.
      destruct (register_valid rt req w Hv) as (oe & op & Ee & Ep & Hm).
      rewrite Hfe in Ee. rewrite Hfp in Ep.
      inversion Ee; subst oe. inversion Ep; subst op.
      destruct Hm as (r2 & w2 & H2 & Hs2). rewrite Hr in H2.
      inversion H2; subst. exact Hs2.
    + intros H; contradiction.
    + intros _. exact Hf.
  - do 2 eexists. split; [exact Hr|]. split; [|split; [|split]].
    + intros _; auto.
    + intros _ _ _ _. reflexivity.
    + intros _. eexists. split; [reflexivity|].
      split; [reflexivity|]. split; [reflexivity|].
      split; [exact He | exact Hp].
    + intros H. exfalso. apply H. reflexivity.
Qed.

(** Alice's registration is one that is accepted: her fields are valid,
    nobody is stored yet, and she sends no age and no aadhar number. *)
Example sample_registration_decided :
  optional_fields_convert Sample.register_alice = true
  /\ fields_valid Sample.runtime Sample.register_alice = true
  /\ FileBackend.find_taken FileBackend.User.email
       (email_of Sample.register_alice)
       (FileBackend.users Sample.empty_world) = Ret None
  /\ FileBackend.find_taken FileBackend.User.phone
       (phone_of Sample.register_alice)
       (FileBackend.users Sample.empty_world) = Ret None.
Proof. repeat split; vm_compute; reflexivity. Qed.

Section Runs.
Import FileBackend.
Context (rt : Runtime).

Lemma login_run (req : Request) (w : World) :
  login rt req w
  = if negb (truthy (identifier_of req)) || negb (truthy (password_of req))
    then (Ret (error_response 400 "identifier and password are required"), w)
    else match lookup_identifier (identifier_of req) (users w) with
         | None => (Ret (error_response 401 "Invalid credentials"), w)
         | Some u =>
             match compareSync rt (password_of req) (User.password_hash u) with
             | Ret true =>
                 (Ret (logged_in_response (token_for rt u (tick w))),
                  with_login rt u w)
             | Ret false => (Ret (error_response 401 "Invalid credentials"), w)
             | Throw _ =>
                 (Ret (error_response 500 "Internal server error"), w)
             end
         end.
Proof.
  unfold login, identifier_of, password_of, lookup_identifier, body_of,
    logged_in_response, token_for, token_payload, with_login.
  unfold signTokenForUser, audit, Date_now. monad_step. cbv zeta.
  set (b := js_or (req_body req) (JObj [])).
  destruct (negb (truthy (get b "identifier"))
            || negb (truthy (get b "password"))); [reflexivity|].
  destruct (find _ (users w)) as [u|]; [|reflexivity].
  destruct (compareSync rt (get b "password") (User.password_hash u))
    as [[|]|]; reflexivity.
Qed.

Lemma create_election_cases (req : Request) (w : World) :
  exists r w',
    create_election rt req w = (Ret r, w')
    /\ ((status r <> 201 /\ files_unchanged w w')
        \/ exists u,
             In u (users w)
             /\ getUserFromAuthHeader rt req w = (Ret (Some u), advance w)
             /\ required_given req = true
             /\ window_ok rt req = true
             /\ seats_ok rt req = true
             /\ readable req = true
             /\ r = election_created_response (created_election rt req w u)
             /\ w' = with_election rt (created_election rt req w u) w).
Proof.
  destruct (getUserFromAuthHeader_frame rt req w)
    as (o & w1 & Hg & Hu & He & Ha & _).
  destruct o as [u|].
  - pose proof (getUserFromAuthHeader_tick rt req w w1 u Hg) as ->.
    rewrite (create_election_run rt req w u Hg).
    destruct (required_given req);
      [|do 2 eexists; split; [reflexivity|]; left;
        split; [discriminate | repeat split; reflexivity]].
    destruct (window_ok rt req);
      [|do 2 eexists; split; [reflexivity|]; left;
        split; [discriminate | repeat split; reflexivity]].
    destruct (seats_ok rt req);
      [|do 2 eexists; split; [reflexivity|]; left;
        split; [discriminate | repeat split; reflexivity]].
    cbn [negb]. pose proof (new_candidates_run rt (candidates_of req) (bump 3 w))
      as Hrun. unfold readable in *.
    destruct (forallb (fun c => negb (nullish c)) (candidates_of req)).
    + do 2 eexists. split; [reflexivity|]. right. exists u.
      destruct (getUserFromAuthHeader_some rt req w _ u Hg) as [Hin _].
      repeat split; try reflexivity; assumption.
    + destruct Hrun as [k Hrun]. rewrite Hrun.
      do 2 eexists. split; [reflexivity|]. left.
      split; [discriminate | repeat split; reflexivity].
  - rewrite (create_election_unauth rt req w w1 Hg).
    do 2 eexists. split; [reflexivity|]. left.
    split; [discriminate | repeat split; assumption].
Qed.
End Runs.

Section RoundTrips.
Import FileBackend.
Context (rt : Runtime).

Lemma find_snoc {A} (p : A -> bool) (l : list A) (x : A) :
  find p l = None -> p x = true -> find p (l ++ [x]) = Some x.
Proof.
  intros Hn Hx. induction l as [|y l IH]; cbn [app find] in *.
  - rewrite Hx. reflexivity.
  - destruct (p y); [discriminate | exact (IH Hn)].
Qed.

Lemma find_app_none {A} (p : A -> bool) (l l' : list A) :
  find p l = None -> find p (l ++ l') = find p l'.
Proof.
  intros Hn. induction l as [|y l IH]; cbn [app find] in *; [reflexivity|].
  destruct (p y); [discriminate | exact (IH Hn)].
Qed.

Lemma find_unique_id (l : list User.t) (u : User.t) :
  NoDup (map User.id l) -> In u l -> user_by_id (User.id u) l = Some u.
Proof.
  unfold user_by_id. induction l as [|x l IH]; intros Hd Hin; [destruct Hin|].
  cbn [map] in Hd. inversion Hd as [|? ? Hx Hd']; subst. cbn [find].
  destruct Hin as [->|Hin].
  - cbn [strict_eq]. rewrite str_eqb_refl. reflexivity.
  - destruct (strict_eq (JStr (User.id x)) (JStr (User.id u))) eqn:E.
    + exfalso. apply strict_eq_str in E. inversion E as [E'].
      apply Hx. rewrite <- E'. apply in_map. exact Hin.
    + apply IH; assumption.
Qed.

Lemma find_by_id_some (l : list User.t) (u : User.t) :
  In u l ->
  exists u', user_by_id (User.id u) l = Some u' /\ In u' l
             /\ User.id u' = User.id u.
Proof.
  unfold user_by_id. intros Hin.
  destruct (find (fun x => strict_eq (JStr (User.id x)) (JStr (User.id u))) l)
    as [u'|] eqn:E.
  - exists u'. apply find_some in E. destruct E as [Hin' E].
    apply strict_eq_str in E. inversion E. auto.
  - exfalso. pose proof (find_none _ _ E u Hin) as H. cbn [strict_eq] in H.
    rewrite str_eqb_refl in H. discriminate.
Qed.

(** The guard on a well-formed header: the token is verified against the
    clock and the user is looked up by the id in the payload. *)
Lemma getUserFromAuthHeader_bearer (q : Request) (w : World) (token : jsstr)
    (data : JsVal) (id : jsstr) :
  authorization q = Some (lit "Bearer " ++ token) ->
  jwt_verify rt token (Date_now_at rt (tick w)) = Some data ->
  get data "id" = JStr id ->
  getUserFromAuthHeader rt q w = (Ret (user_by_id id (users w)), advance w).
Proof.
  intros Ha Hv Hid. unfold getUserFromAuthHeader. rewrite Ha.
  change (startsWith (lit "Bearer " ++ token) (lit "Bearer ")) with true.
  change (slice_from 7 (lit "Bearer " ++ token)) with token.
  change (truthy (JStr (lit "Bearer " ++ token))) with true.
  cbn [negb orb]. unfold Date_now. monad_step. rewrite Hv.
  assert (Hp : prop data "id" = Ret (JStr id)).
  { destruct data; try discriminate Hid; cbn [prop]; rewrite Hid; reflexivity. }
  rewrite Hp. reflexivity.
Qed.
End RoundTrips.

(** X5. Registering and then logging in.  After a successful registration, a
    login with the stored (trimmed) email or phone as the identifier and the
    registered password succeeds and returns a token signed for the new
    user, provided that the identifier was not in use before and that
    bcrypt accepts the password against the hash it made of it. *)
Theorem registered_user_can_log_in
    (rt : Runtime) (req q : Request) (w w1 : FileBackend.World)
    (r : Response) (ident : jsstr) :
  FileBackend.register rt req w = (Ret r, w1) ->
  status r = 201 ->
  FileBackend.trimmed_or_null (email_of req) = Ret (Some ident)
  \/ FileBackend.trimmed_or_null (phone_of req) = Ret (Some ident) ->
  lookup_identifier (JStr ident) (FileBackend.users w) = None ->
  compareSync rt (password_of req)
    (hashSync rt (str_of (password_of req))
       (genSaltSync_at rt (FileBackend.tick w))) = Ret true ->
  identifier_of q = JStr ident ->
  password_of q = password_of req ->
  exists u,
    FileBackend.users w1 = FileBackend.users w ++ [u]
    /\ get (body r) "userId" = JStr (FileBackend.User.id u)
    /\ FileBackend.login rt q w1
       = (Ret (logged_in_response (token_for rt u (FileBackend.tick w1))),
          with_login rt u w1).
Proof.
  intros Hreg H201 Hident Hfree Hcmp Hqi Hqp.
  destruct (register_cases rt req w) as (r' & w' & Hr & Hc).
  rewrite Hreg in Hr. inversion Hr; subst r' w'. clear Hr.
  destruct Hc as [[Hs _]|(email & phone & He & Hp & _ & _ & Hv & Er & Ew)];
    [contradiction|].
  exists (registered_user rt req w email phone).
  subst r w1. split; [reflexivity|]. split; [reflexivity|].
  rewrite login_run, Hqi, Hqp.
  pose proof Hv as Hv'. unfold fields_valid in Hv'.
  rewrite !andb_true_iff in Hv'.
  destruct Hv' as [[[[[[[[_ _] _] Hpw] _] _] Fe] Fp] _].
  assert (Hne : truthy (JStr ident) = true).
  { rewrite truthy_str. apply negb_true_iff.
    destruct Hident as [Hi|Hi].
    - destruct (trimmed_field _ _ _ Fe Hi) as [[_ E]|(s & _ & _ & Hs & E)];
        [discriminate|]. inversion E; subst.
      apply (isValidEmail_visible rt). exact Hs.
    - destruct (trimmed_field _ _ _ Fp Hi) as [[_ E]|(s & _ & _ & Hs & E)];
        [discriminate|]. inversion E; subst.
      apply (isValidPhone_visible rt). exact Hs. }
  unfold password_of. rewrite Hne, Hpw. cbn [negb orb].
  unfold lookup_identifier in *. cbn [with_user FileBackend.users].
  rewrite (find_snoc _ _ (registered_user rt req w email phone) Hfree).
  - unfold registered_user at 1. cbn [FileBackend.User.password_hash].
    unfold password_of in Hcmp. rewrite Hcmp. reflexivity.
  - cbn [registered_user FileBackend.User.email FileBackend.User.phone].
    destruct Hident as [Hi|Hi].
    + rewrite He in Hi. inversion Hi; subst email.
      cbn [FileBackend.opt_json strict_eq]. rewrite str_eqb_refl. reflexivity.
    + rewrite Hp in Hi. inversion Hi; subst phone.
      cbn [FileBackend.opt_json strict_eq]. rewrite str_eqb_refl.
      apply orb_true_r.
Qed.

Lemma registered_user_can_log_in_witness :
  exists u,
    FileBackend.users Sample.world1
    = FileBackend.users Sample.empty_world ++ [u]
    /\ get (body (registered_response
                    (registered_user Sample.runtime Sample.register_alice
                       Sample.empty_world
                       (Some (lit "alice@example.com"))
                       (Some (lit "+911234567890"))))) "userId"
       = JStr (FileBackend.User.id u)
    /\ FileBackend.login Sample.runtime alice_login Sample.world1
       = (Ret (logged_in_response
                 (token_for Sample.runtime u
                    (FileBackend.tick Sample.world1))),
          with_login Sample.runtime u Sample.world1).
Proof.
  apply (registered_user_can_log_in Sample.runtime Sample.register_alice
           alice_login Sample.empty_world Sample.world1 _
           (lit "alice@example.com")).
  - vm_compute. reflexivity.
  - reflexivity.
  - left. vm_compute. reflexivity.
  - reflexivity.
  - vm_compute. reflexivity.
  - reflexivity.
  - reflexivity.
Defined.

(** X6. Logging in and then asking who one is.  The token a successful login
    returns, sent back as a Bearer authorization header, makes GET /api/me
    answer with a stored user of the same id as the one that logged in, and
    with that very user when ids are unique, provided that verification
    accepts the token and yields the id that was signed. *)
Theorem login_token_identifies_the_user
    (rt : Runtime) (req : Request) (w w1 : FileBackend.World) (r : Response) :
  FileBackend.login rt req w = (Ret r, w1) ->
  status r = 200 ->
  exists u,
    lookup_identifier (identifier_of req) (FileBackend.users w) = Some u
    /\ r = logged_in_response (token_for rt u (FileBackend.tick w))
    /\ forall (q : Request) (data : JsVal),
         authorization q
         = Some (lit "Bearer " ++ token_for rt u (FileBackend.tick w)) ->
         jwt_verify rt (token_for rt u (FileBackend.tick w))
           (Date_now_at rt (FileBackend.tick w1)) = Some data ->
         get data "id" = JStr (FileBackend.User.id u) ->
         exists u',
           FileBackend.me rt q w1
           = (Ret {| status := 200; body := obj [("user", safe_user u')] |},
              FileBackend.advance w1)
           /\ In u' (FileBackend.users w)
           /\ FileBackend.User.id u' = FileBackend.User.id u
           /\ (NoDup (map FileBackend.User.id (FileBackend.users w)) ->
               u' = u).
Proof.
  intros Hlog H200.
  destruct (login_cases rt req w) as (r' & w' & Hr & Hc).
  rewrite Hlog in Hr. inversion Hr; subst r' w'. clear Hr.
  destruct Hc as [[Hs _]|(u & _ & _ & Hu & _ & Er & Ew)]; [contradiction|].
  exists u. split; [exact Hu|]. split; [exact Er|].
  intros q data Ha Hv Hid.
  assert (Hin : In u (FileBackend.users w)).
  { unfold lookup_identifier in Hu. apply find_some in Hu. apply Hu. }
  destruct (find_by_id_some (FileBackend.users w) u Hin)
    as (u' & Hf & Hin' & Hid').
  exists u'. split; [|split; [exact Hin'|split; [exact Hid'|]]].
  - unfold FileBackend.me. monad_step.
    rewrite (getUserFromAuthHeader_bearer rt q w1 _ data _ Ha Hv Hid).
    subst w1. cbn [with_login FileBackend.users]. rewrite Hf. reflexivity.
  - intros Hd. rewrite (find_unique_id _ u Hd Hin) in Hf.
    inversion Hf. reflexivity.
Qed.

Lemma login_token_identifies_the_user_witness :
  exists u,
    lookup_identifier (identifier_of alice_login)
      (FileBackend.users Sample.world1) = Some u
    /\ alice_login_response
       = logged_in_response
           (token_for Sample.runtime u (FileBackend.tick Sample.world1))
    /\ forall (q : Request) (data : JsVal),
         authorization q
         = Some (lit "Bearer "
                 ++ token_for Sample.runtime u
                      (FileBackend.tick Sample.world1)) ->
         jwt_verify Sample.runtime
           (token_for Sample.runtime u (FileBackend.tick Sample.world1))
           (Date_now_at Sample.runtime
              (FileBackend.tick (snd alice_logged_in))) = Some data ->
         get data "id" = JStr (FileBackend.User.id u) ->
         exists u',
           FileBackend.me Sample.runtime q (snd alice_logged_in)
           = (Ret {| status := 200; body := obj [("user", safe_user u')] |},
              FileBackend.advance (snd alice_logged_in))
           /\ In u' (FileBackend.users Sample.world1)
           /\ FileBackend.User.id u' = FileBackend.User.id u
           /\ (NoDup (map FileBackend.User.id
                        (FileBackend.users Sample.world1)) ->
               u' = u).
Proof.
  apply (login_token_identifies_the_user Sample.runtime alice_login
           Sample.world1 (snd alice_logged_in) alice_login_response).
  - vm_compute. reflexivity.
  - reflexivity.
Defined.

(** ** The files over a sequence of requests *)

Section Files.
Import FileBackend.
Context (rt : Runtime).

(** A request leaves the elections as they are, or it is an accepted
    CreateElection that appended its record. *)
Lemma serve_elections (c : Call) (w : World) :
  elections (snd (serve rt c w)) = elections w
  \/ exists req u,
       c = PostElections req
       /\ In u (users w)
       /\ required_given req = true
       /\ window_ok rt req = true
       /\ seats_ok rt req = true
       /\ users (snd (serve rt c w)) = users w
       /\ elections (snd (serve rt c w))
          = elections w ++ [created_election rt req w u].
Proof.
  destruct c as [req|req|req|req|req|req|req]; cbn [serve].
  - left. destruct (register_result rt req w) as (r & w' & Hr & He & _).
    rewrite Hr. exact He.
  - left. destruct (login_cases rt req w)
      as (r & w' & Hr & [[_ ->]|(u & _ & _ & _ & _ & _ & ->)]);
      rewrite Hr; reflexivity.
  - left. destruct (me_cases rt req w) as (r & w' & Hr & (_ & He & _) & _).
    rewrite Hr. exact He.
  - destruct (create_election_cases rt req w)
      as (r & w' & Hr & [[_ (_ & He & _)]|(u & Hin & _ & H1 & H2 & H3 & _ & _ & ->)]);
      rewrite Hr; cbn [snd].
    + left. exact He.
    + right. exists req, u. repeat split; assumption || reflexivity.
  - left. reflexivity.
  - left. unfold get_election. monad_step.
    destruct (find_election (param_id req) (elections w)); reflexivity.
  - left. unfold get_candidates. monad_step.
    destruct (find_election (param_id req) (elections w)); reflexivity.
Qed.

Lemma stored_candidates_votes (a : nat) (cs : list JsVal) :
  forallb (fun c => Candidate.votes c =? 0) (stored_candidates rt a cs) = true.
Proof.
  unfold stored_candidates. apply forallb_forall. intros k Hk.
  apply in_map_iff in Hk. destruct Hk as (ic & <- & _). reflexivity.
Qed.

Lemma created_election_well_formed (req : Request) (w : World) (u : User.t) :
  required_given req = true -> window_ok rt req = true ->
  seats_ok rt req = true ->
  well_formed_election (created_election rt req w u) = true.
Proof.
  unfold required_given, window_ok, seats_ok, well_formed_election,
    created_election.
  cbn [Election.start_ts Election.end_ts Election.totalSeats
       Election.candidates].
  rewrite stored_candidates_length, stored_candidates_votes.
  intros Hr Hw Hp.
  apply andb_true_iff in Hr. destruct Hr as [_ Hn].
  apply andb_true_iff in Hw. destruct Hw as [Hw' Hw].
  apply andb_true_iff in Hw'. destruct Hw' as [Hs He].
  apply andb_true_iff in Hp. destruct Hp as [Hi Hp].
  rewrite Hn, Hi, Hp, !andb_true_r.
  destruct (start_of rt req) as [|s]; [discriminate|].
  destruct (end_of rt req) as [|t]; [discriminate|].
  cbn [num_ge num_json] in Hw |- *. exact Hw.
Qed.

Lemma has_creator_In (l : list User.t) (e : Election.t) (u : User.t) :
  In u l -> Election.created_by e = User.id u -> has_creator l e = true.
Proof.
  intros Hin He. unfold has_creator. apply existsb_exists.
  exists u. split; [exact Hin|]. rewrite He. apply str_eqb_refl.
Qed.

Lemma has_creator_app (l l' : list User.t) (e : Election.t) :
  has_creator l e = true -> has_creator (l ++ l') e = true.
Proof.
  unfold has_creator. rewrite existsb_app. intros ->. reflexivity.
Qed.

Lemma serve_keeps_registry (c : Call) (w : World) :
  registry_ok w = true -> registry_ok (snd (serve rt c w)) = true.
Proof.
  unfold registry_ok. intros H.
  destruct (serve_extends_users rt c w) as [l Hl].
  destruct (serve_elections c w)
    as [He|(req & u & _ & Hin & H1 & H2 & H3 & Hu & He)]; rewrite He.
  - rewrite Hl. rewrite forallb_forall in *. intros e Hin.
    specialize (H e Hin). apply andb_true_iff in H. destruct H as [Hw Hc].
    rewrite Hw, (has_creator_app _ l e Hc). reflexivity.
  - rewrite Hu, forallb_app, H. cbn [forallb andb].
    rewrite (created_election_well_formed req w u H1 H2 H3).
    rewrite (has_creator_In (users w) (created_election rt req w u) u Hin
               eq_refl).
    reflexivity.
Qed.
End Files.

(** X7. The election file stays well formed, whatever the requests were:
    every stored election has a positive whole number of seats, at least one
    candidate, no votes cast, a creator who is a stored user, and a start
    that is strictly before its end wherever the file holds both as
    numbers. *)
Theorem stored_elections_stay_well_formed
    (rt : Runtime) (calls : list Call) (w : FileBackend.World) :
  registry_ok w = true -> registry_ok (serve_all rt calls w) = true.
Proof.
  unfold serve_all. revert w.
  induction calls as [|c calls IH]; intros w H; cbn [fold_left].
  - exact H.
  - apply IH. apply serve_keeps_registry. exact H.
Qed.

Lemma stored_elections_stay_well_formed_witness :
  registry_ok
    (serve_all Sample.runtime
       [PostRegister Sample.register_alice; PostElections create_acme]
       Sample.empty_world) = true
  /\ List.length
       (FileBackend.elections
          (serve_all Sample.runtime
             [PostRegister Sample.register_alice; PostElections create_acme]
             Sample.empty_world)) = 1%nat.
Proof.
  split.
  - apply (stored_elections_stay_well_formed Sample.runtime
             [PostRegister Sample.register_alice; PostElections create_acme]
             Sample.empty_world).
    reflexivity.
  - vm_compute. reflexivity.
Defined.

(** X8. The audit log follows the files.  Every request is answered; if it
    is a registration, a login or a CreateElection that succeeded, exactly
    one line is appended to the audit log, naming the user and the new
    record, and the files change as the line says; any other request
    leaves users, elections and the audit log as they are. *)
Theorem every_change_is_audited
    (rt : Runtime) (c : Call) (w : FileBackend.World) :
  exists r w',
    serve rt c w = (Ret r, w')
    /\ ((~ succeeded c r /\ files_unchanged w w')
        \/ (succeeded c r /\ audited rt w w' c)).
Proof.
  destruct c as [req|req|req|req|req|req|req]; cbn [serve succeeded].
  - destruct (register_cases rt req w)
      as (r & w' & Hr & [[Hs Hf]|(email & phone & _ & _ & _ & _ & _ & -> & ->)]).
    + exists r, w'. split; [exact Hr|]. left. split; assumption.
    + do 2 eexists. split; [exact Hr|]. right. split; [reflexivity|].
      eapply audited_register; reflexivity.
  - destruct (login_cases rt req w)
      as (r & w' & Hr & [[Hs ->]|(u & _ & _ & Hu & _ & -> & ->)]).
    + exists r, w. split; [exact Hr|]. left.
      split; [exact Hs | repeat split; reflexivity].
    + do 2 eexists. split; [exact Hr|]. right. split; [reflexivity|].
      unfold lookup_identifier in Hu. apply find_some in Hu.
      eapply audited_login; [apply Hu | reflexivity..].
  - destruct (me_cases rt req w) as (r & w' & Hr & Hf & _).
    exists r, w'. split; [exact Hr|]. left. split; [tauto | exact Hf].
  - destruct (create_election_cases rt req w)
      as (r & w' & Hr & [[Hs Hf]|(u & Hin & _ & _ & _ & _ & _ & -> & ->)]).
    + exists r, w'. split; [exact Hr|]. left. split; assumption.
    + do 2 eexists. split; [exact Hr|]. right. split; [reflexivity|].
      eapply audited_election; [exact Hin | reflexivity..].
  - do 2 eexists. split; [reflexivity|]. left.
    split; [tauto | repeat split; reflexivity].
  - unfold FileBackend.get_election. monad_step.
    destruct (FileBackend.find_election _ _); do 2 eexists;
      (split; [reflexivity|]); left;
      (split; [tauto | repeat split; reflexivity]).
  - unfold FileBackend.get_candidates. monad_step.
    destruct (FileBackend.find_election _ _); do 2 eexists;
      (split; [reflexivity|]); left;
      (split; [tauto | repeat split; reflexivity]).
Qed.

(** ** Reading a created election *)

Section Listed.
Import FileBackend.
Context (rt : Runtime).

Lemma roster_of_stored (a : nat) (cs : list JsVal) :
  map shown_in (map roster_json (stored_candidates rt a cs))
  = map (shown rt) cs
  /\ Forall (fun j => keys j = roster_keys)
            (map roster_json (stored_candidates rt a cs)).
Proof.
  unfold stored_candidates. revert a.
  induction cs as [|c cs IH]; intros a; cbn [List.length seq combine map].
  - split; [reflexivity | constructor].
  - destruct (IH (S a)) as [IH1 IH2]. split.
    + rewrite IH1. f_equal. unfold shown_in, shown, roster_json, candidate_of.
      cbn [Candidate.name Candidate.description Candidate.party
           Candidate.manifesto snd].
      assert (Hor : forall x, js_or (js_or x (JStr [])) (JStr [])
                              = js_or x (JStr [])).
      { intros x. unfold js_or. destruct (truthy x) eqn:E; [rewrite E|];
          reflexivity. }
      cbn. rewrite !Hor. reflexivity.
    + constructor; [reflexivity | exact IH2].
Qed.
End Listed.

(** X9. A created election can be found by the other two read routes.  After
    a successful CreateElection the list of summaries is the one before
    followed by the summary of the new election; and, when no earlier
    election has the new id, the candidate list of the new id shows one
    entry per submitted candidate, in order, with the trimmed name and the
    description, party and manifesto (an empty string where none was
    given), each entry having an id but no vote count. *)
Theorem created_election_is_listed
    (rt : Runtime) (req : Request) (w w' : FileBackend.World) (r : Response) :
  FileBackend.create_election rt req w = (Ret r, w') ->
  status r = 201 ->
  exists e : FileBackend.Election.t,
    r = election_created_response e
    /\ (forall q : Request,
          FileBackend.list_elections q w'
          = (Ret {| status := 200;
                    body := obj [("elections",
                      JArr (map FileBackend.summary_json
                              (FileBackend.elections w)
                            ++ [FileBackend.summary_json e]))] |}, w'))
    /\ exists roster : list JsVal,
         ((forall x, In x (FileBackend.elections w) ->
                     FileBackend.Election.id x <> FileBackend.Election.id e) ->
          forall q : Request,
            param_id q = FileBackend.Election.id e ->
            FileBackend.get_candidates q w'
            = (Ret {| status := 200;
                      body := obj [("electionId",
                                    JStr (FileBackend.Election.id e));
                                   ("candidates", JArr roster)] |}, w'))
         /\ map shown_in roster = map (shown rt) (candidates_of req)
         /\ Forall (fun j => keys j = roster_keys) roster.
Proof.
  intros Hc H201.
  destruct (create_election_cases rt req w) as (r' & w2 & Hr & Hcase).
  rewrite Hc in Hr. inversion Hr; subst r' w2. clear Hr.
  destruct Hcase as [[Hs _]|(u & _ & _ & _ & _ & _ & _ & -> & ->)];
    [contradiction|].
  set (e := created_election rt req w u).
  exists e. split; [reflexivity|]. split.
  - intros q. unfold FileBackend.list_elections. monad_step.
    cbn [with_election FileBackend.elections]. rewrite map_app. reflexivity.
  - exists (map FileBackend.roster_json (FileBackend.Election.candidates e)).
    split; [|apply roster_of_stored].
    intros Hfresh q Hq. unfold FileBackend.get_candidates. monad_step.
    cbn [with_election FileBackend.elections]. rewrite Hq.
    rewrite (find_election_app_new _ e Hfresh). reflexivity.
Qed.

Lemma created_election_is_listed_witness :
  exists e : FileBackend.Election.t,
    acme_response = election_created_response e
    /\ (forall q : Request,
          FileBackend.list_elections q world2
          = (Ret {| status := 200;
                    body := obj [("elections",
                      JArr (map FileBackend.summary_json
                              (FileBackend.elections Sample.world1)
                            ++ [FileBackend.summary_json e]))] |}, world2))
    /\ exists roster : list JsVal,
         ((forall x, In x (FileBackend.elections Sample.world1) ->
                     FileBackend.Election.id x <> FileBackend.Election.id e) ->
          forall q : Request,
            param_id q = FileBackend.Election.id e ->
            FileBackend.get_candidates q world2
            = (Ret {| status := 200;
                      body := obj [("electionId",
                                    JStr (FileBackend.Election.id e));
                                   ("candidates", JArr roster)] |}, world2))
         /\ map shown_in roster
            = map (shown Sample.runtime) (candidates_of create_acme)
         /\ Forall (fun j => keys j = roster_keys) roster.
Proof.
  apply (created_election_is_listed Sample.runtime create_acme Sample.world1
           world2 acme_response).
  - vm_compute. reflexivity.
  - reflexivity.
Defined.

(** X10. What decides a CreateElection of an identified caller on the
    file-backed server, for a request whose converted fields convert (the
    instants, the seats, the company name, the description and the names of
    the candidates).  The answer is 400 exactly when one of the three checks
    fails (required fields, window, seats); 500 exactly when the checks pass
    and some entry of the candidate list is [null]; and 201 otherwise, the
    election being appended and returned.  Unless the answer is 201, users,
    elections and the audit log stay as they are. *)
Theorem create_election_is_decided_by
    (rt : Runtime) (req : Request) (w w1 : FileBackend.World)
    (u : FileBackend.User.t) :
  FileBackend.getUserFromAuthHeader rt req w = (Ret (Some u), w1) ->
  create_converts req = true ->
  exists r w',
    FileBackend.create_election rt req w = (Ret r, w')
    /\ (status r = 400 <->
        required_given req && window_ok rt req && seats_ok rt req = false)
    /\ (status r = 500 <->
        required_given req && window_ok rt req && seats_ok rt req = true
        /\ readable req = false)
    /\ (status r = 201 <->
        required_given req && window_ok rt req && seats_ok rt req = true
        /\ readable req = true)
    /\ (status r <> 201 -> files_unchanged w w')
    /\ (status r = 201 ->
        r = election_created_response (created_election rt req w u)
        /\ FileBackend.elections w'
           = FileBackend.elections w ++ [created_election rt req w u]).
Proof.
  intros Hg _.
  pose proof (getUserFromAuthHeader_tick rt req w w1 u Hg) as ->.
  rewrite (create_election_run rt req w u Hg).
  pose proof (new_candidates_run rt (candidates_of req) (bump 3 w)) as Hrun.
  unfold readable in *.
  destruct (required_given req); cbn [negb andb];
    [|do 2 eexists; split; [reflexivity|]; cbn [status error_response];
      repeat split; intros; try reflexivity; try discriminate;
      try tauto; destruct H; discriminate].
  destruct (window_ok rt req); cbn [negb andb];
    [|do 2 eexists; split; [reflexivity|]; cbn [status error_response];
      repeat split; intros; try reflexivity; try discriminate;
      try tauto; destruct H; discriminate].
  destruct (seats_ok rt req); cbn [negb andb];
    [|do 2 eexists; split; [reflexivity|]; cbn [status error_response];
      repeat split; intros; try reflexivity; try discriminate;
      try tauto; destruct H; discriminate].
  destruct (forallb (fun c => negb (nullish c)) (candidates_of req)).
  - do 2 eexists. split; [reflexivity|].
    cbn [status election_created_response].
    repeat split; intros; try reflexivity; try discriminate;
      try tauto; try (destruct H; discriminate).
  - destruct Hrun as [k Hrun]. rewrite Hrun. cbn [snd].
    do 2 eexists. split; [reflexivity|]. cbn [status error_response].
    repeat split; intros; try reflexivity; try discriminate;
      try tauto; try (destruct H; discriminate).
Qed.

Lemma create_election_is_decided_by_witness :
  exists r w',
    FileBackend.create_election Sample.runtime null_candidate_request
      Sample.world1 = (Ret r, w')
    /\ (status r = 400 <->
        required_given null_candidate_request
        && window_ok Sample.runtime null_candidate_request
        && seats_ok Sample.runtime null_candidate_request = false)
    /\ (status r = 500 <->
        required_given null_candidate_request
        && window_ok Sample.runtime null_candidate_request
        && seats_ok Sample.runtime null_candidate_request = true
        /\ readable null_candidate_request = false)
    /\ (status r = 201 <->
        required_given null_candidate_request
        && window_ok Sample.runtime null_candidate_request
        && seats_ok Sample.runtime null_candidate_request = true
        /\ readable null_candidate_request = true)
    /\ (status r <> 201 -> files_unchanged Sample.world1 w')
    /\ (status r = 201 ->
        r = election_created_response
              (created_election Sample.runtime null_candidate_request
                 Sample.world1
                 (registered_user Sample.runtime Sample.register_alice
                    Sample.empty_world (Some (lit "alice@example.com"))
                    (Some (lit "+911234567890"))))
        /\ FileBackend.elections w'
           = FileBackend.elections Sample.world1
             ++ [created_election Sample.runtime null_candidate_request
                   Sample.world1
                   (registered_user Sample.runtime Sample.register_alice
                      Sample.empty_world (Some (lit "alice@example.com"))
                      (Some (lit "+911234567890")))]).
Proof.
  apply (create_election_is_decided_by Sample.runtime null_candidate_request
           Sample.world1 (FileBackend.advance Sample.world1)).
  - vm_compute. reflexivity.
  - reflexivity.
Defined.

Section Identifiers.
Import FileBackend.
Context (rt : Runtime).

Lemma register_non_string_email (req : Request) (w : World) :
  name_and_password_ok req = true ->
  given_not_string (email_of req) = true ->
  register rt req w = (Ret (error_response 500 "Internal server error"), w).
Proof.
  unfold name_and_password_ok, given_not_string, email_of, body_of, register.
  monad_step. cbv zeta.
  set (b := js_or (req_body req) (JObj [])).
  rewrite !andb_true_iff. intros [[[[[H1 H2] H3] H4] H5] H6] [He1 He2].
  rewrite H1, H2, H4, H5. cbn [negb orb].
  apply Nat.leb_le in H3, H6.
  destruct (Nat.ltb_spec (List.length (trim (str_of (get b "name")))) 2);
    [lia|].
  destruct (Nat.ltb_spec (List.length (str_of (get b "password"))) 6);
    [lia|].
  unfold blank. rewrite He1. cbn [negb].
  destruct (get b "email"); try discriminate; reflexivity.
Qed.
End Identifiers.

(** X11. An email or a phone that is given but is not a string is never
    stored.  The handler checks the type of the name and of the password
    only, and calls [trim] on the other two: the registration is turned
    down and nothing is stored, and when the name and the password are
    acceptable a non-string email is answered 500, not 400. *)
Theorem non_string_identifier_is_never_stored
    (rt : Runtime) (req : Request) (w : FileBackend.World) :
  given_not_string (email_of req) || given_not_string (phone_of req) = true ->
  exists r w',
    FileBackend.register rt req w = (Ret r, w')
    /\ status r <> 201
    /\ files_unchanged w w'
    /\ (name_and_password_ok req = true ->
        given_not_string (email_of req) = true ->
        r = error_response 500 "Internal server error" /\ w' = w).
Proof.
  intros H.
  destruct (register_cases rt req w)
    as (r & w' & Hr & [[Hs Hf]|(email & phone & He & Hp & _)]).
  - exists r, w'. split; [exact Hr|]. split; [exact Hs|].
    split; [exact Hf|]. intros Hn Hg.
    rewrite (register_non_string_email rt req w Hn Hg) in Hr.
    inversion Hr. split; reflexivity.
  - exfalso. unfold given_not_string, FileBackend.trimmed_or_null in *.
    apply orb_true_iff in H. destruct H as [H|H];
      apply andb_true_iff in H; destruct H as [Ht Hs].
    + rewrite Ht in He. destruct (email_of req); discriminate.
    + rewrite Ht in Hp. destruct (phone_of req); discriminate.
Qed.

Lemma non_string_identifier_is_never_stored_witness :
  exists r w',
    FileBackend.register Sample.runtime register_numeric_email Sample.world1
    = (Ret r, w')
    /\ status r <> 201
    /\ files_unchanged Sample.world1 w'
    /\ (name_and_password_ok register_numeric_email = true ->
        given_not_string (email_of register_numeric_email) = true ->
        r = error_response 500 "Internal server error" /\ w' = Sample.world1).
Proof.
  apply (non_string_identifier_is_never_stored Sample.runtime
           register_numeric_email Sample.world1).
  reflexivity.
Defined.

Section Untrimmed.
Import FileBackend.

Lemma phone_re_no_at (p : jsstr) : phone_re p = true -> ~ In 64%N p.
Proof.
  unfold phone_re. destruct p as [|c r]; [discriminate|].
  rewrite !andb_true_iff. intros [[[Hc Hr] _] _] [->|Hin].
  - cbn in Hc. discriminate.
  - rewrite forallb_forall in Hr. specialize (Hr _ Hin). cbn in Hr.
    discriminate.
Qed.

Lemma email_re_at (s : jsstr) : email_re s = true -> In 64%N s.
Proof.
  intros H. apply email_re_shape in H.
  destruct H as (l & a & b & -> & _). apply in_or_app. right. left.
  reflexivity.
Qed.
End Untrimmed.

(** X12. Registration trims the phone, login does not.  When a registration
    succeeds with a phone that has white space at its end, the phone is
    stored trimmed, and a login that gives the phone as it was typed finds
    no user and is answered 401, whatever the password, unless some other
    user holds that very text. *)
Theorem untrimmed_phone_cannot_log_in
    (rt : Runtime) (req q : Request) (w w1 : FileBackend.World)
    (r : Response) (p : jsstr) :
  FileBackend.register rt req w = (Ret r, w1) ->
  status r = 201 ->
  phone_of req = JStr p ->
  trim p <> p ->
  lookup_identifier (JStr p) (FileBackend.users w) = None ->
  identifier_of q = JStr p ->
  truthy (password_of q) = true ->
  (exists u, FileBackend.users w1 = FileBackend.users w ++ [u]
             /\ FileBackend.User.phone u = Some (trim p))
  /\ FileBackend.login rt q w1
     = (Ret (error_response 401 "Invalid credentials"), w1).
Proof.
  intros Hreg H201 Hphone Htrim Hfree Hqi Hqp.
  destruct (register_cases rt req w) as (r' & w' & Hr & Hc).
  rewrite Hreg in Hr. inversion Hr; subst r' w'. clear Hr.
  destruct Hc as [[Hs _]|(email & phone & He & Hp & _ & _ & Hv & Er & Ew)];
    [contradiction|].
  pose proof Hv as Hv'. unfold fields_valid in Hv'.
  rewrite !andb_true_iff in Hv'.
  destruct Hv' as [[[[[[[[_ _] _] _] _] _] Fe] Fp] _].
  assert (Hpv : FileBackend.phone_re p = true /\ phone = Some (trim p)).
  { destruct (trimmed_field _ _ _ Fp Hp) as [[Ht _]|(s & Es & _ & Hs & E)].
    - rewrite Hphone in Ht. destruct p; [|discriminate].
      exfalso. apply Htrim. reflexivity.
    - rewrite Hphone in Es. inversion Es; subst s.
      unfold FileBackend.isValidPhone in Hs. apply andb_true_iff in Hs.
      split; [apply Hs | exact E]. }
  destruct Hpv as [Hpre Ephone]. subst phone.
  split.
  - exists (registered_user rt req w email (Some (trim p))).
    subst w1. split; reflexivity.
  - rewrite login_run, Hqi, Hqp.
    assert (Hne : truthy (JStr p) = true).
    { destruct p; [discriminate Hpre | reflexivity]. }
    rewrite Hne. cbn [negb orb]. subst w1.
    unfold lookup_identifier in *. cbn [with_user FileBackend.users].
    rewrite (find_app_none _ _ _ Hfree). cbn [find].
    cbn [registered_user FileBackend.User.email FileBackend.User.phone
         FileBackend.opt_json].
    assert (Hp2 : strict_eq (JStr (trim p)) (JStr p) = false).
    { cbn [strict_eq]. apply str_eqb_neq. exact Htrim. }
    rewrite Hp2, orb_false_r.
    assert (He2 : strict_eq (FileBackend.opt_json email) (JStr p) = false).
    { destruct (trimmed_field _ _ _ Fe He) as [[_ ->]|(s & _ & _ & Hs & ->)];
        [reflexivity|].
      cbn [FileBackend.opt_json strict_eq]. apply str_eqb_neq.
      unfold FileBackend.isValidEmail in Hs. apply andb_true_iff in Hs.
      destruct Hs as [_ Hs]. cbn [ToString] in Hs.
      rewrite (email_re_trim s Hs). intros ->.
      exact (phone_re_no_at p Hpre (email_re_at p Hs)). }
    rewrite He2. reflexivity.
Qed.

Lemma untrimmed_phone_cannot_log_in_witness :
  (exists u,
      FileBackend.users
        (snd (FileBackend.register Sample.runtime register_bob Sample.world1))
      = FileBackend.users Sample.world1 ++ [u]
      /\ FileBackend.User.phone u = Some (trim (lit "+44 20 7946 0958 ")))
  /\ FileBackend.login Sample.runtime bob_login
       (snd (FileBackend.register Sample.runtime register_bob Sample.world1))
     = (Ret (error_response 401 "Invalid credentials"),
        snd (FileBackend.register Sample.runtime register_bob Sample.world1)).
Proof.
  apply (untrimmed_phone_cannot_log_in Sample.runtime register_bob bob_login
           Sample.world1 _
           (registered_response
              (registered_user Sample.runtime register_bob Sample.world1
                 None (Some (lit "+44 20 7946 0958"))))
           (lit "+44 20 7946 0958 ")).
  - vm_compute. reflexivity.
  - reflexivity.
  - reflexivity.
  - vm_compute. discriminate.
  - reflexivity.
  - reflexivity.
  - reflexivity.
Defined.

Section BrokenLoop.
Import ShortIdRouter.

Lemma add_no_candidates (st : Store) : add_candidates [] st = st.
Proof. destruct st. unfold add_candidates. cbn. rewrite app_nil_r. reflexivity. Qed.

Lemma add_candidates_twice (a b : list CandidateRow.t) (st : Store) :
  add_candidates b (add_candidates a st) = add_candidates (a ++ b) st.
Proof. unfold add_candidates. cbn. rewrite app_assoc. reflexivity. Qed.

Lemma save_candidates_unreadable (id : jsstr) (bad : JsVal)
    (post : list JsVal) (st : Store) :
  plain bad = false ->
  save_candidates id (bad :: post) st = (Throw "TypeError", st).
Proof.
  intros H. cbn [save_candidates]. monad_step.
  destruct bad as [| |b|q|s|l|fields]; try reflexivity;
    try (cbn in H; discriminate H).
  unfold plain in H. apply orb_false_iff in H. destruct H as [Ht Hs].
  apply negb_false_iff in Ht. cbn [prop]. unfold js_or. rewrite Ht.
  destruct (get (JObj fields) "name"); try discriminate; reflexivity.
Qed.

Lemma next_rowid_add (c : CandidateRow.t) (st : Store) :
  next_rowid (add_candidates [c] st) = next_rowid st + 1.
Proof.
  unfold next_rowid, add_candidates. cbn [candidate_rows].
  rewrite length_app. cbn [List.length]. lia.
Qed.

Lemma save_candidates_broken (id : jsstr) (pre post : list JsVal)
    (bad : JsVal) (st : Store) :
  forallb plain pre = true -> plain bad = false ->
  save_candidates id (pre ++ bad :: post) st
  = (Throw "TypeError", add_candidates (rows_for id (next_rowid st) pre) st).
Proof.
  intros Hpre Hbad. revert st.
  induction pre as [|c pre IH]; intros st.
  - cbn [app rows_for]. rewrite add_no_candidates.
    apply save_candidates_unreadable. exact Hbad.
  - cbn [forallb] in Hpre. apply andb_true_iff in Hpre.
    destruct Hpre as [Hc Hpre]. cbn [app rows_for].
    rewrite (save_candidates_step id c _ st Hc).
    destruct (nameless c).
    + apply IH. exact Hpre.
    + rewrite (IH Hpre). rewrite next_rowid_add, add_candidates_twice.
      reflexivity.
Qed.

Lemma first_unreadable (cs : list JsVal) :
  forallb plain cs = false ->
  exists pre bad post,
    cs = pre ++ bad :: post /\ forallb plain pre = true /\ plain bad = false.
Proof.
  induction cs as [|c cs IH]; cbn [forallb]; [discriminate|].
  destruct (plain c) eqn:Hc; cbn [andb].
  - intros H. destruct (IH H) as (pre & bad & post & -> & Hp & Hb).
    exists (c :: pre), bad, post. cbn [forallb]. rewrite Hc. auto.
  - intros _. exists [], c, cs. auto.
Qed.
End BrokenLoop.

(** ** The router's answers *)

Section RouterAnswers.
Import ShortIdRouter.
Context (rt : Runtime).

Lemma router_checks_fail (req : Request) (st : Store) :
  router_checks_pass rt req = false ->
  exists msg, create_election rt req st = (Ret (error_response 400 msg), st).
Proof.
  unfold router_checks_pass, router_start, router_end, create_election,
    body_of.
  monad_step. cbv zeta. set (b := js_or (req_body req) (JObj [])).
  destruct (truthy (get b "title")); [|eexists; reflexivity].
  destruct (truthy (get b "start")); [|eexists; reflexivity].
  destruct (truthy (get b "end")); [|eexists; reflexivity].
  cbn [negb orb andb].
  destruct (num_ge _ _); [eexists; reflexivity | discriminate].
Qed.

(** The loop of a request, run: every candidate is saved, or the first
    unreadable one stops it with the candidates before it saved. *)
Lemma candidate_loop_run (req : Request) (id : jsstr) (st : Store) :
  if loop_runs req
  then exists saved rows,
         candidate_loop req id st = (Ret saved, add_candidates rows st)
         /\ (isArray (or_default (get (body_of req) "candidates") (JArr []))
             = false -> saved = [] /\ rows = [])
  else exists pre bad post,
         elements (or_default (get (body_of req) "candidates") (JArr []))
         = pre ++ bad :: post
         /\ forallb plain pre = true /\ plain bad = false
         /\ candidate_loop req id st
            = (Throw "TypeError",
               add_candidates (rows_for id (next_rowid st) pre) st).
Proof.
  unfold loop_runs, candidate_loop.
  destruct (isArray (or_default (get (body_of req) "candidates") (JArr [])));
    cbn [negb orb].
  - destruct (forallb plain _) eqn:Hp.
    + rewrite (save_candidates_plain _ _ _ Hp). do 2 eexists.
      split; [reflexivity | discriminate].
    + destruct (first_unreadable _ Hp) as (pre & bad & post & E & H1 & H2).
      exists pre, bad, post. rewrite E.
      repeat split; try assumption.
      apply save_candidates_broken; assumption.
  - exists [], []. rewrite add_no_candidates.
    split; [reflexivity | auto].
Qed.
End RouterAnswers.

(** X13. What decides the router's answer to a CreateElection.  It is 400
    exactly when title, start or end is missing or the start is not before
    the end, and then the store is untouched; it is 201 exactly when the
    checks pass, one of the seven ids is free, both dates are valid and the
    candidate loop can read every entry; in every other case it is 500.
    Candidates that are not an array are not an error: the loop is skipped
    and the election is created without candidates. *)
Theorem router_answer_is_decided_by
    (rt : Runtime) (req : Request) (st : ShortIdRouter.Store) :
  exists r st',
    ShortIdRouter.create_election rt req st = (Ret r, st')
    /\ (status r = 400 <-> router_checks_pass rt req = false)
    /\ (status r = 201 <->
        router_checks_pass rt req = true /\ all_taken rt st = false
        /\ dates_ok rt req = true /\ loop_runs req = true)
    /\ (status r = 400 \/ status r = 500 \/ status r = 201)
    /\ (status r = 400 -> st' = st)
    /\ (status r = 201 ->
        isArray (or_default (get (body_of req) "candidates") (JArr []))
        = false ->
        get (get (body r) "election") "candidates" = JArr []
        /\ ShortIdRouter.candidate_rows st' = ShortIdRouter.candidate_rows st).
Proof.
  destruct (router_checks_pass rt req) eqn:Hpass.
  - destruct (router_create_steps rt req st Hpass) as (j & _ & _ & _ & Hc).
    rewrite Hc. unfold dates_ok.
    destruct (all_taken rt st).
    { do 2 eexists. split; [reflexivity|]. cbn [status error_response].
      repeat split; intros; try discriminate; try tauto;
        try (destruct H as (_ & H & _); discriminate). }
    destruct (router_start rt req) as [s|]; cbn [toISOString];
      [|do 2 eexists; split; [reflexivity|]; cbn [status error_response];
        repeat split; intros; try discriminate; try tauto;
        destruct H as (_ & _ & H & _); discriminate].
    destruct (router_end rt req) as [e|]; cbn [toISOString];
      [|do 2 eexists; split; [reflexivity|]; cbn [status error_response];
        repeat split; intros; try discriminate; try tauto;
        destruct H as (_ & _ & H & _); discriminate].
    cbv zeta.
    match goal with
    | |- context [candidate_loop req ?id ?s0] =>
        pose proof (candidate_loop_run req id s0) as Hloop
    end.
    destruct (loop_runs req).
    + destruct Hloop as (saved & rows & Hl & Hna). rewrite Hl.
      do 2 eexists. split; [reflexivity|]. cbn [status created_response].
      repeat split; intros; try discriminate; try tauto.
      * destruct (Hna H0) as [-> _]. reflexivity.
      * destruct (Hna H0) as [_ ->]. cbn. apply app_nil_r.
    + destruct Hloop as (pre & bad & post & _ & _ & _ & Hl). rewrite Hl.
      do 2 eexists. split; [reflexivity|]. cbn [status error_response].
      repeat split; intros; try discriminate; try tauto;
        destruct H as (_ & _ & _ & H); discriminate.
  - destruct (router_checks_fail rt req st Hpass) as [msg Hc].
    rewrite Hc. do 2 eexists. split; [reflexivity|].
    cbn [status error_response].
    repeat split; intros; try discriminate; try tauto;
      destruct H as (H & _); discriminate.
Qed.

(** X14. Creating an election through the router is not atomic.  When the
    checks pass, an id is free and the dates are valid, but an entry of the
    candidate list cannot be read ([null], or a name that is given and is
    not a string), the answer is 500 and yet the election row stays
    inserted, together with the candidates that came before the unreadable
    entry: nothing is rolled back. *)
Theorem router_create_is_not_atomic
    (rt : Runtime) (req : Request) (st : ShortIdRouter.Store)
    (pre post : list JsVal) (bad : JsVal) (s e : Z) :
  router_checks_pass rt req = true ->
  all_taken rt st = false ->
  router_start rt req = Some s ->
  router_end rt req = Some e ->
  get (body_of req) "candidates" = JArr (pre ++ bad :: post) ->
  forallb plain pre = true ->
  plain bad = false ->
  exists (row : ShortIdRouter.ElectionRow.t) (st' : ShortIdRouter.Store),
    ShortIdRouter.create_election rt req st
    = (Ret (error_response 500 "Internal server error"), st')
    /\ ShortIdRouter.electionExists (ShortIdRouter.ElectionRow.id row) st
       = false
    /\ ShortIdRouter.election_rows st' = ShortIdRouter.election_rows st ++ [row]
    /\ ShortIdRouter.candidate_rows st'
       = ShortIdRouter.candidate_rows st
         ++ rows_for (ShortIdRouter.ElectionRow.id row) (next_rowid st) pre
    /\ ShortIdRouter.electionExists (ShortIdRouter.ElectionRow.id row) st'
       = true.
Proof.
  intros Hpass Hfree Hs He Hcs Hpre Hbad.
  destruct (router_create_steps rt req st Hpass) as (j & _ & _ & Ht & Hc).
  rewrite Hfree, Hs, He in Hc. cbn [toISOString] in Hc. cbv zeta in Hc.
  unfold candidate_loop in Hc. rewrite Hcs in Hc.
  cbn [or_default isArray elements] in Hc.
  rewrite (save_candidates_broken _ pre post bad _ Hpre Hbad) in Hc.
  exists (row_of rt req (short_id_at rt (ShortIdRouter.tick st + j))
            (Date_toISOString rt s) (Date_toISOString rt e)
            (Date_now_at rt (S (ShortIdRouter.tick st + j)))).
  eexists. split; [exact Hc|].
  cbn [row_of ShortIdRouter.ElectionRow.id add_candidates with_row
       ShortIdRouter.election_rows ShortIdRouter.candidate_rows].
  split; [rewrite Ht in Hfree; exact Hfree|].
  split; [reflexivity|]. split; [reflexivity|].
  unfold ShortIdRouter.electionExists, add_candidates, with_row.
  cbn [ShortIdRouter.election_rows]. rewrite existsb_app.
  cbn [existsb ShortIdRouter.ElectionRow.id]. rewrite str_eqb_refl.
  cbn [orb]. apply orb_true_r.
Qed.

Lemma router_create_is_not_atomic_witness :
  exists (row : ShortIdRouter.ElectionRow.t) (st' : ShortIdRouter.Store),
    ShortIdRouter.create_election Sample.runtime broken_request
      Sample.empty_store
    = (Ret (error_response 500 "Internal server error"), st')
    /\ ShortIdRouter.electionExists (ShortIdRouter.ElectionRow.id row)
         Sample.empty_store = false
    /\ ShortIdRouter.election_rows st'
       = ShortIdRouter.election_rows Sample.empty_store ++ [row]
    /\ ShortIdRouter.candidate_rows st'
       = ShortIdRouter.candidate_rows Sample.empty_store
         ++ rows_for (ShortIdRouter.ElectionRow.id row)
              (next_rowid Sample.empty_store) [obj [("name", JLit "Asha")]]
    /\ ShortIdRouter.electionExists (ShortIdRouter.ElectionRow.id row) st'
       = true.
Proof.
  apply (router_create_is_not_atomic Sample.runtime broken_request
           Sample.empty_store [obj [("name", JLit "Asha")]]
           [obj [("name", JLit "Bo")]] JNull Sample.time1 Sample.time2);
    reflexivity.
Defined.

(** X15. The router takes the caller's word for who they are.  A Bearer token
    that verification rejects, but whose payload decodes to an object with
    an email, is turned down with 401 by the file-backed server and is
    honoured by the router, which creates the election and records the
    decoded email as its creator. *)
Theorem router_trusts_an_unverified_token
    (rt : Runtime) (req : Request) (w : FileBackend.World)
    (st : ShortIdRouter.Store) (cs : list JsVal) (s e : Z) (token : jsstr) :
  authorization req = Some (lit "Bearer " ++ token) ->
  (forall now, jwt_verify rt token now = None) ->
  truthy (get (jwt_decode rt token) "email") = true ->
  router_checks_pass rt req = true ->
  all_taken rt st = false ->
  router_start rt req = Some s ->
  router_end rt req = Some e ->
  get (body_of req) "candidates" = JArr cs ->
  forallb plain cs = true ->
  (exists w',
      FileBackend.create_election rt req w
      = (Ret (error_response 401 "Missing or invalid token"), w')
      /\ FileBackend.elections w' = FileBackend.elections w)
  /\ exists (row : ShortIdRouter.ElectionRow.t) (saved : list JsVal)
            (st' : ShortIdRouter.Store),
       ShortIdRouter.create_election rt req st
       = (Ret (created_response req row saved), st')
       /\ ShortIdRouter.election_rows st'
          = ShortIdRouter.election_rows st ++ [row]
       /\ ShortIdRouter.ElectionRow.created_by row
          = get (jwt_decode rt token) "email".
Proof.
  intros Ha Hv Hemail Hpass Hfree Hs He Hcs Hplain. split.
  - assert (Hun : unauthenticated rt w req).
    { eapply token_rejected; [exact Ha|].
      change (slice_from 7 (lit "Bearer " ++ token)) with token. apply Hv. }
    destruct (getUserFromAuthHeader_none rt req w Hun) as [w' Hg].
    exists w'. split; [apply create_election_unauth; exact Hg|].
    destruct (getUserFromAuthHeader_frame rt req w)
      as (o & w2 & H2 & _ & Hel & _).
    rewrite Hg in H2. inversion H2; subst. exact Hel.
  - destruct (router_served rt req st cs s e Hpass Hfree Hs He Hcs Hplain)
      as (j & _ & Hc).
    do 3 eexists. split; [exact Hc|]. split; [reflexivity|].
    cbn [row_of ShortIdRouter.ElectionRow.created_by].
    unfold creator_of, ShortIdRouter.getUserFromAuthHeader. rewrite Ha.
    change (startsWith (lit "Bearer " ++ token) (lit "Bearer ")) with true.
    change (slice_from 7 (lit "Bearer " ++ token)) with token.
    change (truthy (JStr (lit "Bearer " ++ token))) with true.
    cbn [negb orb].
    assert (Hobj : truthy (jwt_decode rt token) = true).
    { destruct (jwt_decode rt token); try discriminate Hemail; reflexivity. }
    assert (Hd : js_or (jwt_decode rt token) JNull = jwt_decode rt token)
      by (unfold js_or; rewrite Hobj; reflexivity).
    rewrite !Hd, Hobj. unfold js_or at 1. rewrite Hemail. reflexivity.
Qed.

Lemma router_trusts_an_unverified_token_witness :
  (exists w',
      FileBackend.create_election forging_runtime forged_request Sample.world1
      = (Ret (error_response 401 "Missing or invalid token"), w')
      /\ FileBackend.elections w' = FileBackend.elections Sample.world1)
  /\ exists (row : ShortIdRouter.ElectionRow.t) (saved : list JsVal)
            (st' : ShortIdRouter.Store),
       ShortIdRouter.create_election forging_runtime forged_request
         Sample.empty_store
       = (Ret (created_response forged_request row saved), st')
       /\ ShortIdRouter.election_rows st'
          = ShortIdRouter.election_rows Sample.empty_store ++ [row]
       /\ ShortIdRouter.ElectionRow.created_by row
          = get (jwt_decode forging_runtime (lit "root@example.com")) "email".
Proof.
  apply (router_trusts_an_unverified_token forging_runtime forged_request
           Sample.world1 Sample.empty_store Sample.candidates3_list
           Sample.time1 Sample.time2 (lit "root@example.com"));
    reflexivity.
Defined.

(** ** Short ids *)

Section ShortIds.
Import ShortIdRouter.
Context (rt : Runtime).

Lemma in_firstn {A} (n : nat) (l : list A) (x : A) :
  In x (firstn n l) -> In x l.
Proof.
  revert l. induction n as [|n IH]; intros [|y l] H; cbn [firstn] in H;
    try contradiction.
  destruct H as [H|H]; [left; exact H | right; apply IH; exact H].
Qed.

Lemma strip_dashes_app (a b : jsstr) :
  strip_dashes (a ++ b) = strip_dashes a ++ strip_dashes b.
Proof. apply filter_app. Qed.

Lemma strip_dashes_none (a : jsstr) :
  ~ In 45%N a -> strip_dashes a = a.
Proof.
  unfold strip_dashes. induction a as [|c a IH]; intros H; [reflexivity|].
  cbn [filter]. destruct (N.eqb_spec c 45) as [->|Hc].
  - exfalso. apply H. left; reflexivity.
  - cbn [negb]. f_equal. apply IH. intros Hin. apply H. right; exact Hin.
Qed.
End ShortIds.

(** X16. How a short id is cut from a UUID.  The id [generateShortId] returns
    holds no hyphen and at most ten characters; for a UUID in the usual
    form, whose first group has eight hexadecimal digits, it is those eight
    digits followed by the first two of the second group, so two UUIDs that
    agree on these ten digits give the same id. *)
Theorem short_id_is_the_first_ten_digits
    (rt : Runtime) (st : ShortIdRouter.Store) :
  exists id,
    ShortIdRouter.generateShortId rt st = (Ret id, ShortIdRouter.advance st)
    /\ ~ In 45%N id
    /\ (List.length id <= 10)%nat
    /\ forall a b rest : jsstr,
         uuidv4_at rt (ShortIdRouter.tick st) = a ++ 45%N :: b ++ rest ->
         List.length a = 8%nat -> List.length b = 2%nat ->
         ~ In 45%N a -> ~ In 45%N b ->
         id = a ++ b.
Proof.
  eexists. split; [reflexivity|]. split; [|split].
  - intros H. apply in_firstn in H. unfold ShortIdRouter.strip_dashes in H.
    apply filter_In in H. destruct H as [_ H]. discriminate H.
  - apply firstn_le_length.
  - intros a b rest Hu Ha Hb Hna Hnb. rewrite Hu.
    rewrite strip_dashes_app. cbn [ShortIdRouter.strip_dashes filter].
    rewrite N.eqb_refl. cbn [negb].
    change (filter (fun c => negb (N.eqb c 45)) (b ++ rest))
      with (ShortIdRouter.strip_dashes (b ++ rest)).
    rewrite strip_dashes_app, strip_dashes_none, (strip_dashes_none b)
      by assumption.
    rewrite app_assoc.
    rewrite firstn_app.
    replace (10 - List.length (a ++ b))%nat with 0%nat
      by (rewrite length_app; lia).
    rewrite firstn_all2 by (rewrite length_app; lia).
    cbn [firstn]. apply app_nil_r.
Qed.

Section EscapeHtml.
Import Frontend.
Context (rt : Runtime).

Lemma escapeHtml_string (s : jsstr) :
  escapeHtml rt (JStr s) = flat_map entity s.
Proof. destruct s; reflexivity. Qed.

(** An entity is the character itself, or an ampersand and one of the five
    tails. *)
Lemma entity_cases (c : N) :
  (special c = false /\ entity c = [c])
  \/ (special c = true /\ exists t, In t entity_tails /\ entity c = 38%N :: t).
Proof.
  unfold entity, special. cbn [existsb].
  destruct (N.eqb c 38);
    [right; split; [reflexivity|]; eexists; split; [|reflexivity]; cbn; tauto|].
  destruct (N.eqb c 60);
    [right; split; [reflexivity|]; eexists; split; [|reflexivity]; cbn; tauto|].
  destruct (N.eqb c 62);
    [right; split; [reflexivity|]; eexists; split; [|reflexivity]; cbn; tauto|].
  destruct (N.eqb c 34);
    [right; split; [reflexivity|]; eexists; split; [|reflexivity]; cbn; tauto|].
  destruct (N.eqb c 39);
    [right; split; [reflexivity|]; eexists; split; [|reflexivity]; cbn; tauto|].
  left; split; reflexivity.
Qed.

Lemma special_false (c : N) :
  special c = false ->
  (c <> 38 /\ c <> 60 /\ c <> 62 /\ c <> 34 /\ c <> 39)%N.
Proof.
  unfold special. cbn [existsb]. rewrite !orb_false_iff, !N.eqb_neq. tauto.
Qed.

Lemma tail_is_plain (t : jsstr) :
  In t entity_tails ->
  Forall (fun c => c <> 38 /\ c <> 60 /\ c <> 62 /\ c <> 34 /\ c <> 39)%N t.
Proof.
  cbn. intros [<-|[<-|[<-|[<-|[<-|[]]]]]];
    repeat constructor; discriminate.
Qed.

Lemma ampersand_after (t m pre post : jsstr) :
  ~ In 38%N t -> pre ++ 38%N :: post = t ++ m ->
  exists pre', pre = t ++ pre' /\ m = pre' ++ 38%N :: post.
Proof.
  revert pre. induction t as [|x t IH]; intros pre Hn H.
  - exists pre. split; [reflexivity | symmetry; exact H].
  - destruct pre as [|y pre]; cbn in H; inversion H; subst.
    + exfalso. apply Hn. left; reflexivity.
    + destruct (IH pre) as (pre' & -> & ->); [|assumption|].
      * intros Hin. apply Hn. right; exact Hin.
      * exists pre'. split; reflexivity.
Qed.

Lemma escaped_ampersand (s pre post : jsstr) :
  flat_map entity s = pre ++ 38%N :: post ->
  exists t rest, In t entity_tails /\ post = t ++ rest.
Proof.
  revert pre. induction s as [|c s IH]; intros pre H.
  - destruct pre; discriminate.
  - cbn [flat_map] in H.
    destruct (entity_cases c) as [[Hs He]|[Hs (t & Ht & He)]]; rewrite He in H.
    + apply special_false in Hs.
      destruct pre as [|y pre]; cbn in H; inversion H; subst.
      * exfalso. tauto.
      * eapply IH. eassumption.
    + destruct pre as [|y pre]; cbn in H; inversion H; subst.
      * exists t, (flat_map entity s). split; [exact Ht | reflexivity].
      * symmetry in H2. apply ampersand_after in H2.
        -- destruct H2 as (pre' & _ & H2). eapply IH. exact H2.
        -- intros Hin. pose proof (tail_is_plain t Ht) as Hp.
           rewrite Forall_forall in Hp. apply Hp in Hin. tauto.
Qed.

Lemma escaped_no_markup (s : jsstr) :
  Forall (fun c => c <> 60 /\ c <> 62 /\ c <> 34 /\ c <> 39)%N
         (flat_map entity s).
Proof.
  induction s as [|c s IH]; cbn [flat_map]; [constructor|].
  apply Forall_app. split; [|exact IH].
  destruct (entity_cases c) as [[Hs He]|[Hs (t & Ht & He)]]; rewrite He.
  - apply special_false in Hs. repeat constructor; tauto.
  - constructor; [repeat split; discriminate|].
    eapply Forall_impl; [|apply tail_is_plain; exact Ht]. cbn. tauto.
Qed.

Ltac eqb_case c n :=
  let E := fresh "E" in
  destruct (N.eqb c n) eqn:E; [apply N.eqb_eq in E | apply N.eqb_neq in E].

Ltac eqb_cases c :=
  eqb_case c 38%N;
  [|eqb_case c 60%N;
    [|eqb_case c 62%N; [|eqb_case c 34%N; [|eqb_case c 39%N]]]].

Lemma entity_injective (c1 c2 : N) (r1 r2 : jsstr) :
  entity c1 ++ r1 = entity c2 ++ r2 -> c1 = c2 /\ r1 = r2.
Proof.
  unfold entity. eqb_cases c1; eqb_cases c2; cbn; intros H; inversion H; subst;
    try (split; reflexivity); try congruence; try discriminate.
Qed.

Lemma escape_injective (s1 s2 : jsstr) :
  flat_map entity s1 = flat_map entity s2 -> s1 = s2.
Proof.
  revert s2. induction s1 as [|c1 s1 IH]; intros [|c2 s2] H; cbn [flat_map] in H.
  - reflexivity.
  - exfalso. destruct (entity_cases c2) as [[_ He]|[_ (t & _ & He)]];
      rewrite He in H; discriminate.
  - exfalso. destruct (entity_cases c1) as [[_ He]|[_ (t & _ & He)]];
      rewrite He in H; discriminate.
  - apply entity_injective in H. destruct H as [-> H].
    f_equal. apply IH. exact H.
Qed.

Lemma escape_length (s : jsstr) :
  (List.length s <= List.length (flat_map entity s))%nat
  /\ (existsb special s = true ->
      (List.length s < List.length (flat_map entity s))%nat).
Proof.
  induction s as [|c s [IH1 IH2]]; cbn [flat_map existsb List.length].
  - split; [lia | discriminate].
  - rewrite length_app.
    destruct (entity_cases c) as [[Hs He]|[Hs (t & Ht & He)]];
      rewrite He, Hs; cbn [List.length orb].
    + split; [lia|]. intros H. apply IH2 in H. lia.
    + assert (1 <= List.length t)%nat.
      { cbn in Ht. destruct Ht as [<-|[<-|[<-|[<-|[<-|[]]]]]]; cbn; lia. }
      split; intros; lia.
Qed.

Lemma escape_plain (s : jsstr) :
  existsb special s = false -> flat_map entity s = s.
Proof.
  induction s as [|c s IH]; cbn [flat_map existsb]; [reflexivity|].
  rewrite orb_false_iff. intros [Hc Hs].
  destruct (entity_cases c) as [[_ He]|[Hs' _]]; [|congruence].
  rewrite He, IH by exact Hs. reflexivity.
Qed.

(** X17. [escapeHtml] never lets markup through: whatever value it is given,
    its result contains no angle bracket, no double quote and no apostrophe,
    and every ampersand in it begins one of the five entities. *)
Theorem escapeHtml_leaves_no_markup (v : JsVal) :
  Forall (fun c => c <> 60 /\ c <> 62 /\ c <> 34 /\ c <> 39)%N
         (escapeHtml rt v)
  /\ (forall pre post : jsstr,
        escapeHtml rt v = pre ++ 38%N :: post ->
        exists t rest, In t entity_tails /\ post = t ++ rest).
Proof.
  unfold escapeHtml. destruct (negb (truthy v)).
  - split; [constructor|]. intros [|x pre] post H; discriminate.
  - split; [apply escaped_no_markup|].
    intros pre post H. eapply escaped_ampersand. exact H.
Qed.

(** X18. On strings [escapeHtml] loses nothing and adds nothing it need not:
    two strings with the same escaped form are the same string, the escaped
    form is never shorter than the string, and it is the string itself
    exactly when the string holds none of the five characters. *)
Theorem escapeHtml_is_lossless (s1 s2 : jsstr) :
  (escapeHtml rt (JStr s1) = escapeHtml rt (JStr s2) -> s1 = s2)
  /\ (List.length s1 <= List.length (escapeHtml rt (JStr s1)))%nat
  /\ (escapeHtml rt (JStr s1) = s1 <-> existsb special s1 = false).
Proof.
  rewrite !escapeHtml_string. split; [apply escape_injective|].
  split; [apply escape_length|]. split.
  - intros H. destruct (existsb special s1) eqn:E; [|reflexivity].
    apply escape_length in E. rewrite H in E. lia.
  - apply escape_plain.
Qed.
End EscapeHtml.

Section LoadElections.
Import Frontend.
Context (rt : Runtime).
Context (toLocaleString : option Z -> jsstr).
Context (JSON_stringify : JsVal -> JsVal).

Lemma summary_item (e : FileBackend.Election.t) :
  election_item rt toLocaleString (FileBackend.summary_json e)
  = Ret (nameless_item rt toLocaleString e).
Proof. reflexivity. Qed.

Lemma summary_items (l : list FileBackend.Election.t) :
  election_items rt toLocaleString (map FileBackend.summary_json l)
  = Ret (map (nameless_item rt toLocaleString) l).
Proof.
  induction l as [|e l IH]; [reflexivity|].
  cbn [map election_items]. rewrite summary_item, IH. reflexivity.
Qed.

(** X19. The election list of the page shows no names.  Given the body that
    GET /api/elections of the file-backed server returns, [loadElections]
    appends one item per stored election, in order, and the [strong] element
    of every item is empty: the summaries carry [companyName], the page
    reads [e.name]. *)
Theorem listed_elections_render_without_names
    (req : Request) (w : FileBackend.World) :
  exists r,
    FileBackend.list_elections req w = (Ret r, w)
    /\ loadElections rt toLocaleString JSON_stringify (body r)
       = Ret (Items (map (nameless_item rt toLocaleString)
                         (FileBackend.elections w)))
    /\ Forall (fun e => get (FileBackend.summary_json e) "name" = JUndefined
                        /\ get (FileBackend.summary_json e) "companyName"
                           = JStr (FileBackend.Election.companyName e))
              (FileBackend.elections w).
Proof.
  eexists. split; [reflexivity|]. split.
  - unfold loadElections. cbn [body].
    change (get (obj [("elections",
                       JArr (map FileBackend.summary_json
                                 (FileBackend.elections w)))]) "elections")
      with (JArr (map FileBackend.summary_json (FileBackend.elections w))).
    cbn [truthy isArray elements andb obj map]. 
    rewrite summary_items. reflexivity.
  - apply Forall_forall. intros e _. split; reflexivity.
Qed.
End LoadElections.

(** X20. What decides a login.  The answer is 400 exactly when the
    identifier or the password is missing; otherwise 401 when no stored user
    has the identifier as email or phone, or when bcrypt says the password
    does not match; 500 when bcrypt throws; and 200 with a signed token
    exactly when the first user with that identifier has a matching
    password.  Only the 200 changes anything: one audit line. *)
Theorem login_is_decided_by
    (rt : Runtime) (req : Request) (w : FileBackend.World) :
  exists r w',
    FileBackend.login rt req w = (Ret r, w')
    /\ (status r = 400 <->
        truthy (identifier_of req) && truthy (password_of req) = false)
    /\ (status r = 200 <->
        truthy (identifier_of req) && truthy (password_of req) = true
        /\ exists u,
             lookup_identifier (identifier_of req) (FileBackend.users w)
             = Some u
             /\ compareSync rt (password_of req)
                  (FileBackend.User.password_hash u) = Ret true)
    /\ (status r = 500 <->
        truthy (identifier_of req) && truthy (password_of req) = true
        /\ exists u e,
             lookup_identifier (identifier_of req) (FileBackend.users w)
             = Some u
             /\ compareSync rt (password_of req)
                  (FileBackend.User.password_hash u) = Throw e)
    /\ (status r = 400 \/ status r = 401 \/ status r = 500 \/ status r = 200)
    /\ (status r <> 200 -> w' = w)
    /\ (status r = 200 ->
        exists u,
          r = logged_in_response (token_for rt u (FileBackend.tick w))
          /\ w' = with_login rt u w).
Proof.
  rewrite login_run.
  destruct (truthy (identifier_of req)); cbn [negb orb andb];
    [|do 2 eexists; split; [reflexivity|]; cbn [status error_response];
      repeat split; intros; try discriminate; try tauto;
      try (destruct H as [H _]; discriminate); contradiction].
  destruct (truthy (password_of req)); cbn [negb orb andb];
    [|do 2 eexists; split; [reflexivity|]; cbn [status error_response];
      repeat split; intros; try discriminate; try tauto;
      try (destruct H as [H _]; discriminate); contradiction].
  destruct (lookup_identifier (identifier_of req) (FileBackend.users w))
    as [u|].
  - destruct (compareSync rt (password_of req)
                (FileBackend.User.password_hash u)) as [[|]|e] eqn:Hc;
      do 2 eexists; (split; [reflexivity|]);
      cbn [status error_response logged_in_response];
      repeat split; intros; try discriminate; try tauto;
      try contradiction;
      try (destruct H as (_ & u' & E & H); inversion E; subst;
           rewrite Hc in H; discriminate);
      try (destruct H as (_ & u' & e' & E & H); inversion E; subst;
           rewrite Hc in H; discriminate);
      try (eexists; split; [reflexivity | eassumption]);
      try (eexists; split; reflexivity);
      try (do 2 eexists; split; [reflexivity | eassumption]).
  - do 2 eexists. split; [reflexivity|]. cbn [status error_response].
    repeat split; intros; try discriminate; try tauto; try contradiction;
      try (destruct H as (_ & u' & E & _); discriminate);
      try (destruct H as (_ & u' & e' & E & _); discriminate).
Qed.

Section AppendOnly.
Import FileBackend.
Context (rt : Runtime).

Lemma grown_refl (w w' : World) : files_unchanged w w' -> grown w w'.
Proof.
  intros (Hu & He & Ha). exists [], [], [].
  rewrite !app_nil_r. repeat split; auto.
Qed.

Lemma grown_trans (a b c : World) : grown a b -> grown b c -> grown a c.
Proof.
  intros (lu & le & la & Hu & He & Ha & Hl)
         (lu' & le' & la' & Hu' & He' & Ha' & Hl').
  exists (lu ++ lu'), (le ++ le'), (la ++ la').
  rewrite Hu', He', Ha', Hu, He, Ha, !app_assoc, !length_app.
  repeat split; lia.
Qed.

Lemma serve_grows (c : Call) (w : World) : grown w (snd (serve rt c w)).
Proof.
  destruct c as [req|req|req|req|req|req|req]; cbn [serve].
  - destruct (register_cases rt req w)
      as (r & w' & Hr & [[_ Hf]|(email & phone & _ & _ & _ & _ & _ & _ & ->)]);
      rewrite Hr; cbn [snd]; [apply grown_refl; exact Hf|].
    eexists [_], [], [_]. cbn [with_user users elections audit_log].
    rewrite app_nil_r. repeat split. cbn. lia.
  - destruct (login_cases rt req w)
      as (r & w' & Hr & [[_ ->]|(u & _ & _ & _ & _ & _ & ->)]);
      rewrite Hr; cbn [snd];
      [apply grown_refl; repeat split; reflexivity|].
    eexists [], [], [_]. cbn [with_login users elections audit_log].
    rewrite !app_nil_r. repeat split. cbn. lia.
  - destruct (me_cases rt req w) as (r & w' & Hr & Hf & _).
    rewrite Hr. apply grown_refl. exact Hf.
  - destruct (create_election_cases rt req w)
      as (r & w' & Hr & [[_ Hf]|(u & _ & _ & _ & _ & _ & _ & _ & ->)]);
      rewrite Hr; cbn [snd]; [apply grown_refl; exact Hf|].
    eexists [], [_], [_]. cbn [with_election users elections audit_log].
    rewrite app_nil_r. repeat split. cbn. lia.
  - apply grown_refl. repeat split; reflexivity.
  - apply grown_refl. unfold get_election. monad_step.
    destruct (find_election _ _); repeat split; reflexivity.
  - apply grown_refl. unfold get_candidates. monad_step.
    destruct (find_election _ _); repeat split; reflexivity.
Qed.
End AppendOnly.

(** X21. The three files are append-only.  Whatever the requests, the users,
    the elections and the audit log afterwards are the ones before with
    records appended: no route removes or changes a stored record.  And the
    audit log keeps up: it grows by at least as many lines as users and
    elections were added. *)
Theorem files_are_append_only
    (rt : Runtime) (calls : list Call) (w : FileBackend.World) :
  grown w (serve_all rt calls w).
Proof.
  unfold serve_all. revert w.
  induction calls as [|c calls IH]; intros w; cbn [fold_left].
  - apply grown_refl. repeat split; reflexivity.
  - eapply grown_trans; [apply serve_grows | apply IH].
Qed.

(** X22. The header of the page is the header of the servers.  Without a
    stored token [apiFetch] sends no authorization header, and neither back
    end sees an identity; with one, it sends the token behind the prefix
    that both back ends strip: the router decodes exactly the stored token,
    and the file-backed server verifies exactly the stored token and looks
    the user up by the id in its payload. *)
Theorem apiFetch_header_is_understood
    (rt : Runtime) (token b : JsVal) (id : jsstr) (w : FileBackend.World) :
  (truthy token = false ->
   ShortIdRouter.getUserFromAuthHeader rt (fetched rt token b id) = JNull
   /\ FileBackend.getUserFromAuthHeader rt (fetched rt token b id) w
      = (Ret None, w))
  /\ (truthy token = true ->
      ShortIdRouter.getUserFromAuthHeader rt (fetched rt token b id)
      = js_or (jwt_decode rt (ToString rt token)) JNull
      /\ (jwt_verify rt (ToString rt token)
            (Date_now_at rt (FileBackend.tick w)) = None ->
          FileBackend.getUserFromAuthHeader rt (fetched rt token b id) w
          = (Ret None, FileBackend.advance w))
      /\ (forall (data : JsVal) (uid : jsstr),
            jwt_verify rt (ToString rt token)
              (Date_now_at rt (FileBackend.tick w)) = Some data ->
            get data "id" = JStr uid ->
            FileBackend.getUserFromAuthHeader rt (fetched rt token b id) w
            = (Ret (user_by_id uid (FileBackend.users w)),
               FileBackend.advance w))).
Proof.
  unfold fetched, Frontend.authorization_header. split; intros Ht; rewrite Ht.
  - split; reflexivity.
  - split; [|split].
    + unfold ShortIdRouter.getUserFromAuthHeader. cbn [authorization].
      reflexivity.
    + intros Hv. unfold FileBackend.getUserFromAuthHeader. cbn [authorization].
      change (startsWith (lit "Bearer " ++ ToString rt token) (lit "Bearer "))
        with true.
      change (slice_from 7 (lit "Bearer " ++ ToString rt token))
        with (ToString rt token).
      change (truthy (JStr (lit "Bearer " ++ ToString rt token))) with true.
      cbn [negb orb]. unfold FileBackend.Date_now. monad_step.
      rewrite Hv. reflexivity.
    + intros data uid Hv Hid.
      apply (getUserFromAuthHeader_bearer rt _ w (ToString rt token) data uid);
        [reflexivity | exact Hv | exact Hid].
Qed.
